(** * Hotel room availability: a model of [modules/availability.py]

    The module keeps a delimited table of hotels on disk and exposes two
    operations, [decrement_room_availability] and
    [increment_room_availability]; each one loads the table
    ([_safe_read_csv]), finds the rows that refer to a hotel
    ([_match_rows]), changes the first of them and writes the table back
    through a temporary file ([_atomic_write_csv]).

    Conventions of the model.
    - Text is a [string] of ASCII characters: [strip] and [lower] follow
      Python's [str.strip] and [str.lower] on code points below 128.  On
      other texts Python also strips the white space of Unicode and folds
      the case of letters outside ASCII; a statement about the rows the
      matcher selects is therefore made for tables and targets of ASCII
      texts ([ascii_names], [ascii_only]).
    - Numbers are Python integers, that is [Z].  The column
      [rooms_available], once [astype(int)] has converted it, is an int64
      column (the default integer of NumPy on Linux and macOS, and
      everywhere since NumPy 2): the loader leaves integers between
      [-2^63] and [2^63 - 1] in it, and the assignment of a larger
      integer to one of its cells raises (pandas 2).
    - A pandas [DataFrame] is kept row by row: the list of column names
      and, for each row, the finite map from column name to cell.  Every
      column operation of the source ([astype], [str.strip], [apply], ...)
      acts on each row separately, and is rendered as a map over the rows.
    - A file is identified with the table [pandas.read_csv] finds in it
      (with [dtype=str] every cell is read as text); the file system is a
      finite map from paths to files,
      and the program's effect on it is recorded as the history of the
      states it goes through.
    - pandas is a library: its numeric parser and its regular expressions
      are modelled on a fragment that is spelled out below, and left to an
      arbitrary function ([pandas], a parameter of every definition)
      outside that fragment.  The behaviour modelled is that of pandas 2:
      [astype(str)] turns a missing cell into the text [nan],
      [str.contains] reads its argument as a regular expression, and
      [df.at] raises for an integer the int64 column cannot hold.
    - Paths are POSIX paths ([os.path] is [posixpath]); the name
      [tempfile.mkstemp] chooses is [tmp], some characters the model takes
      as an argument, and the suffix, in the directory it is given. *)

From Stdlib Require Import ZArith String Ascii List Bool Lia.
From Stdlib Require Import DecimalString DecimalZ DecimalPos.
From stdpp Require Import base option list gmap strings.

Local Open Scope string_scope.
Local Open Scope Z_scope.
Local Open Scope list_scope.

(** ** Python strings *)

Module Py.

(** [str.isspace] on one ASCII character: TAB, LF, VT, FF, CR, the four
    separators FS, GS, RS, US and the space. *)
Definition isspace (c : ascii) : bool :=
  let n := nat_of_ascii c in
  ((9 <=? n) && (n <=? 13) || (28 <=? n) && (n <=? 32))%nat.

Fixpoint lstrip (s : string) : string :=
  match s with
  | String c s' => if isspace c then lstrip s' else s
  | EmptyString => EmptyString
  end.

Fixpoint rstrip (s : string) : string :=
  match s with
  | EmptyString => EmptyString
  | String c s' =>
      match rstrip s' with
      | EmptyString => if isspace c then EmptyString else String c EmptyString
      | r => String c r
      end
  end.

(** [s.strip()] *)
Definition strip (s : string) : string := rstrip (lstrip s).

Definition lower_char (c : ascii) : ascii :=
  let n := nat_of_ascii c in
  if ((65 <=? n) && (n <=? 90))%nat then ascii_of_nat (n + 32) else c.

(** [s.lower()] *)
Fixpoint lower (s : string) : string :=
  match s with
  | EmptyString => EmptyString
  | String c s' => String (lower_char c) (lower s')
  end.

(** [s.replace(c, '')] for a one-character [c] *)
Fixpoint remove_char (c : ascii) (s : string) : string :=
  match s with
  | EmptyString => EmptyString
  | String d s' => if Ascii.eqb d c then remove_char c s' else String d (remove_char c s')
  end.

(** [s.startswith(p)] *)
Fixpoint startswith (p s : string) : bool :=
  match p, s with
  | EmptyString, _ => true
  | String a p', String b s' => Ascii.eqb a b && startswith p' s'
  | String _ _, EmptyString => false
  end.

(** [p in s] *)
Fixpoint contains (p s : string) : bool :=
  startswith p s ||
  match s with
  | EmptyString => false
  | String _ s' => contains p s'
  end.


(** [str(n)] for an integer [n] *)
Definition str_of_int (n : Z) : string := NilZero.string_of_int (Z.to_int n).

(** A non-empty run of decimal digits, read as a number. *)
Definition digits_value (s : string) : option Z :=
  Z.of_uint <$> NilZero.uint_of_string s.

(** An optional sign in front of what [p] reads. *)
Definition signed (p : string → option Z) (s : string) : option Z :=
  match s with
  | String "+" s' => p s'
  | String "-" s' => Z.opp <$> p s'
  | _ => p s
  end.

(** A decimal integer literal, [[+-]?[0-9]+]. *)
Definition int_literal : string → option Z := signed digits_value.

End Py.

(** ** Exceptions and results *)

(** The exceptions the module raises or lets through, by their Python class
    (and message, where the module builds one). *)
Inductive exn :=
  | ValueError (msg : string)
  | FileNotFoundError (msg : string)
  | FileExistsError
  | ParserError            (* read_csv: decoding or structural error *)
  | IntCastingNaNError     (* astype(int) on a non-finite number *)
  | re_error               (* re.compile on an ill-formed pattern *)
  | AssertionError         (* df.at with an integer the int64 column cannot hold *)
  | KeyError
  | IndexError
  | Exception (msg : string).

Inductive result (A : Type) :=
  | Ok (a : A)
  | Raise (e : exn).
Arguments Ok {A} a.
Arguments Raise {A} e.

#[global] Instance result_ret : MRet result := @Ok.
#[global] Instance result_bind : MBind result := λ A B k m,
  match m with
  | Ok a => k a
  | Raise e => Raise e
  end.

(** Run [f] over a list, stopping at the first exception. *)
Fixpoint mapM {A B} (f : A → result B) (l : list A) : result (list B) :=
  match l with
  | [] => Ok []
  | a :: l' => b ← f a; bs ← mapM f l'; Ok (b :: bs)
  end.

(** ** The fragment of pandas the module uses *)

(** What [pandas.to_numeric(errors='coerce')] makes of one text. *)
Inductive numeric :=
  | Number (n : Z)   (* a finite number; its integer part, as astype(int) keeps it *)
  | NotANumber       (* NaN: not a number, coerced *)
  | NonFinite.       (* an infinity *)

(** The library outside the modelled fragment: any behaviour is allowed. *)
Record pandas := Pandas {
  (** [to_numeric] on a text that is none of the literals read below *)
  to_numeric_other : string → numeric;
  (** [re.compile(pat).search] for a pattern that uses a special character
      other than the dot; [None] when the pattern does not compile *)
  re_compile_other : string → option (string → bool)
}.

Module Re.

Definition newline : ascii := "010"%char.

(** The special characters of Python's regular expressions. *)
Definition special (c : ascii) : bool :=
  existsb (Ascii.eqb c) (list_ascii_of_string ".^$*+?{}[]\|()").

(** One pattern character against one character of the text: a dot stands
    for any character except a newline, any other character of the
    fragment for itself. *)
Definition char_matches (p c : ascii) : bool :=
  if Ascii.eqb p "." then negb (Ascii.eqb c newline) else Ascii.eqb p c.

(** [re.match]: the pattern matches at the start of the text. *)
Fixpoint match_here (pat s : string) : bool :=
  match pat, s with
  | EmptyString, _ => true
  | String p pat', String c s' => char_matches p c && match_here pat' s'
  | String _ _, EmptyString => false
  end.

(** [re.search]: the pattern matches somewhere in the text. *)
Fixpoint search (pat s : string) : bool :=
  match_here pat s ||
  match s with
  | EmptyString => false
  | String _ s' => search pat s'
  end.

(** The modelled patterns: ordinary characters and dots. *)
Fixpoint simple (pat : string) : bool :=
  match pat with
  | EmptyString => true
  | String c pat' => (Ascii.eqb c "." || negb (special c)) && simple pat'
  end.

(** Patterns without any special character: plain text. *)
Fixpoint literal (pat : string) : bool :=
  match pat with
  | EmptyString => true
  | String c pat' => negb (special c) && literal pat'
  end.

(** [re.sub(r'\.0$', '', s)]: the dollar stands for the end of the text,
    or for the place before a newline that ends the text. *)
Fixpoint sub_dot0 (s : string) : string :=
  match s with
  | EmptyString => EmptyString
  | String c s' =>
      if String.eqb s ".0" then EmptyString
      else if String.eqb s (String "." (String "0" (String newline EmptyString)))
           then String newline EmptyString
           else String c (sub_dot0 s')
  end.

(** [re.compile(pat)], as the search function of the compiled pattern. *)
Definition compile (pd : pandas) (pat : string) : result (string → bool) :=
  if simple pat then Ok (search pat)
  else match re_compile_other pd pat with
       | Some f => Ok f
       | None => Raise re_error
       end.

End Re.

Module Num.

(** Integers up to [2^53] in absolute value survive pandas' float64
    columns unchanged. *)
Definition exact (n : Z) : bool := Z.abs n <=? 2 ^ 53.

(** The integers of an int64 column, the type [astype(int)] gives. *)
Definition int64_min : Z := - 2 ^ 63.
Definition int64_max : Z := 2 ^ 63 - 1.

Definition int64 (n : Z) : bool := (int64_min <=? n) && (n <=? int64_max).

(** An integer read within the range of the column. *)
Definition to_int64 (n : Z) : Z := Z.max int64_min (Z.min n int64_max).

(** The text before and after the first dot. *)
Fixpoint split_dot (s : string) : option (string * string) :=
  match s with
  | EmptyString => None
  | String c s' =>
      if Ascii.eqb c "." then Some (EmptyString, s')
      else match split_dot s' with
           | Some (i, f) => Some (String c i, f)
           | None => None
           end
  end.

(** A decimal with a fraction, [[0-9]+\.[0-9]+], of at most 15 digits (so
    that its float64 value lies strictly between the same two integers):
    the value of its integer part. *)
Definition fraction_literal (s : string) : option Z :=
  match split_dot s with
  | Some (i, f) =>
      match Py.digits_value i, Py.digits_value f with
      | Some n, Some _ => if (String.length i + String.length f <=? 15)%nat then Some n else None
      | _, _ => None
      end
  | None => None
  end.

Definition is_digit (c : ascii) : bool :=
  let n := nat_of_ascii c in ((48 <=? n) && (n <=? 57))%nat.

(** The letters a text read as a number can hold: the [e] of an exponent
    and the letters of [inf], [infinity] and [nan], in either case. *)
Definition is_number_letter (c : ascii) : bool :=
  existsb (Ascii.eqb c) (list_ascii_of_string "einftyaEINFTYA").

(** A character that may stand in a text pandas reads as a number: a
    digit, a sign, the decimal point, one of the letters above, an
    underscore or white space. *)
Definition numeric_char (c : ascii) : bool :=
  is_digit c || is_number_letter c || Py.isspace c ||
  existsb (Ascii.eqb c) (list_ascii_of_string "+-._").

Fixpoint has_foreign_char (s : string) : bool :=
  match s with
  | EmptyString => false
  | String c s' => negb (numeric_char c) || has_foreign_char s'
  end.

(** A text of ASCII characters without the NUL character (at which the
    parser of the library, written in C, would stop reading). *)
Definition is_ascii (c : ascii) : bool :=
  let n := nat_of_ascii c in ((1 <=? n) && (n <=? 127))%nat.

Fixpoint ascii_text (s : string) : bool :=
  match s with
  | EmptyString => true
  | String c s' => is_ascii c && ascii_text s'
  end.

(** What the library makes of a text outside the modelled fragment; the
    number it gives becomes a cell of the int64 column, and is read within
    the range of that column. *)
Definition other (pd : pandas) (s : string) : numeric :=
  match to_numeric_other pd s with
  | Number n => Number (to_int64 n)
  | v => v
  end.

(** [pandas.to_numeric(errors='coerce')] on one text, followed by the
    truncation of [astype(int)]:
    - the text [nan] is NaN;
    - a signed integer literal of absolute value at most [2^53] is that
      integer;
    - a signed decimal with a fraction is truncated toward zero;
    - an ASCII text with a character no number contains is NaN;
    - anything else is left to the library. *)
Definition to_numeric (pd : pandas) (s : string) : numeric :=
  if String.eqb s "nan" then NotANumber
  else match Py.int_literal s with
       | Some n => if exact n then Number n else other pd s
       | None =>
           match Py.signed fraction_literal s with
           | Some n => Number n
           | None =>
               if ascii_text s && has_foreign_char s then NotANumber
               else other pd s
           end
       end.

(** [.fillna(0).astype(int)] on one value. *)
Definition fillna0_astype_int (v : numeric) : result Z :=
  match v with
  | Number n => Ok n
  | NotANumber => Ok 0
  | NonFinite => Raise IntCastingNaNError
  end.

End Num.

(** ** Tables *)

(** A cell of a table: a missing value, a text, or an integer (the
    [rooms_available] column once the loader has converted it). *)
Inductive cell :=
  | NaN
  | Str (s : string)
  | Int (n : Z).

#[global] Instance cell_eq_dec : EqDecision cell.
Proof. solve_decision. Defined.

(** The column names, in file order, and the rows, in file order. *)
Record DataFrame := Frame {
  columns : list string;
  rows : list (gmap string cell)
}.

(** The two status labels. *)
Definition con : string := "còn".
Definition het : string := "hết".

Module Pd.

(** [len(df)] *)
Definition len (df : DataFrame) : nat := length (rows df).

(** [col in df.columns] *)
Definition has_column (df : DataFrame) (col : string) : bool :=
  bool_decide (col ∈ columns df).

(** [df.at[i, col]] inside one row; a column the row lacks reads as
    missing. *)
Definition getitem (r : gmap string cell) (col : string) : cell :=
  default NaN (r !! col).

(** [df[col]], the column as a series of cells *)
Definition column (df : DataFrame) (col : string) : list cell :=
  (λ r, getitem r col) <$> rows df.

(** [df[col] = series]: an existing column is replaced in place, a new
    one is added after the others. *)
Definition assign (df : DataFrame) (col : string) (series : list cell) : DataFrame :=
  {| columns := if has_column df col then columns df else columns df ++ [col];
     rows := zip_with (λ r v, <[col := v]> r) (rows df) series |}.

(** [series.astype(str)]: a missing value becomes the text [nan]. *)
Definition str_of_cell (c : cell) : string :=
  match c with
  | NaN => "nan"
  | Str s => s
  | Int n => Py.str_of_int n
  end.

Definition astype_str (series : list cell) : list cell :=
  (λ c, Str (str_of_cell c)) <$> series.

(** [series.str.f()]: [f] on each text, a missing value elsewhere. *)
Definition str_method (f : string → string) (series : list cell) : list cell :=
  (λ c, match c with Str s => Str (f s) | _ => NaN end) <$> series.

(** [series == text] *)
Definition series_eq (series : list cell) (s : string) : list bool :=
  (λ c, bool_decide (c = Str s)) <$> series.

(** [series.str.contains(pat, na=False)]: the pattern is compiled as a
    regular expression (pandas' default, [regex=True]) and searched in
    each text. *)
Definition str_contains (pd : pandas) (pat : string) (series : list cell)
  : result (list bool) :=
  f ← Re.compile pd pat;
  Ok ((λ c, match c with Str s => f s | _ => false end) <$> series).

(** [a | b] on boolean series *)
Definition series_or (a b : list bool) : list bool := zip_with orb a b.

(** [series.any()] *)
Definition any (a : list bool) : bool := existsb id a.

(** [pd.to_numeric(series, errors='coerce').fillna(0).astype(int)] *)
Definition to_numeric_fillna0_astype_int (pd : pandas) (series : list cell)
  : result (list cell) :=
  mapM (λ c, n ← Num.fillna0_astype_int
                   match c with
                   | Str s => Num.to_numeric pd s
                   | Int n => Number n
                   | NaN => NotANumber
                   end;
             Ok (Int n)) series.

(** [int(x)] for a cell [x].  After the loader the column holds integers
    only; the other two cases are what Python does with a text (digit
    grouping by underscores apart) and with NaN. *)
Definition int_of (x : cell) : result Z :=
  match x with
  | Int n => Ok n
  | Str s => match Py.int_literal (Py.strip s) with
             | Some n => Ok n
             | None => Raise (ValueError "invalid literal for int() with base 10")
             end
  | NaN => Raise (ValueError "cannot convert float NaN to integer")
  end.

(** [df[matches].index[0]]: the label of the first selected row. *)
Definition first_index (matches : list bool) : result nat :=
  match list_find (λ b, b = true) matches with
  | Some (i, _) => Ok i
  | None => Raise IndexError
  end.

(** [df.at[i, col]] *)
Definition at_get (df : DataFrame) (i : nat) (col : string) : result cell :=
  match rows df !! i with
  | Some r => match r !! col with
              | Some c => Ok c
              | None => Raise KeyError
              end
  | None => Raise KeyError
  end.

(** [df.at[i, col] = v], for a row [i] of the table (for an unknown label
    pandas would add a row; [first_index] never returns one). *)
Definition at_set (df : DataFrame) (i : nat) (col : string) (v : cell) : DataFrame :=
  let df := if has_column df col then df else assign df col (replicate (len df) NaN) in
  {| columns := columns df;
     rows := alter (λ r, <[col := v]> r) i (rows df) |}.

(** [df.at[i, col] = v] for an integer [v] and the int64 column the loader
    has made of [rooms_available]: an integer beyond [2^63 - 1] does not
    fit the column, and pandas 2 raises. *)
Definition at_set_int (df : DataFrame) (i : nat) (col : string) (v : Z) : result DataFrame :=
  if v <=? Num.int64_max then Ok (at_set df i col (Int v)) else Raise AssertionError.

(** A cell as text: what [to_csv] writes for it and [read_csv(dtype=str)]
    reads back.  An integer is its decimal digits, a text is itself, a
    missing value is an empty field, which reads as missing. *)
Definition text_cell (c : cell) : cell :=
  match c with
  | Int n => Str (Py.str_of_int n)
  | c => c
  end.

Definition as_text (df : DataFrame) : DataFrame :=
  {| columns := columns df;
     rows := (λ r : gmap string cell, text_cell <$> r) <$> rows df |}.

(** [df.head(k)] *)
Definition head (k : nat) (df : DataFrame) : DataFrame :=
  {| columns := columns df; rows := take k (rows df) |}.

End Pd.

(** ** The file system *)

(** The encodings the loader tries, in its order. *)
Inductive encoding := utf_8_sig | utf_8 | cp1252.

#[global] Instance encoding_eq_dec : EqDecision encoding.
Proof. solve_decision. Defined.

(** A file, as [read_csv] sees it: [Csv enc t] parses to the table [t] under
    [enc], the first encoding of the loader's list that accepts it;
    [Malformed] parses under none (an empty file is one). *)
Inductive file :=
  | Csv (enc : encoding) (t : DataFrame)
  | Malformed.

(** The files by path, now and in the states the program has left behind
    (the most recent first). *)
Record world := World {
  now : gmap string file;
  past : list (gmap string file)
}.

(** Computations that read and change the file system and may raise. *)
Definition M (A : Type) : Type := world → result A * world.

#[global] Instance M_ret : MRet M := λ A a w, (Ok a, w).
#[global] Instance M_bind : MBind M := λ A B k m w,
  match m w with
  | (Ok a, w') => k a w'
  | (Raise e, w') => (Raise e, w')
  end.

Definition raise {A} (e : exn) : M A := λ w, (Raise e, w).
Definition lift {A} (r : result A) : M A := λ w, (r, w).
Definition get_files : M (gmap string file) := λ w, (Ok (now w), w).

(** One step of the file system: the state before it joins the history. *)
Definition put_files (fs : gmap string file) : M unit :=
  λ w, (Ok (), {| now := fs; past := now w :: past w |}).

Fixpoint for_each {A} (l : list A) (body : A → M unit) : M unit :=
  match l with
  | [] => mret ()
  | a :: l' => body a;; for_each l' body
  end.

Module os.

(** [p[:p.rfind('/') + 1]]: the path up to and including its last
    separator. *)
Fixpoint head_of (p : string) : string :=
  match p with
  | EmptyString => EmptyString
  | String c p' =>
      match head_of p' with
      | EmptyString => if Ascii.eqb c "/" then String c EmptyString else EmptyString
      | h => String c h
      end
  end.

Fixpoint all_sep (s : string) : bool :=
  match s with
  | EmptyString => true
  | String c s' => Ascii.eqb c "/" && all_sep s'
  end.

(** [s.rstrip('/')] *)
Fixpoint rstrip_sep (s : string) : string :=
  match s with
  | EmptyString => EmptyString
  | String c s' =>
      match rstrip_sep s' with
      | EmptyString => if Ascii.eqb c "/" then EmptyString else String c EmptyString
      | r => String c r
      end
  end.

(** [s.endswith('/')] *)
Fixpoint ends_with_sep (s : string) : bool :=
  match s with
  | EmptyString => false
  | String c EmptyString => Ascii.eqb c "/"
  | String _ s' => ends_with_sep s'
  end.

(** [os.path.dirname] (posixpath) *)
Definition dirname (p : string) : string :=
  let head := head_of p in
  if negb (String.eqb head "") && negb (all_sep head) then rstrip_sep head else head.

(** [os.path.join(a, b)] (posixpath) *)
Definition join (a b : string) : string :=
  if Py.startswith "/" b then b
  else if String.eqb a "" || ends_with_sep a then a +:+ b
  else a +:+ "/" +:+ b.

(** [os.path.exists] *)
Definition path_exists (p : string) : M bool :=
  fs ← get_files; mret (bool_decide (is_Some (fs !! p))).

(** [os.replace(src, dst)]: the rename is a single step of the file
    system. *)
Definition replace (src dst : string) : M unit :=
  fs ← get_files;
  match fs !! src with
  | Some f => put_files (<[dst := f]> (delete src fs))
  | None => raise (FileNotFoundError src)
  end.

End os.

Module tempfile.

(** [tempfile.mkstemp(suffix, dir=dir)] when the name it draws is
    [tmp<rnd><suffix>]: the file is created empty, and only if no file of
    that name exists.  (The file descriptor, closed at once by the
    caller, is left out.) *)
Definition mkstemp (rnd suffix dir : string) : M string :=
  let file := os.join dir ("tmp" +:+ rnd +:+ suffix) in
  fs ← get_files;
  match fs !! file with
  | Some _ => raise FileExistsError
  | None => put_files (<[file := Malformed]> fs);; mret file
  end.

End tempfile.

(** [pd.read_csv(path, encoding=enc, dtype=str)] *)
Definition read_csv (path : string) (enc : encoding) : M DataFrame :=
  fs ← get_files;
  match fs !! path with
  | None => raise (FileNotFoundError ("No such file or directory: " +:+ path))
  | Some (Csv e t) => if bool_decide (e = enc) then mret (Pd.as_text t) else raise ParserError
  | Some Malformed => raise ParserError
  end.

(** [df.to_csv(path, index=False, encoding='utf-8-sig')]: the file is
    truncated, then the header and the rows reach it one after the other. *)
Definition to_csv (df : DataFrame) (path : string) : M unit :=
  fs ← get_files;
  put_files (<[path := Malformed]> fs);;
  for_each (seq 0 (S (Pd.len df)))
    (λ k, fs ← get_files;
          put_files (<[path := Csv utf_8_sig (Pd.head k (Pd.as_text df))]> fs)).

(** ** The module *)

(** The loop of [_safe_read_csv] over the encodings (lines 7 to 20). *)
Fixpoint read_first (path : string) (encodings : list encoding) (last_exc : option exn)
  : M DataFrame :=
  match encodings with
  | [] => raise (default (Exception "Unable to read CSV") last_exc)
  | enc :: rest =>
      λ w, match read_csv path enc w with
           | (Ok df, w') => (Ok df, w')
           | (Raise (FileNotFoundError msg), w') => (Raise (FileNotFoundError msg), w')
           | (Raise e, w') => read_first path rest (Some e) w'
           end
  end.

(** The status label of an availability: [lambda x: 'còn' if int(x) > 0
    else 'hết']. *)
Definition status_of (x : cell) : result cell :=
  n ← Pd.int_of x; Ok (Str (if 0 <? n then con else het)).

(** The normalisation of [_safe_read_csv] (lines 22 to 34). *)
Definition normalize (pd : pandas) (df : DataFrame) : result DataFrame :=
  let df := if Pd.has_column df "rooms_available" then df
            else Pd.assign df "rooms_available" (replicate (Pd.len df) (Int 0)) in
  let df := Pd.assign df "rooms_available"
              (Pd.str_method Py.strip
                 (Pd.str_method (Py.remove_char ",")
                    (Pd.astype_str (Pd.column df "rooms_available")))) in
  let df := Pd.assign df "rooms_available"
              (Pd.str_method Re.sub_dot0 (Pd.column df "rooms_available")) in
  series ← Pd.to_numeric_fillna0_astype_int pd (Pd.column df "rooms_available");
  let df := Pd.assign df "rooms_available" series in
  if Pd.has_column df "status" then Ok df
  else series ← mapM status_of (Pd.column df "rooms_available");
       Ok (Pd.assign df "status" series).

Definition _safe_read_csv (pd : pandas) (path : string) : M DataFrame :=
  df ← read_first path [utf_8_sig; utf_8; cp1252] None;
  lift (normalize pd df).

(** [_atomic_write_csv]; [rnd] is the random part of the name [mkstemp]
    draws. *)
Definition _atomic_write_csv (rnd : string) (df : DataFrame) (path : string) : M unit :=
  let dirpath := if String.eqb (os.dirname path) "" then "." else os.dirname path in
  tmp_path ← tempfile.mkstemp rnd ".csv" dirpath;
  to_csv df tmp_path;;
  os.replace tmp_path path.

(** [df[col].astype(str).str.strip()] *)
Definition stripped (df : DataFrame) (col : string) : list cell :=
  Pd.str_method Py.strip (Pd.astype_str (Pd.column df col)).

Definition _match_rows (pd : pandas) (df : DataFrame) (hotel_name : string)
  : result (list bool) :=
  let hotel_name := Py.strip hotel_name in
  let candidates := replicate (Pd.len df) false in
  let candidates :=
    if Pd.has_column df "name"
    then Pd.series_or candidates (Pd.series_eq (stripped df "name") hotel_name)
    else candidates in
  let candidates :=
    if Pd.has_column df "hotel_name"
    then Pd.series_or candidates (Pd.series_eq (stripped df "hotel_name") hotel_name)
    else candidates in
  let candidates :=
    if negb (Pd.any candidates) then
      let candidates :=
        if Pd.has_column df "name"
        then Pd.series_or candidates
               (Pd.series_eq (Pd.str_method Py.lower (stripped df "name")) (Py.lower hotel_name))
        else candidates in
      if Pd.has_column df "hotel_name"
      then Pd.series_or candidates
             (Pd.series_eq (Pd.str_method Py.lower (stripped df "hotel_name")) (Py.lower hotel_name))
      else candidates
    else candidates in
  if negb (Pd.any candidates) then
    candidates ←
      (if Pd.has_column df "name"
       then found ← Pd.str_contains pd (Py.lower hotel_name)
                      (Pd.str_method Py.lower (stripped df "name"));
            Ok (Pd.series_or candidates found)
       else Ok candidates);
    if Pd.has_column df "hotel_name"
    then found ← Pd.str_contains pd (Py.lower hotel_name)
                   (Pd.str_method Py.lower (stripped df "hotel_name"));
         Ok (Pd.series_or candidates found)
    else Ok candidates
  else Ok candidates.

Definition no_match_message (hotel_name path : string) : string :=
  "No matching hotel found for name '" +:+ hotel_name +:+ "' in " +:+ path.

Definition decrement_room_availability (pd : pandas) (rnd : string)
    (hotels_csv_path hotel_name : string) (decrement : Z) : M Z :=
  if decrement <=? 0 then raise (ValueError "decrement must be positive") else
  found ← os.path_exists hotels_csv_path;
  if negb found
  then raise (FileNotFoundError ("Hotels CSV not found: " +:+ hotels_csv_path)) else
  df ← _safe_read_csv pd hotels_csv_path;
  matches ← lift (_match_rows pd df hotel_name);
  if negb (Pd.any matches)
  then raise (ValueError (no_match_message hotel_name hotels_csv_path)) else
  first_idx ← lift (Pd.first_index matches);
  x ← lift (Pd.at_get df first_idx "rooms_available");
  current ← lift (Pd.int_of x);
  let new_val := Z.max 0 (current - decrement) in
  df ← lift (Pd.at_set_int df first_idx "rooms_available" new_val);
  let df := Pd.at_set df first_idx "status" (Str (if 0 <? new_val then con else het)) in
  _atomic_write_csv rnd df hotels_csv_path;;
  mret new_val.

Definition increment_room_availability (pd : pandas) (rnd : string)
    (hotels_csv_path hotel_name : string) (increment : Z) : M Z :=
  if increment <=? 0 then raise (ValueError "increment must be positive") else
  found ← os.path_exists hotels_csv_path;
  if negb found
  then raise (FileNotFoundError ("Hotels CSV not found: " +:+ hotels_csv_path)) else
  df ← _safe_read_csv pd hotels_csv_path;
  matches ← lift (_match_rows pd df hotel_name);
  if negb (Pd.any matches)
  then raise (ValueError (no_match_message hotel_name hotels_csv_path)) else
  first_idx ← lift (Pd.first_index matches);
  x ← lift (Pd.at_get df first_idx "rooms_available");
  current ← lift (Pd.int_of x);
  let new_val := current + increment in
  df ← lift (Pd.at_set_int df first_idx "rooms_available" new_val);
  let df := Pd.at_set df first_idx "status" (Str (if 0 <? new_val then con else het)) in
  _atomic_write_csv rnd df hotels_csv_path;;
  mret new_val.

(** ** Notions used in the statements *)


Fixpoint all_chars (f : ascii → bool) (s : string) : bool :=
  match s with
  | EmptyString => true
  | String c s' => f c && all_chars f s'
  end.

(** The path of the temporary file [_atomic_write_csv] creates for [path]
    when [mkstemp] draws [rnd]. *)
Definition tmp_path_of (rnd path : string) : string :=
  os.join (if String.eqb (os.dirname path) "" then "." else os.dirname path)
          ("tmp" +:+ rnd +:+ ".csv").

(** The table the two operations write: row [i] of [df] with the
    availability [v] and the status label that goes with it (lines 94-95
    and 121-122). *)
Definition mutate (df : DataFrame) (i : nat) (v : Z) : DataFrame :=
  Pd.at_set (Pd.at_set df i "rooms_available" (Int v))
            i "status" (Str (if 0 <? v then con else het)).

(** [path] holds a table that the loader turns into [df]. *)
Definition loads (pd : pandas) (w : world) (path : string) (df : DataFrame) : Prop :=
  ∃ enc t, now w !! path = Some (Csv enc t) ∧ normalize pd (Pd.as_text t) = Ok df.

(** Row [i] is the first row of [df] the matcher selects for [hotel_name]. *)
Definition first_match (pd : pandas) (df : DataFrame) (hotel_name : string) (i : nat) : Prop :=
  ∃ matches, _match_rows pd df hotel_name = Ok matches ∧ Pd.first_index matches = Ok i.

(** The availability and the status of row [i]. *)
Definition rooms_available (df : DataFrame) (i : nat) : option Z :=
  match rows df !! i with
  | Some r => match r !! "rooms_available" with
              | Some (Int n) => Some n
              | _ => None
              end
  | None => None
  end.

Definition status (df : DataFrame) (i : nat) : option cell :=
  r ← rows df !! i; r !! "status".

(** Every availability of the table is an integer float64 holds exactly. *)
Definition counts_exact (df : DataFrame) : Prop :=
  ∀ i n, rooms_available df i = Some n → Num.exact n = true.

(** The text of the availability of a row once cleaned (lines 23 to 27):
    the cell as text, or [0] when the table has no such column, without
    commas, stripped, without a final [.0]. *)
Definition rooms_text (has_rooms : bool) (r : gmap string cell) : string :=
  Re.sub_dot0
    (Py.strip
       (Py.remove_char ","
          (Pd.str_of_cell (if has_rooms then Pd.getitem r "rooms_available" else Int 0)))).

(** The loader on one row. *)
Definition load_row (pd : pandas) (has_rooms has_status : bool) (r : gmap string cell)
  : result (gmap string cell) :=
  n ← Num.fillna0_astype_int (Num.to_numeric pd (rooms_text has_rooms r));
  let r := <["rooms_available" := Int n]> r in
  Ok (if has_status then r else <["status" := Str (if 0 <? n then con else het)]> r).

(** The columns of a loaded table: those of the file, then
    [rooms_available] and [status] where the file lacks them. *)
Definition loaded_columns (cols : list string) : list string :=
  let cols := if bool_decide ("rooms_available" ∈ cols) then cols
              else (cols ++ ["rooms_available"])%list in
  if bool_decide ("status" ∈ cols) then cols else (cols ++ ["status"])%list.

(** The characters of [str(n)]. *)
Definition count_char (c : ascii) : bool := Num.is_digit c || Ascii.eqb c "-".

(** A table as the loader leaves it: both columns are there, every
    availability is an integer, and every other cell is a text or
    missing. *)
Definition well_loaded (df : DataFrame) : Prop :=
  Pd.has_column df "rooms_available" = true ∧
  Pd.has_column df "status" = true ∧
  ∀ r, r ∈ rows df →
    (∃ n, r !! "rooms_available" = Some (Int n)) ∧
    (∀ col c, col ≠ "rooms_available" → r !! col = Some c → Pd.text_cell c = c).

(** Row [i] with the availability [v] and its status label. *)
Definition mutate_row (v : Z) (r : gmap string cell) : gmap string cell :=
  <["status" := Str (if 0 <? v then con else het)]> (<["rooms_available" := Int v]> r).

(** What the two operations share once the amount is validated (lines 81 to
    100 and 109 to 126): [new] is the new availability as a function of the
    current one. *)
Definition read_match_write (pd : pandas) (rnd : string)
    (hotels_csv_path hotel_name : string) (new : Z → Z) : M Z :=
  found ← os.path_exists hotels_csv_path;
  if negb found
  then raise (FileNotFoundError ("Hotels CSV not found: " +:+ hotels_csv_path)) else
  df ← _safe_read_csv pd hotels_csv_path;
  matches ← lift (_match_rows pd df hotel_name);
  if negb (Pd.any matches)
  then raise (ValueError (no_match_message hotel_name hotels_csv_path)) else
  first_idx ← lift (Pd.first_index matches);
  x ← lift (Pd.at_get df first_idx "rooms_available");
  current ← lift (Pd.int_of x);
  let new_val := new current in
  df ← lift (Pd.at_set_int df first_idx "rooms_available" new_val);
  let df := Pd.at_set df first_idx "status" (Str (if 0 <? new_val then con else het)) in
  _atomic_write_csv rnd df hotels_csv_path;;
  mret new_val.

(** The writes of [to_csv] to [p], one state of the file system after the
    other. *)
Definition write_steps (p : string) (df : DataFrame) (ks : list nat) (w : world) : world :=
  foldl (λ w k, {| now := <[p := Csv utf_8_sig (Pd.head k (Pd.as_text df))]> (now w);
                   past := now w :: past w |}) w ks.

(** The names of a row: its [name] and [hotel_name] cells as text,
    stripped, for those of the two columns the table has. *)
Definition row_names (df : DataFrame) (r : gmap string cell) : list string :=
  (if Pd.has_column df "name"
   then [Py.strip (Pd.str_of_cell (Pd.getitem r "name"))] else []) ++
  (if Pd.has_column df "hotel_name"
   then [Py.strip (Pd.str_of_cell (Pd.getitem r "hotel_name"))] else []).

(** One stage of the matcher: the rows one of whose names passes [test]. *)
Definition stage (test : string → bool) (df : DataFrame) : list bool :=
  (λ r, existsb test (row_names df r)) <$> rows df.

(** The three stages for a stripped target: equality, equality of the
    lower-cased texts, and a search [f] in the lower-cased name. *)
Definition exact_stage (df : DataFrame) (target : string) : list bool :=
  stage (λ s, bool_decide (s = target)) df.

Definition lower_stage (df : DataFrame) (target : string) : list bool :=
  stage (λ s, bool_decide (Py.lower s = Py.lower target)) df.

Definition search_stage (f : string → bool) (df : DataFrame) : list bool :=
  stage (λ s, f (Py.lower s)) df.

(** The matcher in the spec's words: the rows found at the first of three
    stages that finds any; the third is substring containment. *)
Definition spec_match (df : DataFrame) (target_name : string) : list bool :=
  let target := Py.strip target_name in
  if Pd.any (exact_stage df target) then exact_stage df target
  else if Pd.any (lower_stage df target) then lower_stage df target
  else stage (λ s, Py.contains (Py.lower target) (Py.lower s)) df.

(** A character other than the path separator. *)
Definition not_sep (c : ascii) : bool := negb (Ascii.eqb c "/").

(** The directory [_atomic_write_csv] gives to [mkstemp]: [dirname(path) or
    '.'] (line 38). *)
Definition dirpath_of (path : string) : string :=
  if String.eqb (os.dirname path) "" then "." else os.dirname path.

(** ** Sample data *)

(** A library that reads nothing outside the modelled fragment. *)
Definition plain_pandas : pandas :=
  {| to_numeric_other := λ _, NotANumber; re_compile_other := λ _, None |}.

(** The file system that holds one file. *)
Definition one_file (path : string) (t : DataFrame) : world :=
  {| now := {[ path := Csv utf_8 t ]}; past := [] |}.

(** What the loader returns for a table, or the table itself should the
    loader raise. *)
Definition loaded (pd : pandas) (t : DataFrame) : DataFrame :=
  match normalize pd (Pd.as_text t) with
  | Ok df => df
  | Raise _ => t
  end.

(** The table of the scenario: one hotel, ten rooms, no status column. *)
Definition sunrise : DataFrame :=
  {| columns := ["name"; "rooms_available"];
     rows := [ {[ "name" := Str "Sunrise Inn"; "rooms_available" := Str "10" ]} ] |}.

(** [counts_exact], computed. *)
Definition counts_exactb (df : DataFrame) : bool :=
  forallb (λ r : gmap string cell,
             match r !! "rooms_available" with
             | Some (Int n) => Num.exact n
             | _ => true
             end) (rows df).

(** A table with a status column whose first row is out of date: five rooms
    under the label [hết]. *)
Definition stale : DataFrame :=
  {| columns := ["name"; "rooms_available"; "status"];
     rows := [ {[ "name" := Str "Alpha"; "rooms_available" := Str "5"; "status" := Str het ]};
               {[ "name" := Str "Beta"; "rooms_available" := Str "3"; "status" := Str con ]} ] |}.

(** Two rows of the same name. *)
Definition twins : DataFrame :=
  {| columns := ["name"; "rooms_available"];
     rows := [ {[ "name" := Str "Sea View"; "rooms_available" := Str "2" ]};
               {[ "name" := Str "Grand Hotel"; "rooms_available" := Str "8" ]};
               {[ "name" := Str "Grand Hotel"; "rooms_available" := Str "6" ]} ] |}.

(** A table with a column of codes and an availability written with a
    thousands separator. *)
Definition inventory : DataFrame :=
  {| columns := ["code"; "hotel_name"; "rooms_available"];
     rows := [ {[ "code" := Str "007"; "hotel_name" := Str "Grand Hotel";
                  "rooms_available" := Str "1,200.0" ]};
               {[ "code" := Str "012"; "hotel_name" := Str "Sea View";
                  "rooms_available" := Str "4" ]} ] |}.

(** The same name in two spellings. *)
Definition grand_twice : DataFrame :=
  {| columns := ["name"; "rooms_available"];
     rows := [ {[ "name" := Str "Grand Hotel"; "rooms_available" := Str "5" ]};
               {[ "name" := Str "grand hotel"; "rooms_available" := Str "9" ]} ] |}.

(** One hotel. *)
Definition grand : DataFrame :=
  {| columns := ["name"; "rooms_available"];
     rows := [ {[ "name" := Str "Grand Hotel"; "rooms_available" := Str "5" ]} ] |}.






(** ** Further sample data *)

(** A table whose second row has no name. *)
Definition nameless : DataFrame :=
  {| columns := ["name"; "rooms_available"];
     rows := [ {[ "name" := Str "Sea View"; "rooms_available" := Str "2" ]};
               {[ "name" := NaN; "rooms_available" := Str "7" ]} ] |}.

(** A table without a [name] and without a [hotel_name] column. *)
Definition codes_only : DataFrame :=
  {| columns := ["code"; "rooms_available"];
     rows := [ {[ "code" := Str "007"; "rooms_available" := Str "3" ]} ] |}.

(** The file system whose one file no encoding parses. *)
Definition broken_file (path : string) : world :=
  {| now := {[ path := Malformed ]}; past := [] |}.

(** One hotel without a room left. *)
Definition full_house : DataFrame :=
  {| columns := ["name"; "rooms_available"];
     rows := [ {[ "name" := Str "Sunrise Inn"; "rooms_available" := Str "0" ]} ] |}.


(** ** ASCII names *)

(** A text of ASCII characters.  On such a text [Py.strip] and [Py.lower]
    are [str.strip] and [str.lower]; on other texts Python also strips the
    white space of Unicode and folds the case of letters outside ASCII,
    which the model does not. *)
Definition ascii_only (s : string) : bool :=
  all_chars (λ c, (nat_of_ascii c <? 128)%nat) s.

(** The names the matcher reads in a row, before it strips them. *)
Definition raw_names (df : DataFrame) (r : gmap string cell) : list string :=
  (if Pd.has_column df "name"
   then [Pd.str_of_cell (Pd.getitem r "name")] else []) ++
  (if Pd.has_column df "hotel_name"
   then [Pd.str_of_cell (Pd.getitem r "hotel_name")] else []).

(** Every name of the table is an ASCII text. *)
Definition ascii_names (df : DataFrame) : Prop :=
  ∀ r s, r ∈ rows df → s ∈ raw_names df r → ascii_only s = true.

(** [ascii_names], computed. *)
Definition ascii_namesb (df : DataFrame) : bool :=
  forallb (λ r, forallb ascii_only (raw_names df r)) (rows df).

(** * Facts *)

(** ** Strings *)






(** ** Integers and their decimal form *)

Lemma count_char_facts c :
  count_char c = true →
  Ascii.eqb c "," = false ∧ Ascii.eqb c "." = false ∧ Py.isspace c = false ∧
  Num.numeric_char c = true.
Proof. destruct c as [[|] [|] [|] [|] [|] [|] [|] [|]]; by vm_compute. Qed.

Lemma digit_not_sign c :
  Num.is_digit c = true → Ascii.eqb c "+" = false ∧ Ascii.eqb c "-" = false.
Proof. destruct c as [[|] [|] [|] [|] [|] [|] [|] [|]]; by vm_compute. Qed.

Lemma string_of_uint_digits d :
  all_chars Num.is_digit (NilEmpty.string_of_uint d) = true.
Proof. induction d; simpl; auto. Qed.

Lemma nilzero_string_of_uint_digits d :
  all_chars Num.is_digit (NilZero.string_of_uint d) = true.
Proof. destruct d; try apply string_of_uint_digits. reflexivity. Qed.

Lemma all_chars_impl (f g : ascii → bool) s :
  (∀ c, f c = true → g c = true) → all_chars f s = true → all_chars g s = true.
Proof.
  intros Hfg. induction s as [|c s IH]; simpl; [done|].
  intros [Hc Hs]%andb_true_iff. rewrite (Hfg _ Hc). by apply IH.
Qed.

Lemma str_of_int_chars n : all_chars count_char (Py.str_of_int n) = true.
Proof.
  unfold Py.str_of_int.
  destruct (Z.to_int n) as [d|d]; simpl.
  - eapply all_chars_impl; [|apply nilzero_string_of_uint_digits].
    intros c Hc. unfold count_char. by rewrite Hc.
  - eapply all_chars_impl; [|apply nilzero_string_of_uint_digits].
    intros c Hc. unfold count_char. by rewrite Hc.
Qed.

Lemma remove_char_id c s :
  all_chars (λ d, negb (Ascii.eqb d c)) s = true → Py.remove_char c s = s.
Proof.
  induction s as [|d s IH]; simpl; [done|].
  intros [Hd Hs]%andb_true_iff. apply negb_true_iff in Hd. rewrite Hd.
  by rewrite IH.
Qed.

Lemma lstrip_id s :
  all_chars (λ d, negb (Py.isspace d)) s = true → Py.lstrip s = s.
Proof.
  destruct s as [|d s]; simpl; [done|].
  intros [Hd _]%andb_true_iff. apply negb_true_iff in Hd. by rewrite Hd.
Qed.

Lemma rstrip_id s :
  all_chars (λ d, negb (Py.isspace d)) s = true → Py.rstrip s = s.
Proof.
  induction s as [|d s IH]; simpl; [done|].
  intros [Hd Hs]%andb_true_iff. apply negb_true_iff in Hd.
  rewrite (IH Hs), Hd. by destruct s.
Qed.

Lemma strip_id s :
  all_chars (λ d, negb (Py.isspace d)) s = true → Py.strip s = s.
Proof. intros H. unfold Py.strip. rewrite lstrip_id by done. by apply rstrip_id. Qed.

Lemma sub_dot0_id s :
  all_chars (λ d, negb (Ascii.eqb d ".")) s = true → Re.sub_dot0 s = s.
Proof.
  induction s as [|d s IH]; [done|].
  cbn [all_chars Re.sub_dot0].
  intros [Hd Hs]%andb_true_iff. apply negb_true_iff in Hd.
  assert (∀ t, String.eqb (String d s) (String "." t) = false) as Hne.
  { intros t. simpl. by rewrite Hd. }
  rewrite !Hne. by rewrite IH.
Qed.

(** The clean-up of the loader leaves the decimal form of an integer as it
    is. *)
Lemma clean_str_of_int n :
  Re.sub_dot0 (Py.strip (Py.remove_char "," (Py.str_of_int n))) = Py.str_of_int n.
Proof.
  pose proof (str_of_int_chars n) as H.
  rewrite remove_char_id, strip_id, sub_dot0_id; [done|..];
    (eapply all_chars_impl; [|exact H]); intros c Hc;
    destruct (count_char_facts c Hc) as (H1 & H2 & H3 & _);
    by rewrite ?H1, ?H2, ?H3.
Qed.

Lemma signed_unsigned (p : string → option Z) c s :
  Ascii.eqb c "+" = false → Ascii.eqb c "-" = false →
  Py.signed p (String c s) = p (String c s).
Proof. destruct c as [[|] [|] [|] [|] [|] [|] [|] [|]]; by vm_compute. Qed.

Lemma digits_value_to_uint p :
  Py.digits_value (NilZero.string_of_uint (Pos.to_uint p)) = Some (Z.pos p).
Proof.
  unfold Py.digits_value.
  rewrite NilZero.usu by apply Unsigned.to_uint_nonnil.
  simpl. unfold Z.of_uint. by rewrite DecimalPos.Unsigned.of_to.
Qed.

Lemma to_uint_first_digit p :
  ∃ c s, NilZero.string_of_uint (Pos.to_uint p) = String c s ∧ Num.is_digit c = true.
Proof.
  pose proof (nilzero_string_of_uint_digits (Pos.to_uint p)) as H.
  destruct (NilZero.string_of_uint (Pos.to_uint p)) as [|c s] eqn:E.
  - exfalso. pose proof (Unsigned.to_uint_nonnil p) as Hn.
    destruct (Pos.to_uint p); try done; discriminate E.
  - apply andb_true_iff in H as [Hc _]. eauto.
Qed.

(** Reading back what [str] prints. *)
Lemma int_literal_str_of_int n : Py.int_literal (Py.str_of_int n) = Some n.
Proof.
  unfold Py.int_literal, Py.str_of_int.
  destruct n as [|p|p]; [done|..]; simpl.
  - destruct (to_uint_first_digit p) as (c & s & E & Hc).
    destruct (digit_not_sign c Hc) as [H1 H2].
    rewrite E, signed_unsigned by done. rewrite <- E. apply digits_value_to_uint.
  - by rewrite digits_value_to_uint.
Qed.

Lemma str_of_int_not_nan n : String.eqb (Py.str_of_int n) "nan" = false.
Proof.
  pose proof (str_of_int_chars n) as H.
  destruct (Py.str_of_int n) as [|c s]; [done|].
  apply andb_true_iff in H as [Hc _].
  simpl. destruct (Ascii.eqb_spec c "n") as [->|]; [done|done].
Qed.

(** [to_numeric] reads the decimal form of an integer float64 holds
    exactly as that integer, whatever the library does elsewhere. *)
Lemma to_numeric_str_of_int pd n :
  Num.exact n = true → Num.to_numeric pd (Py.str_of_int n) = Number n.
Proof.
  intros Hn. unfold Num.to_numeric.
  by rewrite str_of_int_not_nan, int_literal_str_of_int, Hn.
Qed.

(** ** Running a function over a list *)

Lemma mapM_fmap {A B C} (f : B → result C) (h : A → B) l :
  mapM f (h <$> l) = mapM (λ x, f (h x)) l.
Proof.
  induction l as [|a l IH]; [done|].
  rewrite fmap_cons. cbn [mapM]. by rewrite IH.
Qed.

Lemma mapM_Ok_fmap {A B} (h : A → B) l : mapM (λ x, Ok (h x)) l = Ok (h <$> l).
Proof.
  induction l as [|a l IH]; [done|].
  rewrite fmap_cons. cbn [mapM]. by rewrite IH.
Qed.

Lemma mapM_bind_zip {A B C} (f : A → result B) (h : A → B → C) l :
  mapM (λ x, y ← f x; Ok (h x y)) l = ys ← mapM f l; Ok (zip_with h l ys).
Proof.
  induction l as [|a l IH]; simpl; [done|].
  destruct (f a) as [b|e]; simpl; [|done].
  rewrite IH. by destruct (mapM f l).
Qed.

Lemma mapM_Ok {A B} (f : A → result B) l ys :
  mapM f l = Ok ys ↔ Forall2 (λ a b, f a = Ok b) l ys.
Proof.
  revert ys. induction l as [|a l IH]; intros ys; simpl.
  - split; [intros [= <-]; constructor | by inversion 1].
  - destruct (f a) as [b|e] eqn:E; simpl.
    + destruct (mapM f l) as [bs|e] eqn:E'; simpl.
      * split.
        -- intros [= <-]. constructor; [done|]. by apply IH.
        -- inversion 1 as [|? b' ? bs' Hb Hbs]; subst.
           apply IH in Hbs. congruence.
      * split; [done|]. inversion 1 as [|? b' ? bs' Hb Hbs]; subst.
        apply IH in Hbs. done.
    + split; [done|]. inversion 1; congruence.
Qed.

Lemma mapM_length {A B} (f : A → result B) l ys :
  mapM f l = Ok ys → length ys = length l.
Proof. intros H%mapM_Ok. symmetry. by eapply Forall2_length. Qed.

(** ** Columns and rows *)

Lemma column_rows {A} (df : DataFrame) col (g : A → gmap string cell) l :
  rows df = g <$> l → Pd.column df col = (λ x, Pd.getitem (g x) col) <$> l.
Proof. intros H. unfold Pd.column. rewrite H. by rewrite <- list_fmap_compose. Qed.

Lemma assign_rows {A} (df : DataFrame) col (g : A → gmap string cell) (h : A → cell) l :
  rows df = g <$> l →
  rows (Pd.assign df col (h <$> l)) = (λ x, <[col := h x]> (g x)) <$> l.
Proof.
  intros H. unfold Pd.assign; simpl. rewrite H.
  rewrite zip_with_fmap_l, zip_with_fmap_r. apply zip_with_diag.
Qed.

Lemma mapM_ext {A B} (f g : A → result B) l :
  (∀ x, f x = g x) → mapM f l = mapM g l.
Proof. intros H. induction l as [|a l IH]; simpl; [done|]. by rewrite H, IH. Qed.

Lemma result_bind_assoc {A B C} (m : result A) (f : A → result B) (g : B → result C) :
  (y ← (x ← m; f x); g y) = (x ← m; y ← f x; g y).
Proof. by destruct m. Qed.

Lemma normalize_rowwise pd df :
  normalize pd df =
  rs ← mapM (load_row pd (Pd.has_column df "rooms_available") (Pd.has_column df "status"))
            (rows df);
  Ok {| columns := loaded_columns (columns df); rows := rs |}.
Proof.
  unfold normalize.
  set (hr := Pd.has_column df "rooms_available").
  set (hs := Pd.has_column df "status").
  set (g0 := λ r : gmap string cell, if hr then r else <["rooms_available" := Int 0]> r).
  set (h1 := λ r, Str (Py.strip (Py.remove_char ","
            (Pd.str_of_cell (if hr then Pd.getitem r "rooms_available" else Int 0))))).
  set (h2 := λ r, Str (rooms_text hr r)).
  set (df0 := if hr then df else _).
  assert (rows df0 = g0 <$> rows df) as R0.
  { subst df0 g0. destruct hr; [by rewrite list_fmap_id|].
    unfold Pd.assign, Pd.len; simpl. by rewrite zip_with_replicate_r_eq. }
  assert (columns df0 = if hr then columns df else (columns df ++ ["rooms_available"])%list) as C0.
  { subst df0. destruct hr eqn:E; [done|]. unfold Pd.assign; simpl. by fold hr; rewrite E. }
  assert (Pd.has_column df0 "rooms_available" = true) as H0.
  { unfold Pd.has_column. rewrite C0. apply bool_decide_eq_true.
    destruct hr eqn:E; [by apply bool_decide_eq_true in E|].
    apply elem_of_app. right. by apply list_elem_of_singleton. }
  clearbody df0.
  assert (Pd.str_method Py.strip (Pd.str_method (Py.remove_char ",")
            (Pd.astype_str (Pd.column df0 "rooms_available"))) = h1 <$> rows df) as ->.
  { rewrite (column_rows _ _ _ _ R0).
    unfold Pd.str_method, Pd.astype_str. rewrite <- !list_fmap_compose.
    apply list_fmap_ext. intros _ r _. subst h1 g0. simpl. do 4 f_equal.
    destruct hr; [done|]. unfold Pd.getitem. by rewrite lookup_insert_eq. }
  set (df1 := Pd.assign df0 _ _).
  assert (R1 := assign_rows df0 "rooms_available" g0 h1 _ R0). fold df1 in R1.
  assert (Pd.has_column df1 "rooms_available" = true) as H1.
  { subst df1. unfold Pd.has_column, Pd.assign; simpl. fold (Pd.has_column df0 "rooms_available").
    by rewrite H0. }
  assert (columns df1 = columns df0) as C1.
  { subst df1. unfold Pd.assign; simpl. by rewrite H0. }
  clearbody df1.
  assert (Pd.str_method Re.sub_dot0 (Pd.column df1 "rooms_available") = h2 <$> rows df) as ->.
  { rewrite (column_rows _ _ _ _ R1).
    unfold Pd.str_method. rewrite <- !list_fmap_compose.
    apply list_fmap_ext. intros _ r _. subst h1 h2. simpl.
    unfold Pd.getitem. by rewrite lookup_insert_eq. }
  set (df2 := Pd.assign df1 _ _).
  assert (R2 := assign_rows df1 "rooms_available" _ h2 _ R1). fold df2 in R2.
  assert (Pd.has_column df2 "rooms_available" = true) as H2.
  { subst df2. unfold Pd.has_column, Pd.assign; simpl. fold (Pd.has_column df1 "rooms_available").
    by rewrite H1. }
  assert (columns df2 = columns df0) as C2.
  { subst df2. unfold Pd.assign; simpl. by rewrite H1. }
  clearbody df2.
  unfold Pd.to_numeric_fillna0_astype_int.
  rewrite (column_rows _ _ _ _ R2), mapM_fmap.
  erewrite mapM_ext; last first.
  { intros r. unfold Pd.getitem. rewrite lookup_insert_eq. subst h2. simpl. reflexivity. }
  rewrite mapM_bind_zip, result_bind_assoc.
  unfold load_row. rewrite mapM_bind_zip, result_bind_assoc.
  destruct (mapM _ (rows df)) as [ns|e] eqn:E; [|done].
  apply mapM_length in E.
  cbn [mbind result_bind].
  remember (zip (rows df) ns) as lz eqn:Hlz.
  assert (∀ C (f : gmap string cell → Z → C),
            zip_with f (rows df) ns = uncurry f <$> lz) as Hzip.
  { intros. subst lz. apply zip_with_zip. }
  assert (rows df = lz.*1) as L1 by (subst lz; symmetry; apply fst_zip; lia).
  clear Hlz. rewrite !Hzip.
  rewrite L1, <- list_fmap_compose in R2.
  set (s3 := uncurry _ <$> lz).
  assert (s3 = (λ p, Int p.2) <$> lz) as ->.
  { subst s3. apply list_fmap_ext. by intros _ [r n] _. }
  set (df3 := Pd.assign df2 _ _).
  assert (R3 := assign_rows df2 "rooms_available" _ (λ p, Int p.2) _ R2). fold df3 in R3.
  assert (columns df3 = columns df0) as C3.
  { subst df3. unfold Pd.assign; simpl. by rewrite H2. }
  assert (Pd.has_column df3 "status" = hs) as H3.
  { unfold Pd.has_column. rewrite C3, C0. subst hs. unfold Pd.has_column.
    destruct hr; [done|]. apply bool_decide_ext.
    rewrite elem_of_app, list_elem_of_singleton. split; [|by left].
    by intros [H|H]. }
  assert (loaded_columns (columns df) =
          if hs then columns df3 else (columns df3 ++ ["status"])%list) as LC.
  { unfold loaded_columns. rewrite C3, C0. fold (Pd.has_column df "rooms_available"). fold hr.
    destruct hr eqn:Ehr.
    - by fold (Pd.has_column df "status").
    - fold hs. rewrite <- H3. unfold Pd.has_column. by rewrite C3, C0. }
  clearbody df3. rewrite H3, LC.
  destruct hs eqn:Ehs.
  - f_equal. destruct df3 as [c3 r3]; simpl in *. f_equal. rewrite R3.
    apply list_fmap_ext. intros _ [r n] _. simpl. subst g0 h1 h2; simpl.
    rewrite !insert_insert_eq. destruct hr; [done|]. by rewrite insert_insert_eq.
  - rewrite (column_rows _ _ _ _ R3), mapM_fmap.
    rewrite (mapM_ext _ (λ p, Ok (Str (if 0 <? p.2 then con else het)))); last first.
    { intros [r n]. unfold Pd.getitem. by rewrite lookup_insert_eq. }
    rewrite mapM_Ok_fmap. cbn [mbind result_bind].
    f_equal. unfold Pd.assign at 1. rewrite H3. f_equal.
    rewrite R3, zip_with_fmap_l, zip_with_fmap_r, zip_with_diag.
    apply list_fmap_ext. intros _ [r n] _. simpl. subst g0 h1 h2; simpl.
    rewrite !insert_insert_eq. destruct hr; [done|]. by rewrite insert_insert_eq.
Qed.

(** ** The loader *)

Lemma loaded_columns_has cols :
  "rooms_available" ∈ loaded_columns cols ∧ "status" ∈ loaded_columns cols.
Proof.
  unfold loaded_columns.
  assert (∀ (x : string) l, x ∈ l ++ [x]) as Hlast.
  { intros x l. apply elem_of_app. right. by apply list_elem_of_singleton. }
  assert (∀ (x y : string) l, x ∈ l → x ∈ l ++ [y]) as Hinit.
  { intros x y l H. apply elem_of_app. by left. }
  repeat case_bool_decide; auto.
Qed.

Lemma loaded_columns_id cols :
  "rooms_available" ∈ cols → "status" ∈ cols → loaded_columns cols = cols.
Proof.
  intros H1 H2. unfold loaded_columns.
  rewrite (bool_decide_eq_true_2 _ H1). by rewrite (bool_decide_eq_true_2 _ H2).
Qed.

(** What [normalize] returns, row by row. *)
Lemma normalize_Ok pd t df :
  normalize pd t = Ok df ↔
  columns df = loaded_columns (columns t) ∧
  Forall2 (λ r r', load_row pd (Pd.has_column t "rooms_available")
                     (Pd.has_column t "status") r = Ok r')
          (rows t) (rows df).
Proof.
  rewrite normalize_rowwise.
  destruct (mapM _ (rows t)) as [rs|e] eqn:E; simpl.
  - apply mapM_Ok in E. split.
    + by intros [= <-].
    + intros [Hc Hr]. apply mapM_Ok in Hr, E.
      destruct df as [c r]; simpl in *. congruence.
  - split; [done|]. intros [_ Hr]. apply mapM_Ok in Hr. congruence.
Qed.

Lemma load_row_Ok pd hr hs r r' :
  load_row pd hr hs r = Ok r' ↔
  ∃ n, Num.fillna0_astype_int (Num.to_numeric pd (rooms_text hr r)) = Ok n ∧
       r' = (if hs then <["rooms_available" := Int n]> r
             else <["status" := Str (if 0 <? n then con else het)]>
                    (<["rooms_available" := Int n]> r)).
Proof.
  unfold load_row.
  destruct (Num.fillna0_astype_int _) as [n|e]; simpl.
  - split; [intros [= <-]; eauto | intros (n' & [= <-] & ->); done].
  - split; [done | intros (n' & [=] & _)].
Qed.

Lemma load_row_rooms pd hr hs r r' :
  load_row pd hr hs r = Ok r' → ∃ n, r' !! "rooms_available" = Some (Int n).
Proof.
  intros (n & _ & ->)%load_row_Ok. exists n.
  destruct hs; [by rewrite lookup_insert_eq|].
  rewrite lookup_insert_ne by done. by rewrite lookup_insert_eq.
Qed.

Lemma text_cell_idemp c : Pd.text_cell (Pd.text_cell c) = Pd.text_cell c.
Proof. by destruct c. Qed.

Lemma normalize_well_loaded pd t df :
  normalize pd (Pd.as_text t) = Ok df → well_loaded df.
Proof.
  intros [Hc Hr]%normalize_Ok.
  pose proof (loaded_columns_has (columns (Pd.as_text t))) as [H1 H2].
  split; [|split].
  - unfold Pd.has_column. rewrite Hc. by apply bool_decide_eq_true.
  - unfold Pd.has_column. rewrite Hc. by apply bool_decide_eq_true.
  - intros r' Hin.
    apply list_elem_of_lookup in Hin as [i Hi].
    destruct (Forall2_lookup_r _ _ _ _ _ Hr Hi) as (r & Hri & Hl).
    split; [by eapply load_row_rooms|].
    intros col c Hcol Hlk.
    assert (∀ c0, r !! col = Some c0 → Pd.text_cell c0 = c0) as Ht.
    { intros c0 Hc0. unfold Pd.as_text in Hri; simpl in Hri.
      rewrite list_lookup_fmap in Hri.
      destruct (rows t !! i) as [r0|]; [|done].
      injection Hri as <-. rewrite lookup_fmap in Hc0.
      destruct (r0 !! col) as [c1|]; [|done]. injection Hc0 as <-.
      apply text_cell_idemp. }
    apply load_row_Ok in Hl as (n & _ & ->).
    destruct (Pd.has_column (Pd.as_text t) "status").
    + rewrite lookup_insert_ne in Hlk by done. by apply Ht.
    + destruct (decide (col = "status")) as [->|Hs].
      * rewrite lookup_insert_eq in Hlk. by injection Hlk as <-.
      * rewrite !lookup_insert_ne in Hlk by done. by apply Ht.
Qed.

(** Reading back what was written: a loaded table whose availabilities
    float64 holds exactly loads as itself. *)
Lemma normalize_as_text pd df :
  well_loaded df → counts_exact df → normalize pd (Pd.as_text df) = Ok df.
Proof.
  intros (H1 & H2 & Hrows) Hex.
  apply normalize_Ok. unfold Pd.has_column in *. simpl.
  apply bool_decide_eq_true in H1, H2.
  rewrite (bool_decide_eq_true_2 _ H1), (bool_decide_eq_true_2 _ H2).
  split; [by rewrite loaded_columns_id|].
  apply Forall2_fmap_l, Forall2_same_length_lookup. split; [done|].
  intros i r r' Hr Hr'. assert (r' = r) as -> by congruence. clear Hr'.
  destruct (Hrows r) as [[n Hn] Hother]; [by eapply list_elem_of_lookup_2|].
  apply load_row_Ok. exists n. split.
  - unfold rooms_text, Pd.getitem. rewrite lookup_fmap, Hn. simpl.
    rewrite clean_str_of_int, to_numeric_str_of_int; [done|].
    apply (Hex i). unfold rooms_available. by rewrite Hr, Hn.
  - apply map_eq. intros col.
    destruct (decide (col = "rooms_available")) as [->|Hne].
    + by rewrite lookup_insert_eq.
    + rewrite lookup_insert_ne, lookup_fmap by done.
      destruct (r !! col) as [c|] eqn:Ec; [|done]. simpl.
      by rewrite (Hother col c).
Qed.

(** ** The mutation *)

Lemma at_set_has_column df i col v :
  Pd.has_column df col = true →
  Pd.at_set df i col v =
  {| columns := columns df; rows := alter (λ r, <[col := v]> r) i (rows df) |}.
Proof. intros H. unfold Pd.at_set. by rewrite H. Qed.

Lemma mutate_frame df i v :
  Pd.has_column df "rooms_available" = true →
  Pd.has_column df "status" = true →
  mutate df i v = {| columns := columns df; rows := alter (mutate_row v) i (rows df) |}.
Proof.
  intros H1 H2. unfold mutate.
  rewrite (at_set_has_column df) by done.
  rewrite at_set_has_column by done. simpl. f_equal.
  by rewrite list_alter_alter_eq.
Qed.

Lemma mutate_columns df i v :
  well_loaded df → columns (mutate df i v) = columns df.
Proof. intros (H1 & H2 & _). by rewrite mutate_frame. Qed.

Lemma mutate_lookup df i v r :
  well_loaded df → rows df !! i = Some r →
  rows (mutate df i v) !! i = Some (mutate_row v r).
Proof.
  intros (H1 & H2 & _) Hr. rewrite mutate_frame by done. simpl.
  by rewrite list_lookup_alter_eq, Hr.
Qed.

Lemma mutate_lookup_ne df i j v :
  well_loaded df → i ≠ j → rows (mutate df i v) !! j = rows df !! j.
Proof.
  intros (H1 & H2 & _) Hne. rewrite mutate_frame by done. simpl.
  by rewrite list_lookup_alter_ne.
Qed.

Lemma mutate_length df i v :
  well_loaded df → length (rows (mutate df i v)) = length (rows df).
Proof.
  intros (H1 & H2 & _). rewrite mutate_frame by done. simpl. apply length_alter.
Qed.

Lemma mutate_row_rooms v r : mutate_row v r !! "rooms_available" = Some (Int v).
Proof. unfold mutate_row. rewrite lookup_insert_ne by done. apply lookup_insert_eq. Qed.

Lemma mutate_row_status v r :
  mutate_row v r !! "status" = Some (Str (if 0 <? v then con else het)).
Proof. apply lookup_insert_eq. Qed.

Lemma mutate_row_other v r col :
  col ≠ "rooms_available" → col ≠ "status" → mutate_row v r !! col = r !! col.
Proof. intros H1 H2. unfold mutate_row. by rewrite !lookup_insert_ne. Qed.

Lemma mutate_rooms_available df i v :
  well_loaded df → (i < length (rows df))%nat → rooms_available (mutate df i v) i = Some v.
Proof.
  intros Hwl Hi. destruct (lookup_lt_is_Some_2 _ _ Hi) as [r Hr].
  unfold rooms_available. by rewrite (mutate_lookup _ _ _ r), mutate_row_rooms.
Qed.

Lemma mutate_status df i v :
  well_loaded df → (i < length (rows df))%nat →
  status (mutate df i v) i = Some (Str (if 0 <? v then con else het)).
Proof.
  intros Hwl Hi. destruct (lookup_lt_is_Some_2 _ _ Hi) as [r Hr].
  unfold status. rewrite (mutate_lookup _ _ _ r) by done. simpl.
  apply mutate_row_status.
Qed.

Lemma mutate_well_loaded df i v : well_loaded df → well_loaded (mutate df i v).
Proof.
  intros Hwl. pose proof Hwl as (H1 & H2 & Hrows).
  split; [|split].
  - unfold Pd.has_column. by rewrite mutate_columns.
  - unfold Pd.has_column. by rewrite mutate_columns.
  - intros r' [j Hj]%list_elem_of_lookup.
    destruct (decide (i = j)) as [<-|Hne].
    + destruct (rows df !! i) as [r|] eqn:Hr.
      * rewrite (mutate_lookup _ _ _ r) in Hj by done. injection Hj as <-.
        split; [eexists; apply mutate_row_rooms|].
        intros col c Hcol Hc.
        destruct (decide (col = "status")) as [->|Hs].
        -- rewrite mutate_row_status in Hc. by injection Hc as <-.
        -- rewrite mutate_row_other in Hc by done.
           eapply (Hrows r); [by eapply list_elem_of_lookup_2|done..].
      * apply lookup_lt_Some in Hj. apply lookup_ge_None in Hr.
        rewrite mutate_length in Hj by done. lia.
    + rewrite mutate_lookup_ne in Hj by done.
      apply Hrows. by eapply list_elem_of_lookup_2.
Qed.

Lemma mutate_counts_exact df i v :
  well_loaded df → counts_exact df → Num.exact v = true → counts_exact (mutate df i v).
Proof.
  intros Hwl Hex Hv j n. unfold rooms_available.
  destruct (decide (i = j)) as [<-|Hne].
  - destruct (rows df !! i) as [r|] eqn:Hr.
    + rewrite (mutate_lookup _ _ _ r), mutate_row_rooms by done. by intros [= <-].
    + destruct (rows (mutate df i v) !! i) eqn:E; [|done].
      apply lookup_lt_Some in E. apply lookup_ge_None in Hr.
      rewrite mutate_length in E by done. lia.
  - rewrite mutate_lookup_ne by done. apply (Hex j).
Qed.

Lemma well_loaded_rooms df i :
  well_loaded df → (i < length (rows df))%nat → ∃ c, rooms_available df i = Some c.
Proof.
  intros (_ & _ & Hrows) Hi. destruct (lookup_lt_is_Some_2 _ _ Hi) as [r Hr].
  destruct (Hrows r) as [[n Hn] _]; [by eapply list_elem_of_lookup_2|].
  exists n. unfold rooms_available. by rewrite Hr, Hn.
Qed.

(** ** The file system *)

Lemma bind_Ok {A B} (m : M A) (k : A → M B) w a w' :
  m w = (Ok a, w') → (m ≫= k) w = k a w'.
Proof. intros H. unfold mbind, M_bind. by rewrite H. Qed.

Lemma bind_Raise {A B} (m : M A) (k : A → M B) w e w' :
  m w = (Raise e, w') → (m ≫= k) w = (Raise e, w').
Proof. intros H. unfold mbind, M_bind. by rewrite H. Qed.

Lemma decrement_unfold pd rnd path name a :
  decrement_room_availability pd rnd path name a =
  if a <=? 0 then raise (ValueError "decrement must be positive")
  else read_match_write pd rnd path name (λ current, Z.max 0 (current - a)).
Proof. reflexivity. Qed.

Lemma increment_unfold pd rnd path name a :
  increment_room_availability pd rnd path name a =
  if a <=? 0 then raise (ValueError "increment must be positive")
  else read_match_write pd rnd path name (λ current, current + a).
Proof. reflexivity. Qed.

Lemma read_csv_Csv path enc e t w :
  now w !! path = Some (Csv enc t) →
  read_csv path e w =
  if bool_decide (enc = e) then (Ok (Pd.as_text t), w) else (Raise ParserError, w).
Proof.
  intros H. unfold read_csv, mbind, M_bind, get_files. rewrite H.
  by destruct (bool_decide (enc = e)).
Qed.

Lemma read_first_Csv path enc t w :
  now w !! path = Some (Csv enc t) →
  read_first path [utf_8_sig; utf_8; cp1252] None w = (Ok (Pd.as_text t), w).
Proof.
  intros H. cbn [read_first].
  rewrite !(read_csv_Csv _ _ _ _ _ H). destruct enc; simpl; try done.
  - by rewrite (read_csv_Csv _ _ _ _ _ H).
  - rewrite (read_csv_Csv _ _ _ _ _ H). simpl. by rewrite (read_csv_Csv _ _ _ _ _ H).
Qed.

Lemma safe_read_csv_Csv pd path enc t w :
  now w !! path = Some (Csv enc t) →
  _safe_read_csv pd path w = (normalize pd (Pd.as_text t), w).
Proof.
  intros H. unfold _safe_read_csv.
  by rewrite (bind_Ok _ _ _ _ _ (read_first_Csv _ _ _ _ H)).
Qed.

Lemma for_each_write_steps p df ks w :
  for_each ks (λ k, fs ← get_files;
                    put_files (<[p := Csv utf_8_sig (Pd.head k (Pd.as_text df))]> fs)) w
  = (Ok (), write_steps p df ks w).
Proof.
  revert w. induction ks as [|k ks IH]; intros w; [done|].
  cbn [for_each]. unfold mbind at 1, M_bind at 1.
  unfold mbind at 1, M_bind at 1, get_files, put_files. simpl.
  rewrite IH. done.
Qed.

(** The states [write_steps] goes through differ from the first one at [p]
    only. *)
Lemma write_steps_spec p df ks w :
  ∃ steps,
    past (write_steps p df ks w) = steps ++ past w ∧
    (∀ q, q ≠ p → Forall (λ s, s !! q = now w !! q) steps) ∧
    (∀ q, q ≠ p → now (write_steps p df ks w) !! q = now w !! q) ∧
    now (write_steps p df ks w) =
      match last ks with
      | Some k => <[p := Csv utf_8_sig (Pd.head k (Pd.as_text df))]> (now w)
      | None => now w
      end.
Proof.
  revert w. induction ks as [|k ks IH]; intros w.
  - exists []. by repeat split.
  - unfold write_steps. cbn [foldl].
    fold (write_steps p df ks
            {| now := <[p:=Csv utf_8_sig (Pd.head k (Pd.as_text df))]> (now w);
               past := now w :: past w |}).
    destruct (IH {| now := <[p:=Csv utf_8_sig (Pd.head k (Pd.as_text df))]> (now w);
                    past := now w :: past w |}) as (steps & Hp & Hs & Hn & Hl).
    simpl in *. exists (steps ++ [now w]). repeat split.
    + by rewrite Hp, <- app_assoc.
    + intros q Hq. apply Forall_app. split.
      * eapply Forall_impl; [by apply Hs|]. simpl. intros s ->.
        by rewrite lookup_insert_ne.
      * by repeat constructor.
    + intros q Hq. rewrite Hn by done. by rewrite lookup_insert_ne.
    + rewrite Hl. destruct ks as [|k' ks]; [done|].
      rewrite !last_cons. destruct (last ks); by rewrite insert_insert_eq.
Qed.

Lemma last_seq_S n : last (seq 0 (S n)) = Some n.
Proof. rewrite seq_S. apply last_snoc. Qed.

Lemma head_all df : Pd.head (Pd.len df) (Pd.as_text df) = Pd.as_text df.
Proof.
  unfold Pd.head, Pd.as_text, Pd.len; simpl. f_equal.
  apply take_ge. by rewrite length_fmap.
Qed.

Lemma mkstemp_run rnd path w :
  now w !! tmp_path_of rnd path = None →
  tempfile.mkstemp rnd ".csv"
    (if String.eqb (os.dirname path) "" then "." else os.dirname path) w =
  (Ok (tmp_path_of rnd path),
   {| now := <[tmp_path_of rnd path := Malformed]> (now w); past := now w :: past w |}).
Proof.
  intros H. unfold tempfile.mkstemp. fold (tmp_path_of rnd path). cbv zeta.
  unfold mbind at 1, M_bind at 1, get_files. by rewrite H.
Qed.

(** [_atomic_write_csv] when the name [mkstemp] draws is free: every state
    the file system goes through before the last differs from the first
    at the temporary path only, the state before the last holds the whole
    table at the temporary path, and the last is the first with the table
    at [path]. *)
Lemma atomic_write_run rnd df path w :
  now w !! tmp_path_of rnd path = None →
  tmp_path_of rnd path ≠ path →
  ∃ w' s steps,
    _atomic_write_csv rnd df path w = (Ok (), w') ∧
    now w' = <[path := Csv utf_8_sig (Pd.as_text df)]> (now w) ∧
    past w' = s :: steps ++ past w ∧
    s !! tmp_path_of rnd path = Some (Csv utf_8_sig (Pd.as_text df)) ∧
    Forall (λ s, ∀ q, q ≠ tmp_path_of rnd path → s !! q = now w !! q) (s :: steps).
Proof.
  intros Hfresh Hne. unfold _atomic_write_csv.
  rewrite (bind_Ok _ _ _ _ _ (mkstemp_run rnd path w Hfresh)).
  set (tmp := tmp_path_of rnd path) in *.
  set (w1 := {| now := <[tmp := Malformed]> (now w); past := now w :: past w |}).
  set (w2 := {| now := <[tmp := Malformed]> (now w1); past := now w1 :: past w1 |}).
  set (w3 := write_steps tmp df (seq 0 (S (Pd.len df))) w2).
  destruct (write_steps_spec tmp df (seq 0 (S (Pd.len df))) w2)
    as (steps & Hp & Hs & Hn & Hl).
  fold w3 in Hp, Hn, Hl. rewrite last_seq_S, head_all in Hl.
  assert (to_csv df tmp w1 = (Ok (), w3)) as Hcsv.
  { unfold to_csv. unfold mbind at 1, M_bind at 1, get_files.
    unfold mbind at 1, M_bind at 1, put_files. fold w2.
    apply for_each_write_steps. }
  assert (now w3 !! tmp = Some (Csv utf_8_sig (Pd.as_text df))) as Htmp.
  { rewrite Hl. apply lookup_insert_eq. }
  exists {| now := <[path := Csv utf_8_sig (Pd.as_text df)]> (delete tmp (now w3));
            past := now w3 :: past w3 |}, (now w3), (steps ++ [now w1; now w]).
  repeat split.
  - fold w1. rewrite (bind_Ok _ _ _ _ _ Hcsv).
    unfold os.replace, mbind, M_bind, get_files, put_files. by rewrite Htmp.
  - simpl. f_equal. rewrite Hl. subst w2 w1; simpl.
    rewrite !insert_insert_eq. by apply delete_insert_id.
  - simpl. rewrite Hp. subst w2 w1; simpl. by rewrite <- app_assoc.
  - done.
  - assert (∀ q, q ≠ tmp → now w1 !! q = now w !! q) as H1.
    { intros q Hq. subst w1; simpl. by rewrite lookup_insert_ne. }
    assert (∀ q, q ≠ tmp → now w2 !! q = now w !! q) as H2.
    { intros q Hq. subst w2; simpl. rewrite lookup_insert_ne by done. by apply H1. }
    constructor.
    + intros q Hq. rewrite Hn by done. by apply H2.
    + apply Forall_app. split.
      * apply Forall_forall. intros s Hin q Hq.
        specialize (Hs q Hq). rewrite Forall_forall in Hs.
        rewrite (Hs s Hin). by apply H2.
      * repeat constructor; done.
Qed.

(** ** The first selected row *)

Lemma first_index_Ok matches i :
  Pd.first_index matches = Ok i ↔
  matches !! i = Some true ∧ ∀ j, (j < i)%nat → matches !! j = Some false.
Proof.
  unfold Pd.first_index.
  destruct (list_find _ matches) as [[i' b]|] eqn:E.
  - apply list_find_Some in E as (Hi & -> & Hlt). split.
    + intros [= <-]. split; [done|]. intros j Hj.
      destruct (lookup_lt_is_Some_2 matches j) as [[|] Hb].
      { apply lookup_lt_Some in Hi. lia. }
      * by destruct (Hlt j true Hb Hj).
      * done.
    + intros [Hi' Hlt']. f_equal.
      destruct (Nat.lt_trichotomy i i') as [H|[H|H]]; [|done|].
      * by destruct (Hlt i true Hi' H).
      * specialize (Hlt' i' H). congruence.
  - split; [done|]. intros [Hi _].
    apply list_find_None in E. rewrite Forall_forall in E.
    destruct (E true); [by eapply list_elem_of_lookup_2|done].
Qed.

Lemma any_true matches : Pd.any matches = true ↔ ∃ i, matches !! i = Some true.
Proof.
  unfold Pd.any. rewrite existsb_exists. split.
  - intros (b & Hin & Hb). simpl in Hb. subst b.
    apply list_elem_of_In, list_elem_of_lookup in Hin. done.
  - intros [i Hi]. exists true. split; [|done].
    apply list_elem_of_In. by eapply list_elem_of_lookup_2.
Qed.

Lemma first_index_any matches i : Pd.first_index matches = Ok i → Pd.any matches = true.
Proof. intros [Hi _]%first_index_Ok. apply any_true. eauto. Qed.

Lemma any_first_index matches :
  Pd.any matches = true → ∃ i, Pd.first_index matches = Ok i.
Proof.
  intros [i Hi]%any_true. unfold Pd.first_index.
  destruct (list_find _ matches) as [[i' b]|] eqn:E; [eauto|].
  apply list_find_None in E. rewrite Forall_forall in E.
  destruct (E true); [by eapply list_elem_of_lookup_2|done].
Qed.

Lemma at_get_rooms df i c :
  rooms_available df i = Some c → Pd.at_get df i "rooms_available" = Ok (Int c).
Proof.
  unfold rooms_available, Pd.at_get.
  destruct (rows df !! i) as [r|]; [|done].
  destruct (r !! "rooms_available") as [[| |n]|]; try done. by intros [= ->].
Qed.

(** ** The two operations, run *)

(** A run that finds a row: the value returned, the file system it leaves
    and the states it went through. *)
Lemma read_match_write_run pd rnd path name new w df i c :
  loads pd w path df →
  first_match pd df name i →
  rooms_available df i = Some c →
  now w !! tmp_path_of rnd path = None →
  new c ≤ Num.int64_max →
  ∃ w' s steps,
    read_match_write pd rnd path name new w = (Ok (new c), w') ∧
    now w' = <[path := Csv utf_8_sig (Pd.as_text (mutate df i (new c)))]> (now w) ∧
    past w' = s :: steps ++ past w ∧
    s !! tmp_path_of rnd path = Some (Csv utf_8_sig (Pd.as_text (mutate df i (new c)))) ∧
    Forall (λ s, ∀ q, q ≠ tmp_path_of rnd path → s !! q = now w !! q) (s :: steps).
Proof.
  intros (enc & t & Hfile & Hload) (matches & Hm & Hi) Hc Hfresh Hmax.
  assert (tmp_path_of rnd path ≠ path) as Hne by (intros E; congruence).
  destruct (atomic_write_run rnd (mutate df i (new c)) path w Hfresh Hne)
    as (w' & s & steps & Hrun & Hnow & Hpast & Hs & Hsteps).
  exists w', s, steps. repeat split; try done.
  unfold read_match_write.
  unfold mbind at 1, M_bind at 1. unfold os.path_exists, mbind at 1, M_bind at 1, get_files.
  rewrite Hfile. simpl.
  rewrite (bind_Ok _ _ w (df) w); last first.
  { by rewrite (safe_read_csv_Csv _ _ _ _ _ Hfile), Hload. }
  unfold mbind at 1, M_bind at 1, lift. rewrite Hm.
  rewrite (first_index_any _ _ Hi). simpl.
  unfold mbind at 1, M_bind at 1. rewrite Hi.
  unfold mbind at 1, M_bind at 1. rewrite (at_get_rooms _ _ _ Hc).
  unfold mbind at 1, M_bind at 1. simpl.
  unfold mbind at 1, M_bind at 1, lift, Pd.at_set_int.
  assert ((new c <=? Num.int64_max) = true) as -> by lia.
  fold (mutate df i (new c)).
  unfold mbind at 1, M_bind at 1. by rewrite Hrun.
Qed.

(** A run whose new availability does not fit the column: the assignment
    raises before anything is written. *)
Lemma read_match_write_overflow pd rnd path name new w df i c :
  loads pd w path df →
  first_match pd df name i →
  rooms_available df i = Some c →
  Num.int64_max < new c →
  read_match_write pd rnd path name new w = (Raise AssertionError, w).
Proof.
  intros (enc & t & Hfile & Hload) (matches & Hm & Hi) Hc Hmax.
  unfold read_match_write.
  unfold mbind at 1, M_bind at 1. unfold os.path_exists, mbind at 1, M_bind at 1, get_files.
  rewrite Hfile. simpl.
  rewrite (bind_Ok _ _ w (df) w); last first.
  { by rewrite (safe_read_csv_Csv _ _ _ _ _ Hfile), Hload. }
  unfold mbind at 1, M_bind at 1, lift. rewrite Hm.
  rewrite (first_index_any _ _ Hi). simpl.
  unfold mbind at 1, M_bind at 1. rewrite Hi.
  unfold mbind at 1, M_bind at 1. rewrite (at_get_rooms _ _ _ Hc).
  unfold mbind at 1, M_bind at 1. simpl.
  unfold mbind at 1, M_bind at 1, lift, Pd.at_set_int.
  by assert ((new c <=? Num.int64_max) = false) as -> by lia.
Qed.

(** ** The matcher *)

Lemma series_or_replicate n b :
  length b = n → Pd.series_or (replicate n false) b = b.
Proof.
  intros <-. unfold Pd.series_or.
  induction b as [|x b IH]; simpl; [done|]. by rewrite IH.
Qed.

Lemma series_or_fmap {A} (f g : A → bool) l :
  Pd.series_or (f <$> l) (g <$> l) = (λ x, f x || g x) <$> l.
Proof.
  unfold Pd.series_or. rewrite zip_with_fmap_l, zip_with_fmap_r. apply zip_with_diag.
Qed.

Lemma any_false_replicate c : Pd.any c = false → c = replicate (length c) false.
Proof.
  unfold Pd.any. induction c as [|x c IH]; simpl; [done|].
  intros [-> Hc]%orb_false_iff. by rewrite <- IH.
Qed.

Lemma series_or_any_false c b :
  Pd.any c = false → length b = length c → Pd.series_or c b = b.
Proof.
  intros Hc Hl. rewrite (any_false_replicate c Hc). by apply series_or_replicate.
Qed.

Lemma series_eq_stripped df col s :
  Pd.series_eq (stripped df col) s =
  (λ r, bool_decide (Py.strip (Pd.str_of_cell (Pd.getitem r col)) = s)) <$> rows df.
Proof.
  unfold Pd.series_eq, stripped, Pd.str_method, Pd.astype_str, Pd.column.
  rewrite <- !list_fmap_compose. apply list_fmap_ext. intros _ r _. simpl.
  apply bool_decide_ext. split; [by intros [= ->] | by intros ->].
Qed.

Lemma series_eq_lower df col s :
  Pd.series_eq (Pd.str_method Py.lower (stripped df col)) s =
  (λ r, bool_decide (Py.lower (Py.strip (Pd.str_of_cell (Pd.getitem r col))) = s)) <$> rows df.
Proof.
  unfold Pd.series_eq, stripped, Pd.str_method, Pd.astype_str, Pd.column.
  rewrite <- !list_fmap_compose. apply list_fmap_ext. intros _ r _. simpl.
  apply bool_decide_ext. split; [by intros [= ->] | by intros ->].
Qed.

Lemma str_contains_lower pd pat df col :
  Pd.str_contains pd pat (Pd.str_method Py.lower (stripped df col)) =
  f ← Re.compile pd pat;
  Ok ((λ r, f (Py.lower (Py.strip (Pd.str_of_cell (Pd.getitem r col))))) <$> rows df).
Proof.
  unfold Pd.str_contains. destruct (Re.compile pd pat) as [f|e]; [|done]. simpl.
  unfold stripped, Pd.str_method, Pd.astype_str, Pd.column.
  by rewrite <- !list_fmap_compose.
Qed.

Lemma stage_cases test df :
  stage test df =
  (λ r, match Pd.has_column df "name", Pd.has_column df "hotel_name" with
        | true, true => test (Py.strip (Pd.str_of_cell (Pd.getitem r "name"))) ||
                        test (Py.strip (Pd.str_of_cell (Pd.getitem r "hotel_name")))
        | true, false => test (Py.strip (Pd.str_of_cell (Pd.getitem r "name")))
        | false, true => test (Py.strip (Pd.str_of_cell (Pd.getitem r "hotel_name")))
        | false, false => false
        end) <$> rows df.
Proof.
  unfold stage, row_names. apply list_fmap_ext. intros _ r _.
  destruct (Pd.has_column df "name"), (Pd.has_column df "hotel_name"); simpl;
    by rewrite ?orb_false_r.
Qed.

Lemma any_replicate_false n : Pd.any (replicate n false) = false.
Proof. unfold Pd.any. induction n; simpl; done. Qed.

Lemma any_fmap_false {A} (l : list A) : Pd.any ((λ _, false) <$> l) = false.
Proof. unfold Pd.any. induction l; simpl; done. Qed.

(** Adding the tests of the two name columns to a series that selects no
    row (lines 51 to 54, 58 to 61 and 65 to 68). *)
Lemma add_columns_fmap {A} (hn hh : bool) (c : list bool) (a b : A → bool) (l : list A) :
  Pd.any c = false → length c = length l →
  (if hh then Pd.series_or (if hn then Pd.series_or c (a <$> l) else c) (b <$> l)
   else (if hn then Pd.series_or c (a <$> l) else c))
  = (λ r, match hn, hh with
          | true, true => a r || b r
          | true, false => a r
          | false, true => b r
          | false, false => false
          end) <$> l.
Proof.
  intros Hc Hl.
  destruct hn, hh; rewrite ?(series_or_any_false c) by (by rewrite ?length_fmap).
  - apply series_or_fmap.
  - done.
  - done.
  - rewrite (any_false_replicate c Hc), Hl. clear. induction l; simpl; [done|]. by f_equal.
Qed.

Lemma three_stages {A} (hn hh : bool) (l : list A) (a1 b1 a2 b2 : A → bool)
    (a3 b3 : (string → bool) → A → bool) (cf : result (string → bool)) :
  let both a b := (λ r, match hn, hh with
                        | true, true => a r || b r
                        | true, false => a r
                        | false, true => b r
                        | false, false => false
                        end) <$> l in
  (let c := replicate (length l) false in
   let c := if hn then Pd.series_or c (a1 <$> l) else c in
   let c := if hh then Pd.series_or c (b1 <$> l) else c in
   let c := if negb (Pd.any c)
            then let c := if hn then Pd.series_or c (a2 <$> l) else c in
                 if hh then Pd.series_or c (b2 <$> l) else c
            else c in
   if negb (Pd.any c)
   then c ← (if hn then found ← (f ← cf; Ok (a3 f <$> l)); Ok (Pd.series_or c found)
             else Ok c);
        if hh then found ← (f ← cf; Ok (b3 f <$> l)); Ok (Pd.series_or c found)
        else Ok c
   else Ok c)
  = if Pd.any (both a1 b1) then Ok (both a1 b1)
    else if Pd.any (both a2 b2) then Ok (both a2 b2)
    else if hn || hh then f ← cf; Ok (both (a3 f) (b3 f))
         else Ok (replicate (length l) false).
Proof.
  cbv zeta.
  rewrite (add_columns_fmap hn hh (replicate (length l) false));
    [|apply any_replicate_false|by rewrite length_replicate].
  set (s1 := (λ r, match hn, hh with
                   | true, true => a1 r || b1 r | true, false => a1 r
                   | false, true => b1 r | false, false => false end) <$> l).
  destruct (Pd.any s1) eqn:E1; simpl; [by rewrite E1|].
  rewrite add_columns_fmap; [|done|by subst s1; rewrite length_fmap].
  set (s2 := (λ r, match hn, hh with
                   | true, true => a2 r || b2 r | true, false => a2 r
                   | false, true => b2 r | false, false => false end) <$> l).
  destruct (Pd.any s2) eqn:E2; simpl; [done|].
  assert (length s2 = length l) as L2 by (subst s2; by rewrite length_fmap).
  destruct cf as [f|e]; simpl.
  - destruct hn, hh; simpl;
      rewrite ?(series_or_any_false s2) by (by rewrite ?length_fmap);
      rewrite ?series_or_fmap; try done.
    rewrite (any_false_replicate s2 E2), L2. done.
  - destruct hn, hh; simpl; try done.
    rewrite (any_false_replicate s2 E2), L2. done.
Qed.

(** The matcher is its three stages in order, each consulted only when the
    stages before it select no row; the third compiles the lower-cased
    target as a regular expression, and only if the table has one of the
    two name columns. *)
Lemma match_rows_stages pd df hotel_name :
  _match_rows pd df hotel_name =
  let target := Py.strip hotel_name in
  if Pd.any (exact_stage df target) then Ok (exact_stage df target)
  else if Pd.any (lower_stage df target) then Ok (lower_stage df target)
  else if Pd.has_column df "name" || Pd.has_column df "hotel_name"
       then f ← Re.compile pd (Py.lower target); Ok (search_stage f df)
       else Ok (replicate (Pd.len df) false).
Proof.
  unfold exact_stage, lower_stage, search_stage. cbv zeta.
  rewrite (stage_cases (λ s, bool_decide (s = Py.strip hotel_name))).
  rewrite (stage_cases (λ s, bool_decide (Py.lower s = Py.lower (Py.strip hotel_name)))).
  unfold _match_rows, Pd.len; cbv zeta.
  rewrite !series_eq_stripped, !series_eq_lower, !str_contains_lower.
  etrans; [apply (three_stages _ _ _ _ _ _ _
                    (λ f r, f (Py.lower (Py.strip (Pd.str_of_cell (Pd.getitem r "name")))))
                    (λ f r, f (Py.lower (Py.strip (Pd.str_of_cell (Pd.getitem r "hotel_name"))))))|].
  cbv zeta beta.
  destruct (Pd.any _); [done|]. destruct (Pd.any _); [done|].
  destruct (_ || _); [|done].
  destruct (Re.compile _ _) as [f|e]; [|done]. simpl.
  by rewrite (stage_cases (λ s, f (Py.lower s))).
Qed.

(** ** Regular expressions without special characters *)

Lemma special_dot c : Re.special c = false → Ascii.eqb c "." = false.
Proof. unfold Re.special. simpl. by intros [H _]%orb_false_iff. Qed.

Lemma match_here_literal pat s :
  Re.literal pat = true → Re.match_here pat s = Py.startswith pat s.
Proof.
  revert s. induction pat as [|p pat IH]; intros s; simpl; [by destruct s|].
  intros [Hp Hpat]%andb_true_iff. apply negb_true_iff, special_dot in Hp.
  destruct s as [|c s]; [done|]. unfold Re.char_matches. by rewrite Hp, IH.
Qed.

Lemma search_literal pat s :
  Re.literal pat = true → Re.search pat s = Py.contains pat s.
Proof.
  intros H. induction s as [|c s IH]; simpl.
  - by rewrite match_here_literal.
  - by rewrite match_here_literal, IH.
Qed.

Lemma literal_simple pat : Re.literal pat = true → Re.simple pat = true.
Proof.
  induction pat as [|p pat IH]; simpl; [done|].
  intros [Hp Hpat]%andb_true_iff. rewrite Hp, IH by done. by rewrite orb_true_r.
Qed.

Lemma stage_ext (f g : string → bool) df :
  (∀ s, f s = g s) → stage f df = stage g df.
Proof.
  intros H. unfold stage. apply list_fmap_ext. intros _ r _.
  induction (row_names df r) as [|s l IH]; simpl; [done|]. by rewrite H, IH.
Qed.

Lemma stage_no_columns test df :
  Pd.has_column df "name" || Pd.has_column df "hotel_name" = false →
  stage test df = replicate (Pd.len df) false.
Proof.
  intros [H1 H2]%orb_false_iff. unfold stage, row_names, Pd.len. rewrite H1, H2.
  simpl. induction (rows df); simpl; [done|]. by f_equal.
Qed.

(** For a target without special characters the matcher is the matcher of
    the spec. *)
Lemma match_rows_literal pd df hotel_name :
  Re.literal (Py.lower (Py.strip hotel_name)) = true →
  _match_rows pd df hotel_name = Ok (spec_match df hotel_name).
Proof.
  intros Hlit. rewrite match_rows_stages. unfold spec_match. cbv zeta.
  destruct (Pd.any (exact_stage _ _)); [done|].
  destruct (Pd.any (lower_stage _ _)); [done|].
  destruct (_ || _) eqn:Hcols.
  - unfold Re.compile. rewrite (literal_simple _ Hlit). simpl. f_equal.
    unfold search_stage. apply stage_ext. intros s. by apply search_literal.
  - by rewrite stage_no_columns.
Qed.

(** ** The matcher after a mutation *)

Lemma as_text_idemp df : Pd.as_text (Pd.as_text df) = Pd.as_text df.
Proof.
  unfold Pd.as_text; simpl. f_equal. rewrite <- list_fmap_compose.
  apply list_fmap_ext. intros _ r _. simpl. rewrite <- map_fmap_compose.
  apply map_fmap_ext. intros _ c _. apply text_cell_idemp.
Qed.

Lemma loads_written pd w path df :
  well_loaded df → counts_exact df →
  now w !! path = Some (Csv utf_8_sig (Pd.as_text df)) → loads pd w path df.
Proof.
  intros Hwl Hex Hfile. exists utf_8_sig, (Pd.as_text df). split; [done|].
  rewrite as_text_idemp. by apply normalize_as_text.
Qed.

Lemma row_names_mutate df i v r :
  well_loaded df → row_names (mutate df i v) (mutate_row v r) = row_names df r.
Proof.
  intros Hwl. unfold row_names, Pd.has_column. rewrite mutate_columns by done.
  unfold Pd.getitem. by rewrite !mutate_row_other.
Qed.

Lemma row_names_columns df df' r :
  columns df = columns df' → row_names df r = row_names df' r.
Proof. intros H. unfold row_names, Pd.has_column. by rewrite H. Qed.

Lemma stage_mutate test df i v :
  well_loaded df → stage test (mutate df i v) = stage test df.
Proof.
  intros Hwl. pose proof Hwl as (H1 & H2 & _). unfold stage.
  apply list_eq. intros j. rewrite !list_lookup_fmap.
  destruct (decide (i = j)) as [<-|Hne].
  - destruct (rows df !! i) as [r|] eqn:Hr.
    + rewrite (mutate_lookup df i v r) by done. simpl.
      by rewrite row_names_mutate.
    + assert (rows (mutate df i v) !! i = None) as ->; [|done].
      apply lookup_ge_None. apply lookup_ge_None in Hr.
      by rewrite mutate_length.
  - rewrite mutate_lookup_ne by done. destruct (rows df !! j) as [r|]; [|done].
    simpl. f_equal. f_equal. apply row_names_columns. by apply mutate_columns.
Qed.

Lemma match_rows_mutate pd df i v hotel_name :
  well_loaded df → _match_rows pd (mutate df i v) hotel_name = _match_rows pd df hotel_name.
Proof.
  intros Hwl. rewrite !match_rows_stages.
  unfold exact_stage, lower_stage, search_stage, Pd.len, Pd.has_column.
  rewrite mutate_columns, mutate_length by done. cbv zeta.
  rewrite !stage_mutate by done.
  destruct (Pd.any _); [done|]. destruct (Pd.any _); [done|].
  destruct (_ || _); [|done].
  destruct (Re.compile _ _) as [f|e]; [|done]. simpl.
  by rewrite stage_mutate.
Qed.

Lemma match_rows_length pd df hotel_name matches :
  _match_rows pd df hotel_name = Ok matches → length matches = Pd.len df.
Proof.
  rewrite match_rows_stages. cbv zeta.
  unfold exact_stage, lower_stage, search_stage, stage, Pd.len.
  destruct (Pd.any _); [intros [= <-]; by rewrite length_fmap|].
  destruct (Pd.any _); [intros [= <-]; by rewrite length_fmap|].
  destruct (_ || _).
  - destruct (Re.compile _ _) as [f|e]; [|done]. simpl.
    intros [= <-]. by rewrite length_fmap.
  - intros [= <-]. by rewrite length_replicate.
Qed.

Lemma first_match_lt pd df hotel_name i :
  first_match pd df hotel_name i → (i < length (rows df))%nat.
Proof.
  intros (matches & Hm & [Hi _]%first_index_Ok).
  apply match_rows_length in Hm. apply lookup_lt_Some in Hi.
  unfold Pd.len in Hm. lia.
Qed.

(** ** Runs that return *)

Lemma bind_inv {A B} (m : M A) (k : A → M B) w b w' :
  (m ≫= k) w = (Ok b, w') → ∃ a w1, m w = (Ok a, w1) ∧ k a w1 = (Ok b, w').
Proof.
  unfold mbind, M_bind. destruct (m w) as [[a|e] w1]; [eauto|done].
Qed.

Lemma lift_inv {A} (r : result A) w a w' : lift r w = (Ok a, w') → r = Ok a ∧ w' = w.
Proof. unfold lift. by intros [= -> ->]. Qed.

Lemma read_first_Malformed path w :
  now w !! path = Some Malformed →
  read_first path [utf_8_sig; utf_8; cp1252] None w = (Raise ParserError, w).
Proof.
  intros H.
  assert (∀ e, read_csv path e w = (Raise ParserError, w)) as Hr.
  { intros e. unfold read_csv, mbind, M_bind, get_files. by rewrite H. }
  cbn [read_first]. rewrite Hr. rewrite Hr. by rewrite Hr.
Qed.

Lemma at_get_inv df i col x :
  Pd.at_get df i col = Ok x → ∃ r, rows df !! i = Some r ∧ r !! col = Some x.
Proof.
  unfold Pd.at_get. destruct (rows df !! i) as [r|]; [|done].
  destruct (r !! col) as [c|] eqn:E; [|done]. intros [= <-]. eauto.
Qed.

(** A run that returns a value found a table, a first matching row, a new
    availability that fits the column and a free temporary name. *)
Lemma read_match_write_inv pd rnd path name new w v w' :
  read_match_write pd rnd path name new w = (Ok v, w') →
  ∃ df i c,
    loads pd w path df ∧ first_match pd df name i ∧
    rooms_available df i = Some c ∧ v = new c ∧
    now w !! tmp_path_of rnd path = None ∧
    v ≤ Num.int64_max.
Proof.
  unfold read_match_write. intros H.
  apply bind_inv in H as (found & w1 & Hfound & H).
  unfold os.path_exists, mbind, M_bind, get_files, mret, M_ret in Hfound.
  injection Hfound as <- <-.
  destruct (now w !! path) as [[enc t|]|] eqn:Hfile; simpl in H; [| |done].
  2:{ apply bind_inv in H as (df & w1 & Hread & _).
      unfold _safe_read_csv in Hread.
      by rewrite (bind_Raise _ _ _ _ _ (read_first_Malformed _ _ Hfile)) in Hread. }
  apply bind_inv in H as (df & w1 & Hread & H).
  rewrite (safe_read_csv_Csv _ _ _ _ _ Hfile) in Hread.
  injection Hread as Hload <-.
  apply bind_inv in H as (matches & w1 & [Hm ->]%lift_inv & H).
  destruct (Pd.any matches) eqn:Hany; simpl in H; [|done].
  apply bind_inv in H as (i & w1 & [Hi ->]%lift_inv & H).
  apply bind_inv in H as (x & w1 & [Hx ->]%lift_inv & H).
  apply bind_inv in H as (c & w1 & [Hc ->]%lift_inv & H).
  apply bind_inv in H as (df1 & w1 & [Hset ->]%lift_inv & H).
  unfold Pd.at_set_int in Hset.
  destruct (new c <=? Num.int64_max) eqn:Hmax; [|done].
  injection Hset as <-.
  apply bind_inv in H as ([] & w1 & Hwrite & H).
  unfold mret, M_ret in H. injection H as <- <-.
  apply at_get_inv in Hx as (r & Hr & Hrx).
  pose proof (normalize_well_loaded _ _ _ Hload) as (_ & _ & Hrows).
  destruct (Hrows r) as [[n Hn] _]; [by eapply list_elem_of_lookup_2|].
  assert (x = Int n) as -> by congruence. simpl in Hc. injection Hc as <-.
  exists df, i, n. repeat split.
  - by exists enc, t.
  - by exists matches.
  - unfold rooms_available. by rewrite Hr, Hn.
  - unfold _atomic_write_csv in Hwrite.
    apply bind_inv in Hwrite as (tmp & w2 & Htmp & _).
    unfold tempfile.mkstemp in Htmp. fold (tmp_path_of rnd path) in Htmp.
    cbv zeta in Htmp. unfold mbind at 1, M_bind at 1, get_files in Htmp.
    by destruct (now w !! tmp_path_of rnd path).
  - by apply Z.leb_le.
Qed.

(** ** Paths *)

Lemma append_cons x a b : String x a +:+ b = String x (a +:+ b).
Proof. reflexivity. Qed.

Lemma append_assoc a b c : (a +:+ b) +:+ c = a +:+ (b +:+ c).
Proof. induction a as [|x a IH]; [done|]. rewrite !append_cons. by rewrite IH. Qed.

Lemma head_of_no_sep b : all_chars not_sep b = true → os.head_of b = "".
Proof.
  induction b as [|c b IH]; simpl; [done|].
  intros [Hc Hb]%andb_true_iff. rewrite (IH Hb).
  unfold not_sep in Hc. apply negb_true_iff in Hc. by rewrite Hc.
Qed.

Lemma head_of_app a b :
  all_chars not_sep b = true → os.head_of (a +:+ b) = os.head_of a.
Proof.
  intros Hb. induction a as [|c a IH].
  - by apply head_of_no_sep.
  - rewrite append_cons. cbn [os.head_of]. by rewrite IH.
Qed.

Lemma head_of_ends_with_sep a : os.ends_with_sep a = true → os.head_of a = a.
Proof.
  induction a as [|c a IH]; [done|].
  destruct a as [|c' a].
  - simpl. by intros ->.
  - intros H. change (os.head_of (String c (String c' a)))
      with (match os.head_of (String c' a) with
            | EmptyString => if Ascii.eqb c "/" then String c EmptyString else EmptyString
            | h => String c h
            end).
    by rewrite (IH H).
Qed.

Lemma rstrip_sep_app_sep d : os.rstrip_sep (d +:+ "/") = os.rstrip_sep d.
Proof.
  induction d as [|c d IH]; [done|].
  rewrite append_cons. cbn [os.rstrip_sep]. by rewrite IH.
Qed.

Lemma rstrip_sep_id d : os.ends_with_sep d = false → os.rstrip_sep d = d.
Proof.
  induction d as [|c d IH]; [done|].
  destruct d as [|c' d].
  - simpl. by intros ->.
  - intros H. change (os.rstrip_sep (String c (String c' d)))
      with (match os.rstrip_sep (String c' d) with
            | EmptyString => if Ascii.eqb c "/" then EmptyString else String c EmptyString
            | r => String c r
            end).
    by rewrite (IH H).
Qed.

Lemma ends_with_sep_rstrip s : os.ends_with_sep (os.rstrip_sep s) = false.
Proof.
  induction s as [|c s IH]; simpl; [done|].
  destruct (os.rstrip_sep s) as [|c' r] eqn:E.
  - destruct (Ascii.eqb c "/") eqn:Hc; simpl; [done|exact Hc].
  - exact IH.
Qed.

Lemma all_sep_ends_with_sep d :
  d ≠ "" → os.all_sep d = true → os.ends_with_sep d = true.
Proof.
  induction d as [|c d IH]; [done|]. intros _.
  cbn [os.all_sep]. intros [Hc Hd]%andb_true_iff.
  destruct d as [|c' d]; [exact Hc|]. by apply IH.
Qed.

Lemma all_sep_app_sep d : os.all_sep (d +:+ "/") = os.all_sep d.
Proof.
  induction d as [|c d IH]; [done|].
  rewrite append_cons. cbn [os.all_sep]. by rewrite IH.
Qed.

Lemma ends_with_sep_app_sep d : os.ends_with_sep (d +:+ "/") = true.
Proof.
  induction d as [|c d IH]; [done|].
  change (String c d +:+ "/") with (String c (d +:+ "/")).
  destruct (d +:+ "/") eqn:E; [by destruct d|exact IH].
Qed.

(** What [dirname] returns is empty, made of separators only, or does not
    end with a separator. *)
Lemma dirname_shape p :
  os.dirname p = "" ∨ os.all_sep (os.dirname p) = true ∨
  os.ends_with_sep (os.dirname p) = false.
Proof.
  unfold os.dirname.
  destruct (String.eqb (os.head_of p) "") eqn:E; simpl.
  - left. by apply String.eqb_eq.
  - destruct (os.all_sep (os.head_of p)) eqn:E'; simpl.
    + right; left; done.
    + right; right. apply ends_with_sep_rstrip.
Qed.

Lemma dirname_join d name :
  d ≠ "" →
  os.all_sep d = true ∨ os.ends_with_sep d = false →
  all_chars not_sep name = true →
  os.dirname (os.join d name) = d.
Proof.
  intros Hd Hshape Hname.
  assert (Py.startswith "/" name = false) as Hstart.
  { destruct name as [|c name]; [done|]. cbn [all_chars] in Hname.
    apply andb_true_iff in Hname as [Hc _]. unfold not_sep in Hc.
    apply negb_true_iff in Hc. cbn [Py.startswith].
    destruct (Ascii.eqb_spec "/" c) as [<-|]; [|done].
    by rewrite Ascii.eqb_refl in Hc. }
  unfold os.join. rewrite Hstart.
  assert (String.eqb d "" = false) as -> by (by apply String.eqb_neq). simpl.
  destruct (os.ends_with_sep d) eqn:Hends.
  - destruct Hshape as [Hall|]; [|done].
    unfold os.dirname. rewrite head_of_app, head_of_ends_with_sep by done.
    rewrite Hall. by rewrite andb_false_r.
  - assert (os.all_sep d = false) as Hnall.
    { destruct (os.all_sep d) eqn:E; [|done].
      by rewrite all_sep_ends_with_sep in Hends. }
    unfold os.dirname.
    rewrite <- append_assoc.
    rewrite head_of_app by done.
    rewrite head_of_ends_with_sep by apply ends_with_sep_app_sep.
    rewrite all_sep_app_sep, Hnall.
    assert (String.eqb (d +:+ "/") "" = false) as -> by (by destruct d).
    simpl. rewrite rstrip_sep_app_sep. by apply rstrip_sep_id.
Qed.

Lemma all_chars_app f a b :
  all_chars f (a +:+ b) = all_chars f a && all_chars f b.
Proof.
  induction a as [|c a IH]; [done|].
  rewrite append_cons. cbn [all_chars]. by rewrite IH, andb_assoc.
Qed.

(** The temporary file lies in the directory of the target (in the current
    directory when the target path names none). *)
Lemma dirname_tmp_path rnd path :
  all_chars not_sep rnd = true →
  os.dirname (tmp_path_of rnd path) = dirpath_of path.
Proof.
  intros Hrnd. unfold tmp_path_of. fold (dirpath_of path).
  apply dirname_join.
  - unfold dirpath_of. destruct (String.eqb (os.dirname path) "") eqn:E; [done|].
    by apply String.eqb_neq.
  - unfold dirpath_of. destruct (String.eqb (os.dirname path) "") eqn:E.
    + by right.
    + destruct (dirname_shape path) as [H|H]; [|done].
      apply String.eqb_neq in E. done.
  - rewrite !all_chars_app, Hrnd. done.
Qed.

Lemma counts_exactb_correct df : counts_exactb df = true → counts_exact df.
Proof.
  unfold counts_exactb, counts_exact, rooms_available.
  rewrite forallb_forall. intros H i n.
  destruct (rows df !! i) as [r|] eqn:Hr; [|done].
  specialize (H r). destruct (r !! "rooms_available") as [[| |m]|]; try done.
  intros [= ->]. apply H. apply list_elem_of_In. by eapply list_elem_of_lookup_2.
Qed.

Lemma exact_clamped c a : Num.exact c = true → 0 < a → Num.exact (Z.max 0 (c - a)) = true.
Proof. unfold Num.exact. rewrite !Z.leb_le. lia. Qed.

(** ** What a successful call has done *)

Lemma decrement_inv pd rnd path hotel_name a w v w' :
  decrement_room_availability pd rnd path hotel_name a w = (Ok v, w') →
  0 < a ∧
  ∃ df i c,
    loads pd w path df ∧ first_match pd df hotel_name i ∧
    rooms_available df i = Some c ∧ v = Z.max 0 (c - a) ∧
    now w !! tmp_path_of rnd path = None ∧
    now w' = <[path := Csv utf_8_sig (Pd.as_text (mutate df i v))]> (now w).
Proof.
  rewrite decrement_unfold. destruct (a <=? 0) eqn:Ha; [done|].
  intros H. split; [lia|].
  destruct (read_match_write_inv _ _ _ _ _ _ _ _ H)
    as (df & i & c & Hl & Hm & Hc & -> & Hf & Hmax).
  exists df, i, c. repeat split; try done.
  destruct (read_match_write_run pd rnd path hotel_name
              (λ current, Z.max 0 (current - a)) w df i c)
    as (w'' & _ & _ & Hrun & Hnow & _); try done.
  congruence.
Qed.

Lemma increment_inv pd rnd path hotel_name a w v w' :
  increment_room_availability pd rnd path hotel_name a w = (Ok v, w') →
  0 < a ∧
  ∃ df i c,
    loads pd w path df ∧ first_match pd df hotel_name i ∧
    rooms_available df i = Some c ∧ v = c + a ∧
    now w !! tmp_path_of rnd path = None ∧
    now w' = <[path := Csv utf_8_sig (Pd.as_text (mutate df i v))]> (now w).
Proof.
  rewrite increment_unfold. destruct (a <=? 0) eqn:Ha; [done|].
  intros H. split; [lia|].
  destruct (read_match_write_inv _ _ _ _ _ _ _ _ H)
    as (df & i & c & Hl & Hm & Hc & -> & Hf & Hmax).
  exists df, i, c. repeat split; try done.
  destruct (read_match_write_run pd rnd path hotel_name
              (λ current, current + a) w df i c)
    as (w'' & _ & _ & Hrun & Hnow & _); try done.
  congruence.
Qed.

(** A table loaded from a file without a status column carries, in every
    row, the label of its availability (line 32). *)
Lemma loaded_status pd t df j n :
  normalize pd t = Ok df →
  Pd.has_column t "status" = false →
  rooms_available df j = Some n →
  status df j = Some (Str (if 0 <? n then con else het)).
Proof.
  intros [_ Hrows]%normalize_Ok Hs. unfold rooms_available, status.
  destruct (rows df !! j) as [r'|] eqn:Hr'; [|done]. simpl.
  destruct (Forall2_lookup_r _ _ _ _ _ Hrows Hr') as (r & _ & Hl).
  rewrite Hs in Hl. apply load_row_Ok in Hl as (m & _ & ->).
  rewrite lookup_insert_ne by done. rewrite !lookup_insert_eq. by intros [= ->].
Qed.



Lemma normalize_length pd t df :
  normalize pd t = Ok df → length (rows df) = length (rows t).
Proof. intros [_ Hrows]%normalize_Ok. symmetry. by eapply Forall2_length. Qed.

(** ** The empty target *)




Lemma any_replicate_true n : Pd.any (replicate (S n) true) = true.
Proof. done. Qed.

Lemma first_index_replicate_true n : Pd.first_index (replicate (S n) true) = Ok 0%nat.
Proof. done. Qed.


Lemma ascii_namesb_correct df : ascii_namesb df = true → ascii_names df.
Proof.
  unfold ascii_namesb, ascii_names. rewrite forallb_forall. intros H r s Hr Hs.
  specialize (H r). rewrite forallb_forall in H.
  exact (H ltac:(by apply list_elem_of_In) s ltac:(by apply list_elem_of_In)).
Qed.

(** ** The numeric parser *)









Lemma signed_inv (p : string → option Z) s n :
  Py.signed p s = Some n →
  (∃ s', s = String "+" s' ∧ p s' = Some n) ∨
  (∃ s' m, s = String "-" s' ∧ p s' = Some m ∧ n = - m) ∨
  (p s = Some n ∧ Py.signed p s = p s).
Proof.
  destruct s as [|c s]; [by right; right|].
  destruct (Ascii.eqb_spec c "+") as [->|H1]; [left; eauto|].
  destruct (Ascii.eqb_spec c "-") as [->|H2].
  { simpl. destruct (p s) as [m|] eqn:E; [|done]. simpl. intros [= <-].
    right; left. by exists s, m. }
  apply Ascii.eqb_neq in H1, H2.
  rewrite signed_unsigned by done. by right; right.
Qed.







Lemma read_first_None path w :
  now w !! path = None →
  ∃ msg, read_first path [utf_8_sig; utf_8; cp1252] None w = (Raise (FileNotFoundError msg), w).
Proof.
  intros H. eexists. cbn [read_first].
  unfold read_csv at 1, mbind, M_bind, get_files. rewrite H. reflexivity.
Qed.

(** A load that returns has found a table and normalised it, and has left
    the file system as it was. *)
Lemma safe_read_csv_inv pd path w df w' :
  _safe_read_csv pd path w = (Ok df, w') →
  w' = w ∧ ∃ enc t, now w !! path = Some (Csv enc t) ∧ normalize pd (Pd.as_text t) = Ok df.
Proof.
  destruct (now w !! path) as [[enc t|]|] eqn:Hfile.
  - rewrite (safe_read_csv_Csv _ _ _ _ _ Hfile). intros [= H <-]. eauto.
  - unfold _safe_read_csv.
    by rewrite (bind_Raise _ _ _ _ _ (read_first_Malformed _ _ Hfile)).
  - unfold _safe_read_csv. destruct (read_first_None _ _ Hfile) as [msg Hr].
    by rewrite (bind_Raise _ _ _ _ _ Hr).
Qed.

(** ** The range of the column *)

Lemma of_uint_acc_bound d acc :
  Z.pos (Pos.of_uint_acc d acc) < (Z.pos acc + 1) * 10 ^ Z.of_nat (Decimal.nb_digits d).
Proof.
  revert acc. induction d as [|d IH|d IH|d IH|d IH|d IH|d IH|d IH|d IH|d IH|d IH];
    intros acc; cbn [Pos.of_uint_acc Decimal.nb_digits]; [lia|..];
    rewrite Nat2Z.inj_succ, Z.pow_succ_r by lia;
    match goal with
    | |- Z.pos (Pos.of_uint_acc d ?a) < _ => pose proof (IH a)
    end; nia.
Qed.

Lemma of_uint_bound d : 0 ≤ Z.of_uint d < 10 ^ Z.of_nat (Decimal.nb_digits d).
Proof.
  unfold Z.of_uint. split; [lia|].
  induction d as [|d IH|d IH|d IH|d IH|d IH|d IH|d IH|d IH|d IH|d IH];
    cbn [Pos.of_uint Decimal.nb_digits];
    [simpl; lia | rewrite Nat2Z.inj_succ, Z.pow_succ_r by lia ..].
  - lia.
  - pose proof (of_uint_acc_bound d 1). simpl Z.of_N. lia.
  - pose proof (of_uint_acc_bound d 2). simpl Z.of_N. lia.
  - pose proof (of_uint_acc_bound d 3). simpl Z.of_N. lia.
  - pose proof (of_uint_acc_bound d 4). simpl Z.of_N. lia.
  - pose proof (of_uint_acc_bound d 5). simpl Z.of_N. lia.
  - pose proof (of_uint_acc_bound d 6). simpl Z.of_N. lia.
  - pose proof (of_uint_acc_bound d 7). simpl Z.of_N. lia.
  - pose proof (of_uint_acc_bound d 8). simpl Z.of_N. lia.
  - pose proof (of_uint_acc_bound d 9). simpl Z.of_N. lia.
Qed.

Lemma uint_of_string_nb_digits s d :
  NilEmpty.uint_of_string s = Some d → Decimal.nb_digits d = String.length s.
Proof.
  revert d. induction s as [|c s IH]; intros d; simpl; [by intros [= <-]|].
  destruct (NilEmpty.uint_of_string s) as [d'|] eqn:E; [|done].
  intros H. apply uint_of_char_spec in H. specialize (IH d' eq_refl).
  destruct H as [[_ ->]|[[_ ->]|[[_ ->]|[[_ ->]|[[_ ->]|[[_ ->]|[[_ ->]|[[_ ->]|[[_ ->]|[_ ->]]]]]]]]]];
    simpl; by rewrite IH.
Qed.

(** A run of [k] digits reads as a number below [10^k]. *)
Lemma digits_value_bound s n :
  Py.digits_value s = Some n → 0 ≤ n < 10 ^ Z.of_nat (String.length s).
Proof.
  unfold Py.digits_value, NilZero.uint_of_string.
  destruct s as [|c s]; [done|].
  destruct (NilEmpty.uint_of_string (String c s)) as [d|] eqn:E; [|done].
  intros H. cbn in H. injection H as <-.
  rewrite <- (uint_of_string_nb_digits _ _ E). apply of_uint_bound.
Qed.

Lemma fraction_literal_bound s n : Num.fraction_literal s = Some n → 0 ≤ n < 10 ^ 15.
Proof.
  unfold Num.fraction_literal.
  destruct (Num.split_dot s) as [[i f]|]; [|done].
  destruct (Py.digits_value i) as [a|] eqn:Ei; [|done].
  destruct (Py.digits_value f) as [b|]; [|done].
  destruct (String.length i + String.length f <=? 15)%nat eqn:L; [|done].
  intros [= <-]. apply digits_value_bound in Ei. apply Nat.leb_le in L.
  assert (10 ^ Z.of_nat (String.length i) ≤ 10 ^ 15) by (apply Z.pow_le_mono_r; lia).
  lia.
Qed.

Lemma signed_fraction_bound s n :
  Py.signed Num.fraction_literal s = Some n → - 10 ^ 15 < n < 10 ^ 15.
Proof.
  intros [(s' & -> & H)|[(s' & m & -> & H & ->)|[H _]]]%signed_inv;
    apply fraction_literal_bound in H; lia.
Qed.

Lemma int64_spec n : Num.int64 n = true ↔ - 2 ^ 63 ≤ n ≤ 2 ^ 63 - 1.
Proof.
  unfold Num.int64, Num.int64_min, Num.int64_max.
  rewrite andb_true_iff, !Z.leb_le. done.
Qed.

Lemma exact_int64 n : Num.exact n = true → Num.int64 n = true.
Proof. unfold Num.exact. rewrite Z.leb_le, int64_spec. lia. Qed.

Lemma other_int64 pd s n : Num.other pd s = Number n → Num.int64 n = true.
Proof.
  unfold Num.other. destruct (to_numeric_other pd s) as [m| |]; try done.
  intros [= <-]. apply int64_spec.
  unfold Num.to_int64, Num.int64_min, Num.int64_max. lia.
Qed.

(** Every number the parser gives fits the column. *)
Lemma to_numeric_int64 pd s n : Num.to_numeric pd s = Number n → Num.int64 n = true.
Proof.
  unfold Num.to_numeric. destruct (String.eqb s "nan"); [done|].
  destruct (Py.int_literal s) as [m|].
  - destruct (Num.exact m) eqn:Hm.
    + intros [= <-]. by apply exact_int64.
    + apply other_int64.
  - destruct (Py.signed Num.fraction_literal s) as [m|] eqn:Hf.
    + intros [= <-]. apply signed_fraction_bound in Hf. apply int64_spec. lia.
    + destruct (_ && _); [done|apply other_int64].
Qed.

(** Every availability of a loaded table is an int64. *)
Lemma normalize_int64 pd t df i c :
  normalize pd t = Ok df → rooms_available df i = Some c → Num.int64 c = true.
Proof.
  intros [_ Hrows]%normalize_Ok Hc. unfold rooms_available in Hc.
  destruct (rows df !! i) as [r'|] eqn:Hr'; [|done].
  destruct (Forall2_lookup_r _ _ _ _ _ Hrows Hr') as (r & _ & Hl).
  apply load_row_Ok in Hl as (n & Hn & ->).
  assert (c = n) as ->.
  { destruct (Pd.has_column t "status").
    - rewrite lookup_insert_eq in Hc. congruence.
    - rewrite lookup_insert_ne, lookup_insert_eq in Hc by done. congruence. }
  destruct (Num.to_numeric pd _) as [m| |] eqn:Hm; simpl in Hn; try done.
  - injection Hn as <-. by eapply to_numeric_int64.
  - by injection Hn as <-.
Qed.

Lemma loads_int64 pd w path df i c :
  loads pd w path df → rooms_available df i = Some c → - 2 ^ 63 ≤ c ≤ 2 ^ 63 - 1.
Proof.
  intros (enc & t & _ & Hload) Hc. apply int64_spec. by eapply normalize_int64.
Qed.

Lemma int64_max_spec : Num.int64_max = 2 ^ 63 - 1.
Proof. reflexivity. Qed.

(** * The claims *)

(** C1 (amended).  For a table whose first matching row has the
    availability [c] and a positive amount [a]:
    [decrement_room_availability] returns [max(0, c - a)];
    [increment_room_availability] returns [c + a] as long as [c + a] is at
    most [2^63 - 1], the largest integer the int64 column holds, and
    beyond that raises and leaves the file system as it was.  A call that
    returns leaves at the path the loaded table with the value returned,
    and the status label that goes with it, in the matched row. *)
Theorem decrement_increment_value pd rnd path hotel_name a w df i c :
  0 < a →
  loads pd w path df →
  first_match pd df hotel_name i →
  rooms_available df i = Some c →
  now w !! tmp_path_of rnd path = None →
  (∃ w', decrement_room_availability pd rnd path hotel_name a w
           = (Ok (Z.max 0 (c - a)), w') ∧
         now w' = <[path := Csv utf_8_sig
                      (Pd.as_text (mutate df i (Z.max 0 (c - a))))]> (now w) ∧
         rooms_available (mutate df i (Z.max 0 (c - a))) i = Some (Z.max 0 (c - a))) ∧
  (c + a ≤ 2 ^ 63 - 1 →
   ∃ w', increment_room_availability pd rnd path hotel_name a w
           = (Ok (c + a), w') ∧
         now w' = <[path := Csv utf_8_sig (Pd.as_text (mutate df i (c + a)))]> (now w) ∧
         rooms_available (mutate df i (c + a)) i = Some (c + a)) ∧
  (2 ^ 63 - 1 < c + a →
   increment_room_availability pd rnd path hotel_name a w = (Raise AssertionError, w)).
Proof.
  intros Ha Hload Hmatch Hc Hfresh.
  assert ((a <=? 0) = false) as Hpos by lia.
  pose proof Hload as (enc & t & _ & Hwl%normalize_well_loaded).
  pose proof (first_match_lt _ _ _ _ Hmatch) as Hlt.
  pose proof (loads_int64 _ _ _ _ _ _ Hload Hc) as Hrange.
  split; [|split].
  - destruct (read_match_write_run pd rnd path hotel_name
                (λ current, Z.max 0 (current - a)) w df i c)
      as (w' & _ & _ & Hrun & Hnow & _); try done.
    { rewrite int64_max_spec. lia. }
    exists w'. rewrite decrement_unfold, Hpos.
    repeat split; try done. by apply mutate_rooms_available.
  - intros Hmax.
    destruct (read_match_write_run pd rnd path hotel_name
                (λ current, current + a) w df i c)
      as (w' & _ & _ & Hrun & Hnow & _); try done.
    exists w'. rewrite increment_unfold, Hpos.
    repeat split; try done. by apply mutate_rooms_available.
  - intros Hmax. rewrite increment_unfold, Hpos.
    by apply (read_match_write_overflow pd rnd path hotel_name _ w df i c).
Qed.

(** The scenario of the spec: one row [Sunrise Inn] with ten rooms;
    [decrement(path, "sunrise inn", 3)] returns 7 and leaves the row with 7
    rooms and the label [còn]; a further [decrement(path, "Sunrise Inn",
    10)] returns 0 and leaves the label [hết]. *)
Lemma sunrise_scenario :
  ∃ w1 w2,
    decrement_room_availability plain_pandas "k3x9" "hotels.csv" "sunrise inn" 3
      (one_file "hotels.csv" sunrise) = (Ok 7, w1) ∧
    now w1 !! "hotels.csv" =
      Some (Csv utf_8_sig (Pd.as_text (mutate (loaded plain_pandas sunrise) 0 7))) ∧
    status (mutate (loaded plain_pandas sunrise) 0 7) 0 = Some (Str con) ∧
    decrement_room_availability plain_pandas "p07q" "hotels.csv" "Sunrise Inn" 10 w1
      = (Ok 0, w2) ∧
    now w2 !! "hotels.csv" =
      Some (Csv utf_8_sig
              (Pd.as_text (mutate (mutate (loaded plain_pandas sunrise) 0 7) 0 0))) ∧
    status (mutate (mutate (loaded plain_pandas sunrise) 0 7) 0 0) 0 = Some (Str het).
Proof.
  destruct (decrement_increment_value plain_pandas "k3x9" "hotels.csv" "sunrise inn" 3
              (one_file "hotels.csv" sunrise) (loaded plain_pandas sunrise) 0%nat 10)
    as [(w1 & Hrun1 & Hnow1 & _) _].
  { lia. }
  { exists utf_8, sunrise. split; reflexivity. }
  { exists [true]. split; reflexivity. }
  { reflexivity. }
  { reflexivity. }
  destruct (decrement_increment_value plain_pandas "p07q" "hotels.csv" "Sunrise Inn" 10
              w1 (mutate (loaded plain_pandas sunrise) 0 7) 0%nat 7)
    as [(w2 & Hrun2 & Hnow2 & _) _].
  { lia. }
  { exists utf_8_sig, (Pd.as_text (mutate (loaded plain_pandas sunrise) 0 7)).
    split; [rewrite Hnow1; reflexivity | reflexivity]. }
  { exists [true]. split; reflexivity. }
  { reflexivity. }
  { rewrite Hnow1. reflexivity. }
  exists w1, w2. change (Z.max 0 (10 - 3)) with 7 in *.
  change (Z.max 0 (7 - 10)) with 0 in *.
  repeat split.
  - exact Hrun1.
  - rewrite Hnow1. reflexivity.
  - exact Hrun2.
  - rewrite Hnow2. apply lookup_insert_eq.
Defined.

(** C1 as stated fails: the increment has an upper limit.  In the table
    [grand], five rooms and an increment by [2^63]: the sum does not fit
    the int64 column, the call raises and returns nothing, and the file is
    as it was. *)
Lemma increment_past_int64 :
  rooms_available (loaded plain_pandas grand) 0 = Some 5 ∧
  increment_room_availability plain_pandas "k3x9" "hotels.csv" "Grand Hotel" (2 ^ 63)
    (one_file "hotels.csv" grand)
  = (Raise AssertionError, one_file "hotels.csv" grand).
Proof. split; vm_compute; reflexivity. Qed.

(** C2 (amended).  For a valid table (one the loader accepts, whose
    availabilities float64 holds exactly), a hotel name that matches and a
    positive amount [a]: the decrement returns [max(0, c - a)]; for [a] at
    most [2^63 - 1] the increment of the same amount that follows returns
    too, and leaves the availability at its original value [c] when
    [a <= c], and at [a], which is not [c], when [a > c] (the decrement
    has clamped to 0); for a larger [a] that increment raises and leaves
    the file system as the decrement left it. *)
Theorem decrement_then_increment pd rnd1 rnd2 path hotel_name a w df i c :
  0 < a →
  loads pd w path df →
  counts_exact df →
  first_match pd df hotel_name i →
  rooms_available df i = Some c →
  now w !! tmp_path_of rnd1 path = None →
  now w !! tmp_path_of rnd2 path = None →
  ∃ w1,
    decrement_room_availability pd rnd1 path hotel_name a w
      = (Ok (Z.max 0 (c - a)), w1) ∧
    (a ≤ 2 ^ 63 - 1 →
     ∃ w2 v df2,
       increment_room_availability pd rnd2 path hotel_name a w1 = (Ok v, w2) ∧
       now w2 !! path = Some (Csv utf_8_sig (Pd.as_text df2)) ∧
       rooms_available df2 i = Some v ∧
       (a ≤ c → v = c) ∧
       (c < a → Z.max 0 (c - a) = 0 ∧ v = a ∧ v ≠ c)) ∧
    (2 ^ 63 - 1 < a →
     increment_room_availability pd rnd2 path hotel_name a w1
       = (Raise AssertionError, w1)).
Proof.
  intros Ha Hload Hex Hmatch Hc Hf1 Hf2.
  assert ((a <=? 0) = false) as Hpos by lia.
  pose proof Hload as (enc & t & Hfile & Hwl%normalize_well_loaded).
  pose proof (first_match_lt _ _ _ _ Hmatch) as Hlt.
  assert (Z.abs c ≤ 2 ^ 53) as Hc53.
  { specialize (Hex i c Hc). unfold Num.exact in Hex. by apply Z.leb_le in Hex. }
  set (v1 := Z.max 0 (c - a)).
  destruct (read_match_write_run pd rnd1 path hotel_name
              (λ current, Z.max 0 (current - a)) w df i c)
    as (w1 & _ & _ & Hrun1 & Hnow1 & _); try done.
  { rewrite int64_max_spec. lia. }
  fold v1 in Hrun1, Hnow1.
  assert (loads pd w1 path (mutate df i v1)) as Hload1.
  { apply loads_written.
    - by apply mutate_well_loaded.
    - apply mutate_counts_exact; [done..|]. apply exact_clamped; [|done]. by apply (Hex i).
    - rewrite Hnow1. apply lookup_insert_eq. }
  assert (first_match pd (mutate df i v1) hotel_name i) as Hmatch1.
  { destruct Hmatch as (matches & Hm & Hi). exists matches.
    by rewrite match_rows_mutate. }
  assert (now w1 !! tmp_path_of rnd2 path = None) as Hf2'.
  { rewrite Hnow1, lookup_insert_ne; [done|]. intros E. congruence. }
  assert (rooms_available (mutate df i v1) i = Some v1) as Hv1
    by (by apply mutate_rooms_available).
  exists w1. rewrite decrement_unfold, increment_unfold, Hpos.
  split; [done|]. split.
  - intros Hmax.
    destruct (read_match_write_run pd rnd2 path hotel_name
                (λ current, current + a) w1 (mutate df i v1) i v1)
      as (w2 & _ & _ & Hrun2 & Hnow2 & _); try done.
    { rewrite int64_max_spec. subst v1. lia. }
    exists w2, (v1 + a), (mutate (mutate df i v1) i (v1 + a)).
    split; [done|]. split; [rewrite Hnow2; apply lookup_insert_eq|].
    split.
    { apply mutate_rooms_available; [by apply mutate_well_loaded|].
      by rewrite mutate_length. }
    subst v1. split; [lia|]. intros Hlt'. repeat split; lia.
  - intros Hmax.
    apply (read_match_write_overflow pd rnd2 path hotel_name _ w1 (mutate df i v1) i v1);
      try done.
    rewrite int64_max_spec. subst v1. lia.
Qed.

(** The round trip on the table of the scenario: ten rooms, less three,
    plus three. *)
Lemma sunrise_round_trip :
  ∃ w1 w2 df2,
    decrement_room_availability plain_pandas "k3x9" "hotels.csv" "Sunrise Inn" 3
      (one_file "hotels.csv" sunrise) = (Ok 7, w1) ∧
    increment_room_availability plain_pandas "p07q" "hotels.csv" "Sunrise Inn" 3 w1
      = (Ok 10, w2) ∧
    now w2 !! "hotels.csv" = Some (Csv utf_8_sig (Pd.as_text df2)) ∧
    rooms_available df2 0 = Some 10.
Proof.
  destruct (decrement_then_increment plain_pandas "k3x9" "p07q" "hotels.csv"
              "Sunrise Inn" 3 (one_file "hotels.csv" sunrise)
              (loaded plain_pandas sunrise) 0%nat 10)
    as (w1 & Hrun1 & Hinc & _).
  { lia. }
  { exists utf_8, sunrise. split; reflexivity. }
  { apply counts_exactb_correct. reflexivity. }
  { exists [true]. split; reflexivity. }
  { reflexivity. }
  { reflexivity. }
  { reflexivity. }
  destruct Hinc as (w2 & v & df2 & Hrun2 & Hfile & Hrooms & Hle & _); [lia|].
  exists w1, w2, df2. rewrite (Hle ltac:(lia)) in *.
  repeat split; assumption.
Defined.

(** C2 as stated fails for an amount beyond [2^63 - 1].  In the table
    [full_house], no room and the amount [2^63], which exceeds the
    availability: the decrement leaves 0, the increment raises and returns
    nothing, and the file still holds 0, the original value. *)
Lemma round_trip_past_int64 :
  rooms_available (loaded plain_pandas full_house) 0 = Some 0 ∧
  ∃ w1,
    decrement_room_availability plain_pandas "k3x9" "hotels.csv" "Sunrise Inn" (2 ^ 63)
      (one_file "hotels.csv" full_house) = (Ok 0, w1) ∧
    increment_room_availability plain_pandas "p07q" "hotels.csv" "Sunrise Inn" (2 ^ 63) w1
      = (Raise AssertionError, w1) ∧
    now w1 !! "hotels.csv"
      = Some (Csv utf_8_sig (Pd.as_text (mutate (loaded plain_pandas full_house) 0 0))) ∧
    rooms_available (mutate (loaded plain_pandas full_house) 0 0) 0 = Some 0.
Proof.
  split; [vm_compute; reflexivity|].
  exists (decrement_room_availability plain_pandas "k3x9" "hotels.csv" "Sunrise Inn"
            (2 ^ 63) (one_file "hotels.csv" full_house)).2.
  repeat split; vm_compute; reflexivity.
Qed.

(** C3 (amended).  After a successful decrement or increment, the mutated
    row of the table written to the path holds the returned availability
    and the label [còn] if and only if that availability is greater than 0
    ([hết] otherwise); every row holds an integer; the other rows keep the
    availability and the status the loader gave them, so every row is
    consistent when the file had no status column; the returned
    availability is non-negative after a decrement, and an availability
    that was non-negative stays so. *)
Theorem status_after_mutation pd rnd path hotel_name a w v w' :
  decrement_room_availability pd rnd path hotel_name a w = (Ok v, w') ∨
  increment_room_availability pd rnd path hotel_name a w = (Ok v, w') →
  ∃ enc t df i,
    now w !! path = Some (Csv enc t) ∧
    normalize pd (Pd.as_text t) = Ok df ∧
    first_match pd df hotel_name i ∧
    let df' := mutate df i v in
    now w' !! path = Some (Csv utf_8_sig (Pd.as_text df')) ∧
    rooms_available df' i = Some v ∧
    status df' i = Some (Str (if 0 <? v then con else het)) ∧
    (∀ j, (j < length (rows df'))%nat → ∃ n, rooms_available df' j = Some n) ∧
    (∀ j, j ≠ i →
       rooms_available df' j = rooms_available df j ∧ status df' j = status df j) ∧
    ("status" ∉ columns t →
       ∀ j n, rooms_available df' j = Some n →
              status df' j = Some (Str (if 0 <? n then con else het))) ∧
    (decrement_room_availability pd rnd path hotel_name a w = (Ok v, w') → 0 ≤ v) ∧
    (∀ j n m, rooms_available df j = Some n → 0 ≤ n →
              rooms_available df' j = Some m → 0 ≤ m).
Proof.
  intros Hcall.
  assert (0 < a ∧ ∃ df i c,
            loads pd w path df ∧ first_match pd df hotel_name i ∧
            rooms_available df i = Some c ∧
            (v = Z.max 0 (c - a) ∨ v = c + a) ∧
            now w' = <[path := Csv utf_8_sig (Pd.as_text (mutate df i v))]> (now w))
    as (Ha & df & i & c & (enc & t & Hfile & Hload) & Hmatch & Hc & Hv & Hnow).
  { destruct Hcall as [H|H].
    - apply decrement_inv in H as (Ha & df & i & c & Hl & Hm & Hc & Hv & _ & Hnow).
      split; [done|]. exists df, i, c. eauto 10.
    - apply increment_inv in H as (Ha & df & i & c & Hl & Hm & Hc & Hv & _ & Hnow).
      split; [done|]. exists df, i, c. eauto 10. }
  pose proof (normalize_well_loaded _ _ _ Hload) as Hwl.
  pose proof (first_match_lt _ _ _ _ Hmatch) as Hlt.
  assert (∀ j, j ≠ i →
            rooms_available (mutate df i v) j = rooms_available df j ∧
            status (mutate df i v) j = status df j) as Hother.
  { intros j Hj. unfold rooms_available, status.
    by rewrite mutate_lookup_ne. }
  exists enc, t, df, i. cbv zeta. repeat split; try done.
  - rewrite Hnow. apply lookup_insert_eq.
  - by apply mutate_rooms_available.
  - by apply mutate_status.
  - intros j Hj. apply well_loaded_rooms; [by apply mutate_well_loaded|done].
  - by apply Hother.
  - by apply Hother.
  - intros Hs j n Hn. destruct (decide (j = i)) as [->|Hj].
    + rewrite mutate_rooms_available in Hn by done. injection Hn as <-.
      by apply mutate_status.
    + destruct (Hother j Hj) as [Hr' Hs']. rewrite Hs'. rewrite Hr' in Hn.
      eapply loaded_status; [exact Hload| |exact Hn].
      unfold Pd.has_column. simpl. by apply bool_decide_eq_false.
  - intros H. apply decrement_inv in H as (_ & _ & _ & c' & _ & _ & _ & -> & _). lia.
  - intros j n m Hn Hpos Hm. destruct (decide (j = i)) as [->|Hj].
    + rewrite mutate_rooms_available in Hm by done.
      assert (n = c) as -> by congruence. injection Hm as <-. lia.
    + destruct (Hother j Hj) as [Hr' _]. congruence.
Qed.

(** A decrement of [Beta] in the table [stale]: the mutated row holds two
    rooms and the label [còn]. *)
Lemma stale_beta_status :
  ∃ w' df',
    decrement_room_availability plain_pandas "k3x9" "hotels.csv" "Beta" 1
      (one_file "hotels.csv" stale) = (Ok 2, w') ∧
    now w' !! "hotels.csv" = Some (Csv utf_8_sig (Pd.as_text df')) ∧
    rooms_available df' 1 = Some 2 ∧
    status df' 1 = Some (Str con).
Proof.
  set (run := decrement_room_availability plain_pandas "k3x9" "hotels.csv" "Beta" 1
                (one_file "hotels.csv" stale)).
  assert (run = (Ok 2, run.2)) as Hrun by (vm_compute; reflexivity).
  destruct (status_after_mutation _ _ _ _ _ _ _ _ (or_introl Hrun))
    as (enc & t & df & i & Hfile & Hload & (matches & Hm & Hi) & Hnow & Hrooms & Hstatus & _).
  vm_compute in Hfile. injection Hfile as <- <-.
  vm_compute in Hload. injection Hload as <-.
  vm_compute in Hm. injection Hm as <-.
  vm_compute in Hi. injection Hi as <-.
  exists run.2. eexists. repeat split.
  - exact Hnow.
  - exact Hrooms.
  - exact Hstatus.
Defined.

(** C3 as stated fails: after the same decrement of [Beta], the row of
    [Alpha] still has five rooms under the label [hết]. *)
Lemma stale_alpha_status :
  ∃ w' df',
    decrement_room_availability plain_pandas "k3x9" "hotels.csv" "Beta" 1
      (one_file "hotels.csv" stale) = (Ok 2, w') ∧
    now w' !! "hotels.csv" = Some (Csv utf_8_sig (Pd.as_text df')) ∧
    rooms_available df' 0 = Some 5 ∧
    status df' 0 = Some (Str het).
Proof.
  exists (decrement_room_availability plain_pandas "k3x9" "hotels.csv" "Beta" 1
            (one_file "hotels.csv" stale)).2,
         (mutate (loaded plain_pandas stale) 1 2).
  repeat split; vm_compute; reflexivity.
Qed.

(** C5.  When rows of the loaded table match the target name (one or
    several, at the stage that decides), a decrement returns, and so does
    an increment whose result fits the int64 column; what they write is
    the loaded table with its first matching row in file order mutated:
    every other row, matching or not, is as the loader left it.  An
    increment whose result does not fit raises, and mutates no row. *)
Theorem first_matching_row_only pd rnd path hotel_name a w df matches k :
  0 < a →
  loads pd w path df →
  _match_rows pd df hotel_name = Ok matches →
  matches !! k = Some true →
  now w !! tmp_path_of rnd path = None →
  ∃ i c,
    matches !! i = Some true ∧
    (∀ j, (j < i)%nat → matches !! j = Some false) ∧
    rooms_available df i = Some c ∧
    (∃ w', decrement_room_availability pd rnd path hotel_name a w
             = (Ok (Z.max 0 (c - a)), w') ∧
           now w' !! path
             = Some (Csv utf_8_sig (Pd.as_text (mutate df i (Z.max 0 (c - a)))))) ∧
    (c + a ≤ 2 ^ 63 - 1 →
     ∃ w', increment_room_availability pd rnd path hotel_name a w
             = (Ok (c + a), w') ∧
           now w' !! path = Some (Csv utf_8_sig (Pd.as_text (mutate df i (c + a))))) ∧
    (2 ^ 63 - 1 < c + a →
     increment_room_availability pd rnd path hotel_name a w
       = (Raise AssertionError, w)) ∧
    ∀ v, rooms_available (mutate df i v) i = Some v ∧
         length (rows (mutate df i v)) = length (rows df) ∧
         ∀ j, j ≠ i → rows (mutate df i v) !! j = rows df !! j.
Proof.
  intros Ha Hload Hm Hk Hfresh.
  assert ((a <=? 0) = false) as Hpos by lia.
  pose proof Hload as (enc & t & _ & Hwl%normalize_well_loaded).
  destruct (any_first_index matches) as [i Hi]; [apply any_true; eauto|].
  assert (first_match pd df hotel_name i) as Hmatch by (by exists matches).
  pose proof (first_match_lt _ _ _ _ Hmatch) as Hlt.
  destruct (well_loaded_rooms df i Hwl Hlt) as [c Hc].
  pose proof (loads_int64 _ _ _ _ _ _ Hload Hc) as Hrange.
  apply first_index_Ok in Hi as [Hi Hfirst].
  exists i, c. split; [done|]. split; [done|]. split; [done|].
  split; [|split; [|split]].
  - destruct (read_match_write_run pd rnd path hotel_name
                (λ current, Z.max 0 (current - a)) w df i c)
      as (w' & _ & _ & Hrun & Hnow & _); try done.
    { rewrite int64_max_spec. lia. }
    exists w'. rewrite decrement_unfold, Hpos. split; [done|].
    rewrite Hnow. apply lookup_insert_eq.
  - intros Hmax.
    destruct (read_match_write_run pd rnd path hotel_name
                (λ current, current + a) w df i c)
      as (w' & _ & _ & Hrun & Hnow & _); try done.
    exists w'. rewrite increment_unfold, Hpos. split; [done|].
    rewrite Hnow. apply lookup_insert_eq.
  - intros Hmax. rewrite increment_unfold, Hpos.
    by apply (read_match_write_overflow pd rnd path hotel_name _ w df i c).
  - intros v. split; [by apply mutate_rooms_available|].
    split; [by apply mutate_length|].
    intros j Hj. by apply mutate_lookup_ne.
Qed.

(** Two rows named [Grand Hotel]: a decrement by 3 changes the first of
    them (row 1, eight rooms) and leaves the second (row 2, six rooms). *)
Lemma twins_first_only :
  ∃ w',
    decrement_room_availability plain_pandas "k3x9" "hotels.csv" "Grand Hotel" 3
      (one_file "hotels.csv" twins) = (Ok 5, w') ∧
    now w' !! "hotels.csv"
      = Some (Csv utf_8_sig (Pd.as_text (mutate (loaded plain_pandas twins) 1 5))) ∧
    rooms_available (mutate (loaded plain_pandas twins) 1 5) 1 = Some 5 ∧
    rooms_available (mutate (loaded plain_pandas twins) 1 5) 2 = Some 6.
Proof.
  destruct (first_matching_row_only plain_pandas "k3x9" "hotels.csv" "Grand Hotel" 3
              (one_file "hotels.csv" twins) (loaded plain_pandas twins)
              [false; true; true] 2%nat)
    as (i & c & Hi & Hfirst & Hc & (w' & Hrun & Hfile) & _ & _ & Hframe).
  { lia. }
  { exists utf_8, twins. split; reflexivity. }
  { reflexivity. }
  { reflexivity. }
  { reflexivity. }
  assert (i = 1%nat) as ->.
  { destruct i as [|[|i]]; [discriminate Hi|reflexivity|].
    specialize (Hfirst 1%nat ltac:(lia)). discriminate Hfirst. }
  vm_compute in Hc. injection Hc as <-.
  exists w'. split; [exact Hrun|]. split; [exact Hfile|].
  split; [apply Hframe|reflexivity].
Defined.




(** The example of C4: with both [Grand Hotel] and [grand hotel] in the
    table, the target [Grand Hotel] selects the row of the same case only,
    and that row alone is updated. *)
Lemma grand_hotel_exact pd :
  _match_rows pd (loaded pd grand_twice) "Grand Hotel" = Ok [true; false] ∧
  (decrement_room_availability pd "k3x9" "hotels.csv" "Grand Hotel" 1
     (one_file "hotels.csv" grand_twice)).1 = Ok 4.
Proof. split; vm_compute; reflexivity. Qed.

(** C4, where the code departs from it.  The third stage hands the
    lower-cased target to [str.contains], which reads it as a regular
    expression: the target [grand.hotel] is no substring of [grand hotel],
    and the spec's matcher selects nothing, yet the code's matcher selects
    the row and the decrement goes through. *)
Theorem dot_matches_any_character pd :
  spec_match (loaded pd grand) "grand.hotel" = [false] ∧
  _match_rows pd (loaded pd grand) "grand.hotel" = Ok [true] ∧
  (decrement_room_availability pd "k3x9" "hotels.csv" "grand.hotel" 1
     (one_file "hotels.csv" grand)).1 = Ok 4.
Proof. repeat split; vm_compute; reflexivity. Qed.

(** C8.  Whatever the path and the hotel name: with an amount that is zero
    or negative both operations raise the [ValueError] of the amount check
    and leave the file system, history included, as it was; with a positive
    amount and no file at the path both raise [FileNotFoundError] and
    leave the file system as it was, so no file is created. *)
Theorem invalid_calls_change_nothing pd rnd path hotel_name a w :
  (a ≤ 0 →
   decrement_room_availability pd rnd path hotel_name a w
     = (Raise (ValueError "decrement must be positive"), w) ∧
   increment_room_availability pd rnd path hotel_name a w
     = (Raise (ValueError "increment must be positive"), w)) ∧
  (0 < a → now w !! path = None →
   decrement_room_availability pd rnd path hotel_name a w
     = (Raise (FileNotFoundError ("Hotels CSV not found: " +:+ path)), w) ∧
   increment_room_availability pd rnd path hotel_name a w
     = (Raise (FileNotFoundError ("Hotels CSV not found: " +:+ path)), w)).
Proof.
  split.
  - intros Ha. rewrite decrement_unfold, increment_unfold.
    assert ((a <=? 0) = true) as -> by lia. done.
  - intros Ha Hnone. rewrite decrement_unfold, increment_unfold.
    assert ((a <=? 0) = false) as -> by lia.
    unfold read_match_write, os.path_exists, mbind, M_bind, get_files, mret, M_ret.
    rewrite Hnone. done.
Qed.

(** C9.  [_atomic_write_csv], for a target that exists and a temporary name
    that is free (as [mkstemp] guarantees): the temporary file is created
    in the directory of the target, the whole table is written to it, and
    one last step puts it at the target.  In every state the file system
    goes through before that step the target is as it was; after it the
    target holds the whole table and the temporary file is gone: at no
    time does the target hold part of a write. *)
Theorem temp_file_then_replace rnd df path w :
  is_Some (now w !! path) →
  now w !! tmp_path_of rnd path = None →
  all_chars not_sep rnd = true →
  ∃ w' s steps,
    _atomic_write_csv rnd df path w = (Ok (), w') ∧
    os.dirname (tmp_path_of rnd path) = dirpath_of path ∧
    past w' = s :: steps ++ past w ∧
    Forall (λ s, s !! path = now w !! path) (s :: steps) ∧
    s !! tmp_path_of rnd path = Some (Csv utf_8_sig (Pd.as_text df)) ∧
    now w' !! path = Some (Csv utf_8_sig (Pd.as_text df)) ∧
    now w' !! tmp_path_of rnd path = None ∧
    (∀ q, q ≠ path → q ≠ tmp_path_of rnd path → now w' !! q = now w !! q) ∧
    Forall (λ s, s !! path = now w !! path ∨
                 s !! path = Some (Csv utf_8_sig (Pd.as_text df)))
           (now w' :: s :: steps).
Proof.
  intros [f Hf] Hfresh Hrnd.
  assert (tmp_path_of rnd path ≠ path) as Hne by (intros E; congruence).
  destruct (atomic_write_run rnd df path w Hfresh Hne)
    as (w' & s & steps & Hrun & Hnow & Hpast & Hs & Hsteps).
  assert (Forall (λ s, s !! path = now w !! path) (s :: steps)) as Hold.
  { eapply Forall_impl; [exact Hsteps|]. simpl. intros s' H. by apply H. }
  exists w', s, steps.
  split; [done|]. split; [by apply dirname_tmp_path|]. split; [done|].
  split; [done|]. split; [done|].
  split; [rewrite Hnow; apply lookup_insert_eq|].
  split; [by rewrite Hnow, lookup_insert_ne|].
  split; [intros q Hq _; by rewrite Hnow, lookup_insert_ne|].
  constructor.
  - right. rewrite Hnow. apply lookup_insert_eq.
  - eapply Forall_impl; [exact Hold|]. simpl. intros s' H. by left.
Qed.

(** The write of the loaded [inventory] to [data/hotels.csv]: the temporary
    file is [data/tmpk3x9.csv], and the target ends with the table. *)
Lemma inventory_written :
  ∃ w',
    _atomic_write_csv "k3x9" (loaded plain_pandas inventory) "data/hotels.csv"
      (one_file "data/hotels.csv" inventory) = (Ok (), w') ∧
    tmp_path_of "k3x9" "data/hotels.csv" = "data/tmpk3x9.csv" ∧
    os.dirname "data/tmpk3x9.csv" = "data" ∧
    now w' !! "data/hotels.csv"
      = Some (Csv utf_8_sig (Pd.as_text (loaded plain_pandas inventory))) ∧
    now w' !! "data/tmpk3x9.csv" = None.
Proof.
  destruct (temp_file_then_replace "k3x9" (loaded plain_pandas inventory)
              "data/hotels.csv" (one_file "data/hotels.csv" inventory))
    as (w' & s & steps & Hrun & Hdir & _ & _ & _ & Hfile & Htmp & _).
  { eexists. reflexivity. }
  { reflexivity. }
  { reflexivity. }
  exists w'. split; [exact Hrun|]. split; [reflexivity|].
  split; [exact Hdir|]. split; [exact Hfile|exact Htmp].
Defined.







(** * Further facts *)

(** ** Strings *)

Lemma lstrip_clean s :
  match Py.lstrip s with String c _ => Py.isspace c = false | EmptyString => True end.
Proof.
  induction s as [|c s IH]; simpl; [done|].
  destruct (Py.isspace c) eqn:E; [exact IH|exact E].
Qed.

Lemma rstrip_cons c s :
  Py.rstrip (String c s) =
  match Py.rstrip s with
  | EmptyString => if Py.isspace c then EmptyString else String c EmptyString
  | r => String c r
  end.
Proof. reflexivity. Qed.

Lemma rstrip_rstrip s : Py.rstrip (Py.rstrip s) = Py.rstrip s.
Proof.
  induction s as [|c s IH]; [done|]. rewrite rstrip_cons.
  destruct (Py.rstrip s) as [|d r] eqn:E.
  - destruct (Py.isspace c) eqn:Ec; [done|]. rewrite rstrip_cons. cbn [Py.rstrip]. by rewrite Ec.
  - rewrite rstrip_cons. by rewrite IH.
Qed.

Lemma lstrip_rstrip_clean s :
  match s with String c _ => Py.isspace c = false | EmptyString => True end →
  Py.lstrip (Py.rstrip s) = Py.rstrip s.
Proof.
  destruct s as [|c s]; [done|]. intros Hc. rewrite rstrip_cons.
  destruct (Py.rstrip s); rewrite ?Hc; cbn [Py.lstrip]; by rewrite Hc.
Qed.

Lemma strip_idemp s : Py.strip (Py.strip s) = Py.strip s.
Proof.
  unfold Py.strip. rewrite lstrip_rstrip_clean by apply lstrip_clean.
  apply rstrip_rstrip.
Qed.

(** ** The stages of the matcher *)

Lemma stage_lookup test df j r :
  rows df !! j = Some r → stage test df !! j = Some (existsb test (row_names df r)).
Proof. intros Hr. unfold stage. by rewrite list_lookup_fmap, Hr. Qed.

Lemma existsb_bool_decide_eq (target : string) l :
  existsb (λ s, bool_decide (s = target)) l = true ↔ target ∈ l.
Proof.
  rewrite existsb_exists. split.
  - intros (s & Hin & Hs). apply bool_decide_eq_true in Hs. subst s.
    by apply list_elem_of_In.
  - intros Hin. exists target. split; [by apply list_elem_of_In|].
    by apply bool_decide_eq_true.
Qed.

(** A row one of whose names is the stripped target decides the matcher at
    its first stage. *)
Lemma exact_stage_decides pd df hotel_name i r :
  rows df !! i = Some r →
  Py.strip hotel_name ∈ row_names df r →
  _match_rows pd df hotel_name = Ok (exact_stage df (Py.strip hotel_name)) ∧
  exact_stage df (Py.strip hotel_name) !! i = Some true.
Proof.
  intros Hr Hin.
  assert (exact_stage df (Py.strip hotel_name) !! i = Some true) as Hi.
  { unfold exact_stage. rewrite (stage_lookup _ _ _ _ Hr). f_equal.
    by apply existsb_bool_decide_eq. }
  split; [|done]. rewrite match_rows_stages. cbv zeta.
  assert (Pd.any (exact_stage df (Py.strip hotel_name)) = true) as ->; [|done].
  apply any_true. eauto.
Qed.

(** ** The loader, when it raises *)

Lemma mapM_Raise {A B} (f : A → result B) l e :
  mapM f l = Raise e → ∃ a, a ∈ l ∧ f a = Raise e.
Proof.
  induction l as [|a l IH]; simpl; [done|].
  destruct (f a) as [b|e'] eqn:E; simpl.
  - destruct (mapM f l) as [bs|e'] eqn:E'; simpl; [done|].
    intros [= ->]. destruct (IH eq_refl) as (a' & Hin & Ha').
    exists a'. split; [by apply list_elem_of_further|done].
  - intros [= ->]. exists a. split; [apply list_elem_of_here|done].
Qed.

(** The normalisation raises nothing but the error of [astype(int)]. *)
Lemma normalize_Raise pd t e : normalize pd t = Raise e → e = IntCastingNaNError.
Proof.
  rewrite normalize_rowwise.
  destruct (mapM _ (rows t)) as [rs|e'] eqn:E; simpl; [done|].
  intros [= ->]. apply mapM_Raise in E as (r & _ & Hr).
  unfold load_row in Hr.
  destruct (Num.to_numeric pd _); simpl in Hr; congruence.
Qed.

Lemma loaded_columns_app cols :
  loaded_columns cols =
  cols ++ (if bool_decide ("rooms_available" ∈ cols) then [] else ["rooms_available"])
       ++ (if bool_decide ("status" ∈ cols) then [] else ["status"]).
Proof.
  unfold loaded_columns.
  destruct (bool_decide ("rooms_available" ∈ cols)) eqn:E1.
  - destruct (bool_decide ("status" ∈ cols)); simpl; by rewrite ?app_nil_r.
  - assert (bool_decide ("status" ∈ cols ++ ["rooms_available"])
            = bool_decide ("status" ∈ cols)) as ->.
    { apply bool_decide_ext. rewrite elem_of_app, list_elem_of_singleton.
      split; [intros [H|H]; [done|discriminate H]|by left]. }
    destruct (bool_decide ("status" ∈ cols)); simpl; by rewrite <- ?app_assoc, ?app_nil_r.
Qed.

(** ** Runs that raise *)

Lemma path_exists_run path w :
  os.path_exists path w = (Ok (bool_decide (is_Some (now w !! path))), w).
Proof. reflexivity. Qed.

Lemma read_match_write_no_file pd rnd path name new w :
  now w !! path = None →
  read_match_write pd rnd path name new w
  = (Raise (FileNotFoundError ("Hotels CSV not found: " +:+ path)), w).
Proof.
  intros Hfile. unfold read_match_write.
  rewrite (bind_Ok _ _ _ _ _ (path_exists_run path w)). by rewrite Hfile.
Qed.

(** The run up to the loader, for a path that holds a file. *)
Lemma read_match_write_file pd rnd path name new w f :
  now w !! path = Some f →
  read_match_write pd rnd path name new w =
  (df ← _safe_read_csv pd path;
   matches ← lift (_match_rows pd df name);
   if negb (Pd.any matches)
   then raise (ValueError (no_match_message name path)) else
   first_idx ← lift (Pd.first_index matches);
   x ← lift (Pd.at_get df first_idx "rooms_available");
   current ← lift (Pd.int_of x);
   let new_val := new current in
   df ← lift (Pd.at_set_int df first_idx "rooms_available" new_val);
   let df := Pd.at_set df first_idx "status" (Str (if 0 <? new_val then con else het)) in
   _atomic_write_csv rnd df path;;
   mret new_val) w.
Proof.
  intros Hfile. unfold read_match_write.
  rewrite (bind_Ok _ _ _ _ _ (path_exists_run path w)). by rewrite Hfile.
Qed.

Lemma read_match_write_malformed pd rnd path name new w :
  now w !! path = Some Malformed →
  read_match_write pd rnd path name new w = (Raise ParserError, w).
Proof.
  intros Hfile. rewrite (read_match_write_file _ _ _ _ _ _ _ Hfile).
  apply bind_Raise. unfold _safe_read_csv.
  by rewrite (bind_Raise _ _ _ _ _ (read_first_Malformed _ _ Hfile)).
Qed.

Lemma read_match_write_not_loaded pd rnd path name new w enc t e :
  now w !! path = Some (Csv enc t) →
  normalize pd (Pd.as_text t) = Raise e →
  read_match_write pd rnd path name new w = (Raise e, w).
Proof.
  intros Hfile Hload. rewrite (read_match_write_file _ _ _ _ _ _ _ Hfile).
  apply bind_Raise. by rewrite (safe_read_csv_Csv _ _ _ _ _ Hfile), Hload.
Qed.

(** The run up to the matcher, for a file the loader accepts. *)
Lemma read_match_write_loaded pd rnd path name new w df :
  loads pd w path df →
  read_match_write pd rnd path name new w =
  (matches ← lift (_match_rows pd df name);
   if negb (Pd.any matches)
   then raise (ValueError (no_match_message name path)) else
   first_idx ← lift (Pd.first_index matches);
   x ← lift (Pd.at_get df first_idx "rooms_available");
   current ← lift (Pd.int_of x);
   let new_val := new current in
   df ← lift (Pd.at_set_int df first_idx "rooms_available" new_val);
   let df := Pd.at_set df first_idx "status" (Str (if 0 <? new_val then con else het)) in
   _atomic_write_csv rnd df path;;
   mret new_val) w.
Proof.
  intros (enc & t & Hfile & Hload). rewrite (read_match_write_file _ _ _ _ _ _ _ Hfile).
  rewrite (bind_Ok _ _ w df w); [done|].
  by rewrite (safe_read_csv_Csv _ _ _ _ _ Hfile), Hload.
Qed.

Lemma read_match_write_pattern pd rnd path name new w df e :
  loads pd w path df →
  _match_rows pd df name = Raise e →
  read_match_write pd rnd path name new w = (Raise e, w).
Proof.
  intros Hload Hm. rewrite (read_match_write_loaded _ _ _ _ _ _ _ Hload).
  apply bind_Raise. unfold lift. by rewrite Hm.
Qed.

Lemma read_match_write_no_match pd rnd path name new w df matches :
  loads pd w path df →
  _match_rows pd df name = Ok matches →
  Pd.any matches = false →
  read_match_write pd rnd path name new w
  = (Raise (ValueError (no_match_message name path)), w).
Proof.
  intros Hload Hm Hany. rewrite (read_match_write_loaded _ _ _ _ _ _ _ Hload).
  rewrite (bind_Ok _ _ w matches w) by (unfold lift; by rewrite Hm).
  by rewrite Hany.
Qed.

Lemma mkstemp_taken rnd path w :
  is_Some (now w !! tmp_path_of rnd path) →
  tempfile.mkstemp rnd ".csv"
    (if String.eqb (os.dirname path) "" then "." else os.dirname path) w
  = (Raise FileExistsError, w).
Proof.
  intros [f H]. unfold tempfile.mkstemp. fold (tmp_path_of rnd path). cbv zeta.
  unfold mbind at 1, M_bind at 1, get_files. by rewrite H.
Qed.

Lemma read_match_write_name_taken pd rnd path name new w df i c :
  loads pd w path df →
  first_match pd df name i →
  rooms_available df i = Some c →
  new c ≤ Num.int64_max →
  is_Some (now w !! tmp_path_of rnd path) →
  read_match_write pd rnd path name new w = (Raise FileExistsError, w).
Proof.
  intros Hload (matches & Hm & Hi) Hc Hmax Htmp.
  rewrite (read_match_write_loaded _ _ _ _ _ _ _ Hload).
  rewrite (bind_Ok _ _ w matches w) by (unfold lift; by rewrite Hm).
  rewrite (first_index_any _ _ Hi). simpl.
  rewrite (bind_Ok _ _ w i w) by (unfold lift; by rewrite Hi).
  rewrite (bind_Ok _ _ w (Int c) w) by (unfold lift; by rewrite (at_get_rooms _ _ _ Hc)).
  rewrite (bind_Ok _ _ w c w) by done.
  cbv zeta.
  rewrite (bind_Ok _ _ w (Pd.at_set df i "rooms_available" (Int (new c))) w); last first.
  { unfold lift, Pd.at_set_int. by assert ((new c <=? Num.int64_max) = true) as -> by lia. }
  apply bind_Raise. unfold _atomic_write_csv.
  apply bind_Raise. by apply mkstemp_taken.
Qed.

Lemma match_rows_Raise pd df name e : _match_rows pd df name = Raise e → e = re_error.
Proof.
  rewrite match_rows_stages. cbv zeta.
  destruct (Pd.any (exact_stage _ _)); [done|].
  destruct (Pd.any (lower_stage _ _)); [done|].
  destruct (_ || _); [|done].
  unfold Re.compile. destruct (Re.simple _); [done|].
  destruct (re_compile_other _ _); [done|]. simpl. by intros [= <-].
Qed.

(** Every way a run raises: the file system is as before, and the
    exception is one of seven. *)
Lemma read_match_write_Raise pd rnd path name new w e w' :
  read_match_write pd rnd path name new w = (Raise e, w') →
  w' = w ∧
  (e = FileNotFoundError ("Hotels CSV not found: " +:+ path) ∧ now w !! path = None ∨
   e = ParserError ∧ now w !! path = Some Malformed ∨
   e = IntCastingNaNError ∧
     (∃ enc t, now w !! path = Some (Csv enc t) ∧ normalize pd (Pd.as_text t) = Raise e) ∨
   e = re_error ∧ (∃ df, loads pd w path df ∧ _match_rows pd df name = Raise e) ∨
   e = ValueError (no_match_message name path) ∧
     (∃ df matches, loads pd w path df ∧ _match_rows pd df name = Ok matches ∧
                    Pd.any matches = false) ∨
   e = AssertionError ∧
     (∃ df i c, loads pd w path df ∧ first_match pd df name i ∧
                rooms_available df i = Some c ∧ 2 ^ 63 - 1 < new c) ∨
   e = FileExistsError ∧
     (∃ df i, loads pd w path df ∧ first_match pd df name i ∧
              is_Some (now w !! tmp_path_of rnd path))).
Proof.
  intros H.
  destruct (now w !! path) as [[enc t|]|] eqn:Hfile.
  - destruct (normalize pd (Pd.as_text t)) as [df|e0] eqn:Hload.
    + assert (loads pd w path df) as Hl by (by exists enc, t).
      destruct (_match_rows pd df name) as [matches|e0] eqn:Hm.
      * destruct (Pd.any matches) eqn:Hany.
        -- destruct (any_first_index _ Hany) as [i Hi].
           assert (first_match pd df name i) as Hfm by (by exists matches).
           pose proof (normalize_well_loaded _ _ _ Hload) as Hwl.
           destruct (well_loaded_rooms df i Hwl (first_match_lt _ _ _ _ Hfm)) as [c Hc].
           destruct (Z.le_gt_cases (new c) Num.int64_max) as [Hmax|Hmax].
           ++ destruct (now w !! tmp_path_of rnd path) as [f|] eqn:Htmp.
              ** rewrite (read_match_write_name_taken _ _ _ _ _ _ _ _ _ Hl Hfm Hc Hmax) in H
                   by eauto.
                 injection H as <- <-. split; [done|]. do 6 right. split; [done|].
                 exists df, i. eauto.
              ** destruct (read_match_write_run pd rnd path name new w df i c
                             Hl Hfm Hc Htmp Hmax) as (w'' & _ & _ & Hrun & _).
                 congruence.
           ++ rewrite (read_match_write_overflow _ _ _ _ _ _ _ _ _ Hl Hfm Hc Hmax) in H.
              injection H as <- <-. split; [done|]. do 5 right. left. split; [done|].
              exists df, i, c. rewrite int64_max_spec in Hmax. eauto.
        -- rewrite (read_match_write_no_match _ _ _ _ _ _ _ _ Hl Hm Hany) in H.
           injection H as <- <-. split; [done|]. do 4 right. left. split; [done|].
           exists df, matches. done.
      * rewrite (read_match_write_pattern _ _ _ _ _ _ _ _ Hl Hm) in H.
        injection H as <- <-. split; [done|]. do 3 right. left.
        split; [by eapply match_rows_Raise|]. by exists df.
    + rewrite (read_match_write_not_loaded _ _ _ _ _ _ _ _ _ Hfile Hload) in H.
      injection H as <- <-. split; [done|]. do 2 right. left.
      split; [by eapply normalize_Raise|]. by exists enc, t.
  - rewrite (read_match_write_malformed _ _ _ _ _ _ Hfile) in H.
    injection H as <- <-. split; [done|]. right. by left.
  - rewrite (read_match_write_no_file _ _ _ _ _ _ Hfile) in H.
    injection H as <- <-. split; [done|]. by left.
Qed.

(** ** One call after another *)

Lemma mutate_row_mutate_row u v r : mutate_row u (mutate_row v r) = mutate_row u r.
Proof.
  apply map_eq. intros col.
  destruct (decide (col = "status")) as [->|Hs]; [by rewrite !mutate_row_status|].
  destruct (decide (col = "rooms_available")) as [->|Hr]; [by rewrite !mutate_row_rooms|].
  by rewrite !mutate_row_other.
Qed.

(** A second mutation of the same row overrides the first. *)
Lemma mutate_mutate df i v u :
  well_loaded df → mutate (mutate df i v) i u = mutate df i u.
Proof.
  intros Hwl. pose proof (mutate_well_loaded df i v Hwl) as (H1 & H2 & _).
  pose proof Hwl as (H3 & H4 & _).
  rewrite (mutate_frame (mutate df i v)) by done.
  rewrite !(mutate_frame df) by done. simpl. f_equal.
  rewrite list_alter_alter_eq. apply list_alter_ext; [|done].
  intros r _. apply mutate_row_mutate_row.
Qed.

(** Mutations of two rows can be done in either order. *)
Lemma mutate_swap df i j v u :
  well_loaded df → i ≠ j → mutate (mutate df i v) j u = mutate (mutate df j u) i v.
Proof.
  intros Hwl Hne. pose proof (mutate_well_loaded df i v Hwl) as (H1 & H2 & _).
  pose proof (mutate_well_loaded df j u Hwl) as (H5 & H6 & _).
  pose proof Hwl as (H3 & H4 & _).
  rewrite (mutate_frame (mutate df i v)), (mutate_frame (mutate df j u)) by done.
  rewrite !(mutate_frame df) by done. simpl. f_equal.
  apply list_alter_alter_ne. by intros ->.
Qed.

(** Two runs, one after the other, on the rows [i] and [j]. *)
Lemma read_match_write_then pd rnd1 rnd2 path name1 name2 f g w df i j c d :
  loads pd w path df →
  counts_exact df →
  first_match pd df name1 i →
  first_match pd df name2 j →
  rooms_available df i = Some c →
  rooms_available (mutate df i (f c)) j = Some d →
  Num.exact (f c) = true →
  now w !! tmp_path_of rnd1 path = None →
  now w !! tmp_path_of rnd2 path = None →
  g d ≤ Num.int64_max →
  ∃ w1 w2,
    read_match_write pd rnd1 path name1 f w = (Ok (f c), w1) ∧
    loads pd w1 path (mutate df i (f c)) ∧
    read_match_write pd rnd2 path name2 g w1 = (Ok (g d), w2) ∧
    now w2 = <[path := Csv utf_8_sig
                 (Pd.as_text (mutate (mutate df i (f c)) j (g d)))]> (now w).
Proof.
  intros Hload Hex Hm1 Hm2 Hc Hd Hfc Hf1 Hf2 Hgd.
  pose proof Hload as (enc & t & Hfile & Hwl%normalize_well_loaded).
  destruct (read_match_write_run pd rnd1 path name1 f w df i c)
    as (w1 & _ & _ & Hrun1 & Hnow1 & _); try done.
  { apply exact_int64, int64_spec in Hfc. rewrite int64_max_spec. lia. }
  assert (loads pd w1 path (mutate df i (f c))) as Hload1.
  { apply loads_written.
    - by apply mutate_well_loaded.
    - by apply mutate_counts_exact.
    - rewrite Hnow1. apply lookup_insert_eq. }
  assert (first_match pd (mutate df i (f c)) name2 j) as Hm2'.
  { destruct Hm2 as (matches & Hm & Hj). exists matches. by rewrite match_rows_mutate. }
  assert (now w1 !! tmp_path_of rnd2 path = None) as Hf2'.
  { rewrite Hnow1, lookup_insert_ne; [done|]. intros E. congruence. }
  destruct (read_match_write_run pd rnd2 path name2 g w1 (mutate df i (f c)) j d)
    as (w2 & _ & _ & Hrun2 & Hnow2 & _); try done.
  exists w1, w2. split; [done|]. split; [done|]. split; [done|].
  by rewrite Hnow2, Hnow1, insert_insert_eq.
Qed.

Lemma loads_unique pd w path df df' : loads pd w path df → loads pd w path df' → df = df'.
Proof. intros (enc & t & H1 & H2) (enc' & t' & H1' & H2'). congruence. Qed.

(** * Further properties *)

(** ** The matcher *)

(** X1.  For a table whose names are ASCII texts and an ASCII target
    without any special character of regular expressions (once stripped
    and lower-cased), [_match_rows] returns the rows found by the first of
    three stages that finds any: equality with the stripped target,
    equality of the lower-cased texts, the lower-cased target as a
    substring of the lower-cased name. *)
Theorem match_rows_plain_target pd df hotel_name :
  ascii_only hotel_name = true →
  ascii_names df →
  Re.literal (Py.lower (Py.strip hotel_name)) = true →
  let target := Py.strip hotel_name in
  _match_rows pd df hotel_name =
  Ok (if Pd.any (exact_stage df target) then exact_stage df target
      else if Pd.any (lower_stage df target) then lower_stage df target
      else stage (λ s, Py.contains (Py.lower target) (Py.lower s)) df).
Proof. intros _ _ H. cbv zeta. by rewrite match_rows_literal. Qed.

(** In the table [twins] the target [VIEW] is found by the third stage, in
    the row [Sea View]. *)
Lemma twins_substring :
  _match_rows plain_pandas (loaded plain_pandas twins) " VIEW " = Ok [true; false; false].
Proof.
  rewrite (match_rows_plain_target plain_pandas (loaded plain_pandas twins) " VIEW ");
    [reflexivity|reflexivity|apply ascii_namesb_correct; reflexivity|reflexivity].
Defined.

(** X2.  For a table whose names are ASCII texts and an ASCII target: when
    a name of some row equals the stripped target, the matcher returns,
    whatever characters the target contains, the rows one of whose names
    equals it: a row that agrees only up to case, or that only contains
    the target, is not selected. *)
Theorem exact_match_wins pd df hotel_name i r :
  ascii_only hotel_name = true →
  ascii_names df →
  rows df !! i = Some r →
  Py.strip hotel_name ∈ row_names df r →
  ∃ matches,
    _match_rows pd df hotel_name = Ok matches ∧
    length matches = length (rows df) ∧
    matches !! i = Some true ∧
    ∀ j r', rows df !! j = Some r' →
      (matches !! j = Some true ↔ Py.strip hotel_name ∈ row_names df r').
Proof.
  intros _ _ Hr Hin.
  destruct (exact_stage_decides pd df hotel_name i r Hr Hin) as [Hm Hi].
  exists (exact_stage df (Py.strip hotel_name)).
  split; [done|]. split; [by rewrite (match_rows_length _ _ _ _ Hm)|]. split; [done|].
  intros j r' Hr'. unfold exact_stage. rewrite (stage_lookup _ _ _ _ Hr').
  rewrite <- existsb_bool_decide_eq. split; [by intros [= ->]|by intros ->].
Qed.

(** With [Grand Hotel] and [grand hotel] in the table, the target [Grand
    Hotel] selects the first row and not the second. *)
Lemma grand_twice_exact :
  ∃ matches,
    _match_rows plain_pandas (loaded plain_pandas grand_twice) "Grand Hotel" = Ok matches ∧
    matches !! 0%nat = Some true ∧
    matches !! 1%nat ≠ Some true.
Proof.
  destruct (exact_match_wins plain_pandas (loaded plain_pandas grand_twice) "Grand Hotel" 0%nat
              {[ "name" := Str "Grand Hotel"; "rooms_available" := Int 5;
                 "status" := Str con ]})
    as (matches & Hm & _ & H0 & Hiff).
  { reflexivity. }
  { apply ascii_namesb_correct. reflexivity. }
  { vm_compute. reflexivity. }
  { vm_compute. left. }
  exists matches. split; [exact Hm|]. split; [exact H0|].
  intros H1.
  apply (Hiff 1%nat {[ "name" := Str "grand hotel"; "rooms_available" := Int 9;
                       "status" := Str con ]}) in H1; [|vm_compute; reflexivity].
  vm_compute in H1. apply list_elem_of_singleton in H1. discriminate H1.
Defined.

(** X3.  For a table whose names are ASCII texts and an ASCII target: when
    no name equals the stripped target and a name of some row equals it up
    to case, the matcher returns, whatever characters the target contains,
    the rows one of whose names equals it up to case: a row that only
    contains the target is not selected, and the target is not read as a
    pattern. *)
Theorem case_match_wins pd df hotel_name i r s :
  ascii_only hotel_name = true →
  ascii_names df →
  Pd.any (exact_stage df (Py.strip hotel_name)) = false →
  rows df !! i = Some r →
  s ∈ row_names df r →
  Py.lower s = Py.lower (Py.strip hotel_name) →
  ∃ matches,
    _match_rows pd df hotel_name = Ok matches ∧
    matches !! i = Some true ∧
    ∀ j r', rows df !! j = Some r' →
      (matches !! j = Some true ↔
       ∃ s', s' ∈ row_names df r' ∧ Py.lower s' = Py.lower (Py.strip hotel_name)).
Proof.
  intros _ _ Hex Hr Hs Hl.
  assert (∀ j r', rows df !! j = Some r' →
            (lower_stage df (Py.strip hotel_name) !! j = Some true ↔
             ∃ s', s' ∈ row_names df r' ∧
                   Py.lower s' = Py.lower (Py.strip hotel_name))) as Hiff.
  { intros j r' Hr'. unfold lower_stage. rewrite (stage_lookup _ _ _ _ Hr').
    split.
    - intros [= (s' & Hin & Hs')%existsb_exists]. exists s'.
      split; [by apply list_elem_of_In|by apply bool_decide_eq_true in Hs'].
    - intros (s' & Hin & Hs'). f_equal. apply existsb_exists. exists s'.
      split; [by apply list_elem_of_In|by apply bool_decide_eq_true]. }
  assert (lower_stage df (Py.strip hotel_name) !! i = Some true) as Hi.
  { apply (Hiff i r Hr). eauto. }
  exists (lower_stage df (Py.strip hotel_name)).
  split; [|split; [done|exact Hiff]].
  rewrite match_rows_stages. cbv zeta. rewrite Hex.
  assert (Pd.any (lower_stage df (Py.strip hotel_name)) = true) as ->; [|done].
  apply any_true. eauto.
Qed.

(** In the table [twins] the target [GRAND HOTEL] selects the two rows
    [Grand Hotel] and not the row [Sea View]. *)
Lemma twins_any_case :
  ∃ matches,
    _match_rows plain_pandas (loaded plain_pandas twins) "GRAND HOTEL" = Ok matches ∧
    matches !! 1%nat = Some true.
Proof.
  destruct (case_match_wins plain_pandas (loaded plain_pandas twins) "GRAND HOTEL" 1%nat
              {[ "name" := Str "Grand Hotel"; "rooms_available" := Int 8;
                 "status" := Str con ]} "Grand Hotel")
    as (matches & Hm & Hi & _).
  { reflexivity. }
  { apply ascii_namesb_correct. reflexivity. }
  { reflexivity. }
  { vm_compute. reflexivity. }
  { vm_compute. left. }
  { reflexivity. }
  exists matches. split; [exact Hm|exact Hi].
Defined.

(** X4.  The only exception [_match_rows] raises is [re.error], and only
    from its third stage: no name equals the stripped target, none does up
    to case, the table has one of the two name columns, and the lower-cased
    target is a pattern that does not compile. *)
Theorem match_rows_raises_re_error pd df hotel_name e :
  _match_rows pd df hotel_name = Raise e →
  let target := Py.strip hotel_name in
  e = re_error ∧
  Pd.any (exact_stage df target) = false ∧
  Pd.any (lower_stage df target) = false ∧
  Pd.has_column df "name" || Pd.has_column df "hotel_name" = true ∧
  Re.simple (Py.lower target) = false ∧
  re_compile_other pd (Py.lower target) = None.
Proof.
  rewrite match_rows_stages. cbv zeta.
  destruct (Pd.any (exact_stage _ _)); [done|].
  destruct (Pd.any (lower_stage _ _)); [done|].
  destruct (_ || _); [|done].
  unfold Re.compile.
  destruct (Re.simple _); [done|].
  destruct (re_compile_other _ _); [done|].
  simpl. by intros [= <-].
Qed.

(** An unbalanced parenthesis in a target that matches no name: the
    matcher raises [re.error]. *)
Lemma unbalanced_target :
  _match_rows plain_pandas (loaded plain_pandas grand) "Grand (old" = Raise re_error ∧
  Re.simple "grand (old" = false.
Proof.
  assert (_match_rows plain_pandas (loaded plain_pandas grand) "Grand (old"
          = Raise re_error) as H by (vm_compute; reflexivity).
  split; [exact H|].
  exact (proj1 (proj2 (proj2 (proj2 (proj2
    (match_rows_raises_re_error plain_pandas (loaded plain_pandas grand) "Grand (old"
       re_error H)))))).
Defined.

(** X5.  White space around the target is ignored: the matcher returns for
    a target what it returns for the stripped target. *)
Theorem match_rows_strip_target pd df hotel_name :
  _match_rows pd df (Py.strip hotel_name) = _match_rows pd df hotel_name.
Proof. rewrite !match_rows_stages. cbv zeta. by rewrite strip_idemp. Qed.

(** X6.  For a table whose names are ASCII texts and two ASCII targets:
    when neither target equals a name of the table, and the two are equal
    up to case and surrounding white space, the matcher returns the same
    rows, or raises alike, for both. *)
Theorem match_rows_case_insensitive pd df name1 name2 :
  ascii_only name1 = true →
  ascii_only name2 = true →
  ascii_names df →
  Py.lower (Py.strip name1) = Py.lower (Py.strip name2) →
  Pd.any (exact_stage df (Py.strip name1)) = false →
  Pd.any (exact_stage df (Py.strip name2)) = false →
  _match_rows pd df name1 = _match_rows pd df name2.
Proof.
  intros _ _ _ Hl H1 H2. rewrite !match_rows_stages. cbv zeta. rewrite H1, H2.
  unfold lower_stage. by rewrite Hl.
Qed.

(** The targets [GRAND HOTEL] and [grand hotel ] select the same row of
    the table [grand]. *)
Lemma grand_any_case :
  _match_rows plain_pandas (loaded plain_pandas grand) "GRAND HOTEL" = Ok [true] ∧
  _match_rows plain_pandas (loaded plain_pandas grand) "grand hotel " = Ok [true].
Proof.
  assert (_match_rows plain_pandas (loaded plain_pandas grand) "GRAND HOTEL" = Ok [true])
    as H by (vm_compute; reflexivity).
  split; [exact H|].
  rewrite <- (match_rows_case_insensitive plain_pandas (loaded plain_pandas grand)
                "GRAND HOTEL" "grand hotel ");
    [exact H|reflexivity|reflexivity|apply ascii_namesb_correct; reflexivity|reflexivity..].
Defined.

(** X7.  A missing name reads as the text [nan] ([astype(str)], lines 52
    and 54): the target [nan] selects, at the first stage, every row whose
    [name] or [hotel_name] is missing. *)
Theorem missing_name_matches_nan pd df col i r :
  col = "name" ∨ col = "hotel_name" →
  Pd.has_column df col = true →
  rows df !! i = Some r →
  Pd.getitem r col = NaN →
  ∃ matches,
    _match_rows pd df "nan" = Ok matches ∧
    matches = exact_stage df "nan" ∧
    matches !! i = Some true.
Proof.
  intros Hcol Hhas Hr Hnan.
  destruct (exact_stage_decides pd df "nan" i r Hr) as [Hm Hi].
  { change (Py.strip "nan") with "nan". unfold row_names.
    destruct Hcol as [-> | ->]; rewrite Hhas, Hnan.
    - apply elem_of_app. left. by apply list_elem_of_singleton.
    - apply elem_of_app. right. by apply list_elem_of_singleton. }
  exists (exact_stage df "nan"). done.
Qed.

(** In the table [nameless] the target [nan] selects the row without a
    name. *)
Lemma nameless_nan :
  ∃ matches,
    _match_rows plain_pandas (loaded plain_pandas nameless) "nan" = Ok matches ∧
    matches !! 1%nat = Some true.
Proof.
  destruct (missing_name_matches_nan plain_pandas (loaded plain_pandas nameless) "name" 1%nat
              {[ "rooms_available" := Int 7; "status" := Str con; "name" := NaN ]})
    as (matches & Hm & _ & Hi).
  { by left. }
  { reflexivity. }
  { vm_compute. reflexivity. }
  { reflexivity. }
  exists matches. split; [exact Hm|exact Hi].
Defined.

(** X8.  In a table with neither a [name] nor a [hotel_name] column the
    matcher selects no row, whatever the target, and raises nothing. *)
Theorem match_rows_no_name_column pd df hotel_name :
  Pd.has_column df "name" = false →
  Pd.has_column df "hotel_name" = false →
  _match_rows pd df hotel_name = Ok (replicate (length (rows df)) false).
Proof.
  intros H1 H2. rewrite match_rows_stages. cbv zeta.
  unfold exact_stage, lower_stage.
  rewrite !stage_no_columns by (by rewrite H1, H2).
  rewrite !any_replicate_false, H1, H2. done.
Qed.

(** The table [codes_only] has a column of codes and no name: nothing is
    found, even by a target that is no regular expression. *)
Lemma codes_only_nothing :
  _match_rows plain_pandas (loaded plain_pandas codes_only) "007(" = Ok [false].
Proof.
  rewrite (match_rows_no_name_column plain_pandas (loaded plain_pandas codes_only) "007(");
    reflexivity.
Defined.

(** ** The loader *)

(** X9.  [_safe_read_csv] only reads: whatever it returns or raises, the
    file system is as before.  With no file at the path it raises
    [FileNotFoundError] at the first attempt; with a file that none of the
    three encodings parses it raises the parser's last error; with a file
    one of them parses (whichever of the three) it goes on with the table
    read, every cell as text. *)
Theorem loader_outcomes pd path w :
  (_safe_read_csv pd path w).2 = w ∧
  match now w !! path with
  | None => ∃ msg, (_safe_read_csv pd path w).1 = Raise (FileNotFoundError msg)
  | Some Malformed => (_safe_read_csv pd path w).1 = Raise ParserError
  | Some (Csv enc t) => (_safe_read_csv pd path w).1 = normalize pd (Pd.as_text t)
  end.
Proof.
  destruct (now w !! path) as [[enc t|]|] eqn:Hfile.
  - by rewrite (safe_read_csv_Csv _ _ _ _ _ Hfile).
  - unfold _safe_read_csv.
    by rewrite (bind_Raise _ _ _ _ _ (read_first_Malformed _ _ Hfile)).
  - unfold _safe_read_csv. destruct (read_first_None _ _ Hfile) as [msg Hr].
    rewrite (bind_Raise _ _ _ _ _ Hr). simpl. eauto.
Qed.

(** X10.  The table the loader returns has the columns of the file, in the
    order of the file, followed by [rooms_available] if the file has no
    such column, then by [status] if the file has no such column. *)
Theorem loader_columns pd path w df w' :
  _safe_read_csv pd path w = (Ok df, w') →
  ∃ enc t,
    now w !! path = Some (Csv enc t) ∧
    columns df =
      columns t
      ++ (if Pd.has_column t "rooms_available" then [] else ["rooms_available"])
      ++ (if Pd.has_column t "status" then [] else ["status"]).
Proof.
  intros (-> & enc & t & Hfile & Hload)%safe_read_csv_inv.
  exists enc, t. split; [done|].
  apply normalize_Ok in Hload as [Hc _]. rewrite Hc. apply loaded_columns_app.
Qed.

(** The file [inventory] has no status column: the loader adds one after
    the three columns of the file. *)
Lemma inventory_columns :
  ∃ df,
    _safe_read_csv plain_pandas "data/hotels.csv" (one_file "data/hotels.csv" inventory)
      = (Ok df, one_file "data/hotels.csv" inventory) ∧
    columns df = ["code"; "hotel_name"; "rooms_available"; "status"].
Proof.
  set (w := one_file "data/hotels.csv" inventory).
  assert (_safe_read_csv plain_pandas "data/hotels.csv" w
          = (Ok (loaded plain_pandas inventory), w)) as Hrun by (vm_compute; reflexivity).
  destruct (loader_columns _ _ _ _ _ Hrun) as (enc & t & Hfile & Hcols).
  assert (Some (Csv utf_8 inventory) = Some (Csv enc t)) as [= <- <-]
    by (rewrite <- Hfile; reflexivity).
  exists (loaded plain_pandas inventory). split; [exact Hrun|exact Hcols].
Defined.

(** X11.  The status column of a loaded table: when the file has a status
    column, every row keeps the status of the file, consistent with the
    availability or not (a missing status stays missing); when the file
    has none, every row gets the label of its availability, [còn] if it is
    greater than 0 and [hết] otherwise. *)
Theorem loader_status pd path w df w' :
  _safe_read_csv pd path w = (Ok df, w') →
  ∃ enc t,
    now w !! path = Some (Csv enc t) ∧
    (Pd.has_column t "status" = true →
     ∀ j r, rows t !! j = Some r → status df j = Pd.text_cell <$> r !! "status") ∧
    (Pd.has_column t "status" = false →
     ∀ j, (j < length (rows t))%nat →
       ∃ n, rooms_available df j = Some n ∧
            status df j = Some (Str (if 0 <? n then con else het))).
Proof.
  intros (-> & enc & t & Hfile & Hload)%safe_read_csv_inv.
  exists enc, t. split; [done|]. split.
  - intros Hs j r Hr.
    pose proof Hload as [_ Hrows]%normalize_Ok.
    assert (rows (Pd.as_text t) !! j = Some (Pd.text_cell <$> r)) as Hr0.
    { unfold Pd.as_text; simpl. by rewrite list_lookup_fmap, Hr. }
    destruct (Forall2_lookup_l _ _ _ _ _ Hrows Hr0) as (r' & Hr' & Hl).
    change (Pd.has_column (Pd.as_text t) "status") with (Pd.has_column t "status") in Hl.
    rewrite Hs in Hl. apply load_row_Ok in Hl as (n & _ & ->).
    unfold status. rewrite Hr'. simpl.
    by rewrite lookup_insert_ne, lookup_fmap.
  - intros Hs j Hj.
    pose proof (normalize_well_loaded _ _ _ Hload) as Hwl.
    destruct (well_loaded_rooms df j Hwl) as [n Hn].
    { rewrite (normalize_length _ _ _ Hload). unfold Pd.as_text; simpl.
      by rewrite length_fmap. }
    exists n. split; [done|].
    by eapply loaded_status.
Qed.

(** The file [stale] has a status column: the loader keeps the label [hết]
    of its first row beside the five rooms. *)
Lemma stale_status_kept :
  ∃ df,
    _safe_read_csv plain_pandas "hotels.csv" (one_file "hotels.csv" stale)
      = (Ok df, one_file "hotels.csv" stale) ∧
    rooms_available df 0 = Some 5 ∧
    status df 0 = Some (Str het).
Proof.
  set (w := one_file "hotels.csv" stale).
  assert (_safe_read_csv plain_pandas "hotels.csv" w
          = (Ok (loaded plain_pandas stale), w)) as Hrun by (vm_compute; reflexivity).
  destruct (loader_status _ _ _ _ _ Hrun) as (enc & t & Hfile & Hkeep & _).
  assert (Some (Csv utf_8 stale) = Some (Csv enc t)) as [= <- <-]
    by (rewrite <- Hfile; reflexivity).
  exists (loaded plain_pandas stale). split; [exact Hrun|]. split; [reflexivity|].
  rewrite (Hkeep eq_refl 0%nat _ eq_refl). reflexivity.
Defined.

(** ** Calls that raise *)

(** X12.  When the matcher selects no row, a decrement and an increment
    raise the [ValueError] that names the hotel and the path as they were
    given, and the file system, history included, is as before: nothing
    is written and no temporary file is created. *)
Theorem no_match_changes_nothing pd rnd path hotel_name a w df matches :
  0 < a →
  loads pd w path df →
  _match_rows pd df hotel_name = Ok matches →
  Pd.any matches = false →
  decrement_room_availability pd rnd path hotel_name a w
    = (Raise (ValueError (no_match_message hotel_name path)), w) ∧
  increment_room_availability pd rnd path hotel_name a w
    = (Raise (ValueError (no_match_message hotel_name path)), w).
Proof.
  intros Ha Hload Hm Hany. rewrite decrement_unfold, increment_unfold.
  assert ((a <=? 0) = false) as -> by lia.
  split; by eapply read_match_write_no_match.
Qed.

(** No hotel of the table [sunrise] is called [Moonlight]. *)
Lemma moonlight_not_found :
  decrement_room_availability plain_pandas "k3x9" "hotels.csv" " Moonlight" 2
    (one_file "hotels.csv" sunrise)
  = (Raise (ValueError "No matching hotel found for name ' Moonlight' in hotels.csv"),
     one_file "hotels.csv" sunrise).
Proof.
  refine (proj1 (no_match_changes_nothing plain_pandas "k3x9" "hotels.csv" " Moonlight" 2
                   (one_file "hotels.csv" sunrise) (loaded plain_pandas sunrise) [false]
                   _ _ _ _)).
  - lia.
  - exists utf_8, sunrise. split; reflexivity.
  - reflexivity.
  - reflexivity.
Defined.

(** X13.  When the file at the path is one that none of the three
    encodings parses, a decrement and an increment raise the parser's
    error and leave the file system, history included, as it was. *)
Theorem unparsable_file_changes_nothing pd rnd path hotel_name a w :
  0 < a →
  now w !! path = Some Malformed →
  decrement_room_availability pd rnd path hotel_name a w = (Raise ParserError, w) ∧
  increment_room_availability pd rnd path hotel_name a w = (Raise ParserError, w).
Proof.
  intros Ha Hfile. rewrite decrement_unfold, increment_unfold.
  assert ((a <=? 0) = false) as -> by lia.
  split; by apply read_match_write_malformed.
Qed.

(** An increment on a file that does not parse. *)
Lemma broken_file_raises :
  increment_room_availability plain_pandas "k3x9" "hotels.csv" "Sunrise Inn" 1
    (broken_file "hotels.csv")
  = (Raise ParserError, broken_file "hotels.csv").
Proof.
  refine (proj2 (unparsable_file_changes_nothing plain_pandas "k3x9" "hotels.csv"
                   "Sunrise Inn" 1 (broken_file "hotels.csv") _ _)).
  - lia.
  - reflexivity.
Defined.

(** X14.  A decrement or an increment that raises has changed nothing: the
    file system, history included, is as before the call.  The exception
    is that of the amount check, of the missing file or of the missing
    match, or one passed on from the parser, from [astype(int)], from
    [re], from the assignment of a sum the int64 column cannot hold or
    from [mkstemp]; the look-up of the first matching row and of its
    availability never fails.  (A failure of the operating system while
    the temporary file is written or renamed is not part of the model.) *)
Theorem failed_call_changes_nothing pd rnd path hotel_name a w e w' :
  decrement_room_availability pd rnd path hotel_name a w = (Raise e, w') ∨
  increment_room_availability pd rnd path hotel_name a w = (Raise e, w') →
  w' = w ∧
  (e = ValueError "decrement must be positive" ∨
   e = ValueError "increment must be positive" ∨
   e = FileNotFoundError ("Hotels CSV not found: " +:+ path) ∨
   e = ParserError ∨
   e = IntCastingNaNError ∨
   e = re_error ∨
   e = ValueError (no_match_message hotel_name path) ∨
   e = AssertionError ∨
   e = FileExistsError).
Proof.
  assert (∀ new, read_match_write pd rnd path hotel_name new w = (Raise e, w') →
            w' = w ∧
            (e = FileNotFoundError ("Hotels CSV not found: " +:+ path) ∨
             e = ParserError ∨ e = IntCastingNaNError ∨ e = re_error ∨
             e = ValueError (no_match_message hotel_name path) ∨
             e = AssertionError ∨
             e = FileExistsError)) as Hrun.
  { intros new H. apply read_match_write_Raise in H as [-> H]. split; [done|].
    destruct H as [[-> _]|[[-> _]|[[-> _]|[[-> _]|[[-> _]|[[-> _]|[-> _]]]]]]]; auto 10. }
  intros [H|H].
  - rewrite decrement_unfold in H. destruct (a <=? 0).
    + injection H as <- <-. auto.
    + apply Hrun in H as [-> H]. split; [done|]. do 2 right. exact H.
  - rewrite increment_unfold in H. destruct (a <=? 0).
    + injection H as <- <-. auto.
    + apply Hrun in H as [-> H]. split; [done|]. do 2 right. exact H.
Qed.

(** A target with an unbalanced parenthesis that matches no name: the
    decrement raises the error of [re], and the file is as it was. *)
Lemma unbalanced_target_call :
  ∃ w',
    decrement_room_availability plain_pandas "k3x9" "hotels.csv" "Grand (old" 1
      (one_file "hotels.csv" grand) = (Raise re_error, w') ∧
    w' = one_file "hotels.csv" grand.
Proof.
  set (w := one_file "hotels.csv" grand).
  set (run := decrement_room_availability plain_pandas "k3x9" "hotels.csv" "Grand (old" 1 w).
  assert (run = (Raise re_error, run.2)) as H by (vm_compute; reflexivity).
  exists run.2. split; [exact H|].
  exact (proj1 (failed_call_changes_nothing plain_pandas "k3x9" "hotels.csv" "Grand (old" 1
                  w re_error run.2 (or_introl H))).
Defined.

(** ** One call after another *)

(** X15.  What a call returns is what the next load finds: after a
    successful decrement or increment of a table whose availabilities, the
    new one included, float64 holds exactly, [_safe_read_csv] returns the
    loaded table with the matched row mutated; the same hotel name selects
    the same row in it, and that row holds the value returned. *)
Theorem reload_after_mutation pd rnd path hotel_name a w v w' df :
  decrement_room_availability pd rnd path hotel_name a w = (Ok v, w') ∨
  increment_room_availability pd rnd path hotel_name a w = (Ok v, w') →
  loads pd w path df →
  counts_exact df →
  Num.exact v = true →
  ∃ i,
    first_match pd df hotel_name i ∧
    _safe_read_csv pd path w' = (Ok (mutate df i v), w') ∧
    first_match pd (mutate df i v) hotel_name i ∧
    rooms_available (mutate df i v) i = Some v ∧
    status (mutate df i v) i = Some (Str (if 0 <? v then con else het)).
Proof.
  intros Hcall Hload Hex Hv.
  assert (∃ i, first_match pd df hotel_name i ∧
               now w' = <[path := Csv utf_8_sig (Pd.as_text (mutate df i v))]> (now w))
    as (i & Hmatch & Hnow).
  { destruct Hcall as [H|H].
    - apply decrement_inv in H as (_ & df' & i & c & Hl & Hm & _ & _ & _ & Hnow).
      rewrite <- (loads_unique _ _ _ _ _ Hload Hl) in *. eauto.
    - apply increment_inv in H as (_ & df' & i & c & Hl & Hm & _ & _ & _ & Hnow).
      rewrite <- (loads_unique _ _ _ _ _ Hload Hl) in *. eauto. }
  pose proof Hload as (enc & t & _ & Hwl%normalize_well_loaded).
  pose proof (first_match_lt _ _ _ _ Hmatch) as Hlt.
  assert (loads pd w' path (mutate df i v)) as (enc' & t' & Hfile' & Hload').
  { apply loads_written.
    - by apply mutate_well_loaded.
    - by apply mutate_counts_exact.
    - rewrite Hnow. apply lookup_insert_eq. }
  exists i. split; [done|]. split.
  { by rewrite (safe_read_csv_Csv _ _ _ _ _ Hfile'), Hload'. }
  split.
  { destruct Hmatch as (matches & Hm & Hi). exists matches. by rewrite match_rows_mutate. }
  split; [by apply mutate_rooms_available|by apply mutate_status].
Qed.

(** After the decrement of [Sunrise Inn] by 3 the file loads with 7 rooms
    in its row. *)
Lemma sunrise_reloaded :
  ∃ w' df',
    decrement_room_availability plain_pandas "k3x9" "hotels.csv" "Sunrise Inn" 3
      (one_file "hotels.csv" sunrise) = (Ok 7, w') ∧
    _safe_read_csv plain_pandas "hotels.csv" w' = (Ok df', w') ∧
    rooms_available df' 0 = Some 7.
Proof.
  set (w := one_file "hotels.csv" sunrise).
  set (run := decrement_room_availability plain_pandas "k3x9" "hotels.csv" "Sunrise Inn" 3 w).
  assert (run = (Ok 7, run.2)) as Hrun by (vm_compute; reflexivity).
  destruct (reload_after_mutation plain_pandas "k3x9" "hotels.csv" "Sunrise Inn" 3 w 7 run.2
              (loaded plain_pandas sunrise) (or_introl Hrun))
    as (i & Hm & Hread & _ & Hrooms & _).
  { exists utf_8, sunrise. split; reflexivity. }
  { apply counts_exactb_correct. reflexivity. }
  { reflexivity. }
  assert (i = 0%nat) as ->.
  { apply first_match_lt in Hm. vm_compute in Hm. lia. }
  exists run.2, (mutate (loaded plain_pandas sunrise) 0 7).
  split; [exact Hrun|]. split; [exact Hread|exact Hrooms].
Defined.

(** X16.  Two decrements of the same hotel, by [a] then by [b], return
    [max(0, c - a)] then [max(0, c - a - b)], and leave the file system as
    one decrement by [a + b] does (the history apart). *)
Theorem decrements_compose pd rnd1 rnd2 rnd path hotel_name a b w df i c :
  0 < a → 0 < b →
  loads pd w path df →
  counts_exact df →
  first_match pd df hotel_name i →
  rooms_available df i = Some c →
  now w !! tmp_path_of rnd1 path = None →
  now w !! tmp_path_of rnd2 path = None →
  now w !! tmp_path_of rnd path = None →
  ∃ w1 w2 w3,
    decrement_room_availability pd rnd1 path hotel_name a w
      = (Ok (Z.max 0 (c - a)), w1) ∧
    decrement_room_availability pd rnd2 path hotel_name b w1
      = (Ok (Z.max 0 (c - a - b)), w2) ∧
    decrement_room_availability pd rnd path hotel_name (a + b) w
      = (Ok (Z.max 0 (c - a - b)), w3) ∧
    now w2 = now w3.
Proof.
  intros Ha Hb Hload Hex Hmatch Hc Hf1 Hf2 Hf.
  pose proof Hload as (enc & t & _ & Hwl%normalize_well_loaded).
  pose proof (first_match_lt _ _ _ _ Hmatch) as Hlt.
  destruct (read_match_write_then pd rnd1 rnd2 path hotel_name hotel_name
              (λ current, Z.max 0 (current - a)) (λ current, Z.max 0 (current - b))
              w df i i c (Z.max 0 (c - a)))
    as (w1 & w2 & Hrun1 & _ & Hrun2 & Hnow2); try done.
  { by apply mutate_rooms_available. }
  { apply exact_clamped; [by apply (Hex i)|done]. }
  { pose proof (loads_int64 _ _ _ _ _ _ Hload Hc). rewrite int64_max_spec. lia. }
  destruct (read_match_write_run pd rnd path hotel_name
              (λ current, Z.max 0 (current - (a + b))) w df i c)
    as (w3 & _ & _ & Hrun3 & Hnow3 & _); try done.
  { pose proof (loads_int64 _ _ _ _ _ _ Hload Hc). rewrite int64_max_spec. lia. }
  simpl in Hrun2, Hnow2, Hrun3, Hnow3.
  rewrite mutate_mutate in Hnow2 by done.
  assert (Z.max 0 (Z.max 0 (c - a) - b) = Z.max 0 (c - a - b)) as E1 by lia.
  assert (Z.max 0 (c - (a + b)) = Z.max 0 (c - a - b)) as E2 by lia.
  rewrite E1 in Hrun2, Hnow2. rewrite E2 in Hrun3, Hnow3.
  exists w1, w2, w3. rewrite !decrement_unfold.
  assert ((a <=? 0) = false) as -> by lia.
  assert ((b <=? 0) = false) as -> by lia.
  assert ((a + b <=? 0) = false) as -> by lia.
  split; [done|]. split; [done|]. split; [done|]. congruence.
Qed.

(** Ten rooms at [Sunrise Inn], less three, less four: three are left, as
    after one decrement by seven. *)
Lemma sunrise_two_decrements :
  ∃ w1 w2 w3,
    decrement_room_availability plain_pandas "k3x9" "hotels.csv" "Sunrise Inn" 3
      (one_file "hotels.csv" sunrise) = (Ok 7, w1) ∧
    decrement_room_availability plain_pandas "p07q" "hotels.csv" "Sunrise Inn" 4 w1
      = (Ok 3, w2) ∧
    decrement_room_availability plain_pandas "z1y2" "hotels.csv" "Sunrise Inn" 7
      (one_file "hotels.csv" sunrise) = (Ok 3, w3) ∧
    now w2 = now w3.
Proof.
  destruct (decrements_compose plain_pandas "k3x9" "p07q" "z1y2" "hotels.csv"
              "Sunrise Inn" 3 4 (one_file "hotels.csv" sunrise)
              (loaded plain_pandas sunrise) 0%nat 10)
    as (w1 & w2 & w3 & H1 & H2 & H3 & Hnow).
  { lia. }
  { lia. }
  { exists utf_8, sunrise. split; reflexivity. }
  { apply counts_exactb_correct. reflexivity. }
  { exists [true]. split; reflexivity. }
  { reflexivity. }
  { reflexivity. }
  { reflexivity. }
  { reflexivity. }
  exists w1, w2, w3. split; [exact H1|]. split; [exact H2|]. split; [exact H3|exact Hnow].
Defined.

(** X17.  Two increments of the same hotel, by [a] then by [b], return
    [c + a] then [c + a + b] and leave the file system as one increment by
    [a + b] does (the history apart), as long as float64 holds [c + a]
    exactly and the int64 column holds [c + a + b], that is
    [c + a + b <= 2^63 - 1]. *)
Theorem increments_compose pd rnd1 rnd2 rnd path hotel_name a b w df i c :
  0 < a → 0 < b →
  loads pd w path df →
  counts_exact df →
  Num.exact (c + a) = true →
  c + a + b ≤ 2 ^ 63 - 1 →
  first_match pd df hotel_name i →
  rooms_available df i = Some c →
  now w !! tmp_path_of rnd1 path = None →
  now w !! tmp_path_of rnd2 path = None →
  now w !! tmp_path_of rnd path = None →
  ∃ w1 w2 w3,
    increment_room_availability pd rnd1 path hotel_name a w = (Ok (c + a), w1) ∧
    increment_room_availability pd rnd2 path hotel_name b w1 = (Ok (c + a + b), w2) ∧
    increment_room_availability pd rnd path hotel_name (a + b) w = (Ok (c + a + b), w3) ∧
    now w2 = now w3.
Proof.
  intros Ha Hb Hload Hex Hca Hmax Hmatch Hc Hf1 Hf2 Hf.
  pose proof Hload as (enc & t & _ & Hwl%normalize_well_loaded).
  pose proof (first_match_lt _ _ _ _ Hmatch) as Hlt.
  destruct (read_match_write_then pd rnd1 rnd2 path hotel_name hotel_name
              (λ current, current + a) (λ current, current + b)
              w df i i c (c + a))
    as (w1 & w2 & Hrun1 & _ & Hrun2 & Hnow2); try done.
  { by apply mutate_rooms_available. }
  destruct (read_match_write_run pd rnd path hotel_name
              (λ current, current + (a + b)) w df i c)
    as (w3 & _ & _ & Hrun3 & Hnow3 & _); try done.
  { rewrite int64_max_spec. lia. }
  simpl in Hrun2, Hnow2, Hrun3, Hnow3.
  rewrite mutate_mutate in Hnow2 by done.
  assert (c + (a + b) = c + a + b) as E by lia.
  rewrite E in Hrun3, Hnow3.
  exists w1, w2, w3. rewrite !increment_unfold.
  assert ((a <=? 0) = false) as -> by lia.
  assert ((b <=? 0) = false) as -> by lia.
  assert ((a + b <=? 0) = false) as -> by lia.
  split; [done|]. split; [done|]. split; [done|]. congruence.
Qed.

(** Ten rooms at [Sunrise Inn], plus one, plus two: thirteen, as after
    one increment by three. *)
Lemma sunrise_two_increments :
  ∃ w1 w2 w3,
    increment_room_availability plain_pandas "k3x9" "hotels.csv" "Sunrise Inn" 1
      (one_file "hotels.csv" sunrise) = (Ok 11, w1) ∧
    increment_room_availability plain_pandas "p07q" "hotels.csv" "Sunrise Inn" 2 w1
      = (Ok 13, w2) ∧
    increment_room_availability plain_pandas "z1y2" "hotels.csv" "Sunrise Inn" 3
      (one_file "hotels.csv" sunrise) = (Ok 13, w3) ∧
    now w2 = now w3.
Proof.
  destruct (increments_compose plain_pandas "k3x9" "p07q" "z1y2" "hotels.csv"
              "Sunrise Inn" 1 2 (one_file "hotels.csv" sunrise)
              (loaded plain_pandas sunrise) 0%nat 10)
    as (w1 & w2 & w3 & H1 & H2 & H3 & Hnow).
  { lia. }
  { lia. }
  { exists utf_8, sunrise. split; reflexivity. }
  { apply counts_exactb_correct. reflexivity. }
  { reflexivity. }
  { lia. }
  { exists [true]. split; reflexivity. }
  { reflexivity. }
  { reflexivity. }
  { reflexivity. }
  { reflexivity. }
  exists w1, w2, w3. split; [exact H1|]. split; [exact H2|]. split; [exact H3|exact Hnow].
Defined.

(** X18.  An increment followed by a decrement of the same amount [a] on
    the same hotel restores a non-negative availability [c], as long as
    float64 holds [c + a] exactly (so [c + a] is at most [2^53]): the
    decrement returns [c], and the file holds the loaded table with [c]
    and its status label in the matched row. *)
Theorem increment_then_decrement pd rnd1 rnd2 path hotel_name a w df i c :
  0 < a → 0 ≤ c →
  loads pd w path df →
  counts_exact df →
  Num.exact (c + a) = true →
  first_match pd df hotel_name i →
  rooms_available df i = Some c →
  now w !! tmp_path_of rnd1 path = None →
  now w !! tmp_path_of rnd2 path = None →
  ∃ w1 w2,
    increment_room_availability pd rnd1 path hotel_name a w = (Ok (c + a), w1) ∧
    decrement_room_availability pd rnd2 path hotel_name a w1 = (Ok c, w2) ∧
    now w2 = <[path := Csv utf_8_sig (Pd.as_text (mutate df i c))]> (now w) ∧
    rooms_available (mutate df i c) i = Some c ∧
    ∀ j, j ≠ i → rows (mutate df i c) !! j = rows df !! j.
Proof.
  intros Ha Hc0 Hload Hex Hca Hmatch Hc Hf1 Hf2.
  pose proof Hload as (enc & t & _ & Hwl%normalize_well_loaded).
  pose proof (first_match_lt _ _ _ _ Hmatch) as Hlt.
  destruct (read_match_write_then pd rnd1 rnd2 path hotel_name hotel_name
              (λ current, current + a) (λ current, Z.max 0 (current - a))
              w df i i c (c + a))
    as (w1 & w2 & Hrun1 & _ & Hrun2 & Hnow2); try done.
  { by apply mutate_rooms_available. }
  { apply exact_int64, int64_spec in Hca. rewrite int64_max_spec. lia. }
  simpl in Hrun2, Hnow2.
  rewrite mutate_mutate in Hnow2 by done.
  assert (Z.max 0 (c + a - a) = c) as E by lia.
  rewrite E in Hrun2, Hnow2.
  exists w1, w2. rewrite increment_unfold, decrement_unfold.
  assert ((a <=? 0) = false) as -> by lia.
  split; [done|]. split; [done|]. split; [done|].
  split; [by apply mutate_rooms_available|].
  intros j Hj. by apply mutate_lookup_ne.
Qed.

(** Ten rooms at [Sunrise Inn], plus twenty-five, less twenty-five. *)
Lemma sunrise_there_and_back :
  ∃ w1 w2,
    increment_room_availability plain_pandas "k3x9" "hotels.csv" "Sunrise Inn" 25
      (one_file "hotels.csv" sunrise) = (Ok 35, w1) ∧
    decrement_room_availability plain_pandas "p07q" "hotels.csv" "Sunrise Inn" 25 w1
      = (Ok 10, w2).
Proof.
  destruct (increment_then_decrement plain_pandas "k3x9" "p07q" "hotels.csv"
              "Sunrise Inn" 25 (one_file "hotels.csv" sunrise)
              (loaded plain_pandas sunrise) 0%nat 10)
    as (w1 & w2 & H1 & H2 & _).
  { lia. }
  { lia. }
  { exists utf_8, sunrise. split; reflexivity. }
  { apply counts_exactb_correct. reflexivity. }
  { reflexivity. }
  { exists [true]. split; reflexivity. }
  { reflexivity. }
  { reflexivity. }
  { reflexivity. }
  exists w1, w2. split; [exact H1|exact H2].
Defined.

(** X19.  Calls on two hotels that the matcher finds in different rows can
    be made in either order: for a table whose availabilities float64
    holds exactly, a decrement of the one by [a] and an increment of the
    other by [b], whose result [d + b] float64 holds exactly too (so it is
    at most [2^53]), return the same values and leave the same file system
    (the history apart) whichever comes first. *)
Theorem different_hotels_commute pd rnd1 rnd2 rnd3 rnd4 path name1 name2 a b w df i j c d :
  0 < a → 0 < b →
  loads pd w path df →
  counts_exact df →
  first_match pd df name1 i →
  first_match pd df name2 j →
  i ≠ j →
  rooms_available df i = Some c →
  rooms_available df j = Some d →
  Num.exact (d + b) = true →
  now w !! tmp_path_of rnd1 path = None →
  now w !! tmp_path_of rnd2 path = None →
  now w !! tmp_path_of rnd3 path = None →
  now w !! tmp_path_of rnd4 path = None →
  ∃ w1 w2 w3 w4,
    decrement_room_availability pd rnd1 path name1 a w = (Ok (Z.max 0 (c - a)), w1) ∧
    increment_room_availability pd rnd2 path name2 b w1 = (Ok (d + b), w2) ∧
    increment_room_availability pd rnd3 path name2 b w = (Ok (d + b), w3) ∧
    decrement_room_availability pd rnd4 path name1 a w3 = (Ok (Z.max 0 (c - a)), w4) ∧
    now w2 = now w4.
Proof.
  intros Ha Hb Hload Hex Hm1 Hm2 Hne Hc Hd Hdb Hf1 Hf2 Hf3 Hf4.
  pose proof Hload as (enc & t & _ & Hwl%normalize_well_loaded).
  destruct (read_match_write_then pd rnd1 rnd2 path name1 name2
              (λ current, Z.max 0 (current - a)) (λ current, current + b)
              w df i j c d)
    as (w1 & w2 & Hrun1 & _ & Hrun2 & Hnow2); try done.
  { unfold rooms_available. rewrite mutate_lookup_ne by done. exact Hd. }
  { apply exact_clamped; [by apply (Hex i)|done]. }
  { apply exact_int64, int64_spec in Hdb. rewrite int64_max_spec. lia. }
  destruct (read_match_write_then pd rnd3 rnd4 path name2 name1
              (λ current, current + b) (λ current, Z.max 0 (current - a))
              w df j i d c)
    as (w3 & w4 & Hrun3 & _ & Hrun4 & Hnow4); try done.
  { unfold rooms_available. rewrite mutate_lookup_ne by done. exact Hc. }
  { pose proof (loads_int64 _ _ _ _ _ _ Hload Hc). rewrite int64_max_spec. lia. }
  simpl in *.
  exists w1, w2, w3, w4. rewrite !decrement_unfold, !increment_unfold.
  assert ((a <=? 0) = false) as -> by lia.
  assert ((b <=? 0) = false) as -> by lia.
  split; [done|]. split; [done|]. split; [done|]. split; [done|].
  rewrite Hnow2, Hnow4. by rewrite (mutate_swap df i j).
Qed.

(** In the table [stale], a decrement of [Alpha] and an increment of
    [Beta], in the two orders. *)
Lemma alpha_beta_either_order :
  ∃ w1 w2 w3 w4,
    decrement_room_availability plain_pandas "k3x9" "hotels.csv" "Alpha" 2
      (one_file "hotels.csv" stale) = (Ok 3, w1) ∧
    increment_room_availability plain_pandas "p07q" "hotels.csv" "Beta" 1 w1 = (Ok 4, w2) ∧
    increment_room_availability plain_pandas "z1y2" "hotels.csv" "Beta" 1
      (one_file "hotels.csv" stale) = (Ok 4, w3) ∧
    decrement_room_availability plain_pandas "m4n5" "hotels.csv" "Alpha" 2 w3 = (Ok 3, w4) ∧
    now w2 = now w4.
Proof.
  destruct (different_hotels_commute plain_pandas "k3x9" "p07q" "z1y2" "m4n5" "hotels.csv"
              "Alpha" "Beta" 2 1 (one_file "hotels.csv" stale)
              (loaded plain_pandas stale) 0%nat 1%nat 5 3)
    as (w1 & w2 & w3 & w4 & H1 & H2 & H3 & H4 & Hnow).
  { lia. }
  { lia. }
  { exists utf_8, stale. split; reflexivity. }
  { apply counts_exactb_correct. reflexivity. }
  { exists [true; false]. split; reflexivity. }
  { exists [false; true]. split; reflexivity. }
  { lia. }
  { reflexivity. }
  { reflexivity. }
  { reflexivity. }
  { reflexivity. }
  { reflexivity. }
  { reflexivity. }
  { reflexivity. }
  exists w1, w2, w3, w4.
  split; [exact H1|]. split; [exact H2|]. split; [exact H3|]. split; [exact H4|exact Hnow].
Defined.

(** ** The writer *)

(** X20.  For a path without a directory part, [_atomic_write_csv] gives
    [mkstemp] the directory [.] (line 38): the temporary file is
    [./tmp<rnd>.csv], it holds the whole table before the replacement, and
    the call leaves the table at the path. *)
Theorem bare_name_temp_file rnd df path w :
  all_chars not_sep path = true →
  now w !! ("./tmp" +:+ rnd +:+ ".csv") = None →
  ∃ w' s steps,
    _atomic_write_csv rnd df path w = (Ok (), w') ∧
    past w' = s :: steps ++ past w ∧
    s !! ("./tmp" +:+ rnd +:+ ".csv") = Some (Csv utf_8_sig (Pd.as_text df)) ∧
    now w' = <[path := Csv utf_8_sig (Pd.as_text df)]> (now w).
Proof.
  intros Hpath Hfresh.
  assert (tmp_path_of rnd path = "./tmp" +:+ rnd +:+ ".csv") as Htmp.
  { unfold tmp_path_of, os.dirname. by rewrite (head_of_no_sep _ Hpath). }
  assert (tmp_path_of rnd path ≠ path) as Hne.
  { rewrite Htmp. intros <-. discriminate Hpath. }
  rewrite <- Htmp in Hfresh.
  destruct (atomic_write_run rnd df path w Hfresh Hne)
    as (w' & s & steps & Hrun & Hnow & Hpast & Hs & _).
  rewrite Htmp in Hs. exists w', s, steps. done.
Qed.

(** The write of the loaded [sunrise] to [hotels.csv] goes through
    [./tmpk3x9.csv]. *)
Lemma sunrise_written :
  ∃ w' s steps,
    _atomic_write_csv "k3x9" (loaded plain_pandas sunrise) "hotels.csv"
      (one_file "hotels.csv" sunrise) = (Ok (), w') ∧
    past w' = s :: steps ++ [] ∧
    s !! "./tmpk3x9.csv" = Some (Csv utf_8_sig (Pd.as_text (loaded plain_pandas sunrise))) ∧
    now w' !! "hotels.csv"
      = Some (Csv utf_8_sig (Pd.as_text (loaded plain_pandas sunrise))).
Proof.
  destruct (bare_name_temp_file "k3x9" (loaded plain_pandas sunrise) "hotels.csv"
              (one_file "hotels.csv" sunrise))
    as (w' & s & steps & Hrun & Hpast & Hs & Hnow).
  { reflexivity. }
  { reflexivity. }
  exists w', s, steps. split; [exact Hrun|]. split; [exact Hpast|]. split; [exact Hs|].
  rewrite Hnow. reflexivity.
Defined.

(** X21.  A successful call rewrites the availability of every row, not
    only of the matched one: in the file it leaves, each row holds in
    [rooms_available] the decimal digits of its integer, the returned
    value in the matched row and the loaded value in the others, whatever
    the text was before (a field [1,200.0] becomes [1200]). *)
Theorem written_counts_are_digits pd rnd path hotel_name a w v w' :
  decrement_room_availability pd rnd path hotel_name a w = (Ok v, w') ∨
  increment_room_availability pd rnd path hotel_name a w = (Ok v, w') →
  ∃ df i t',
    loads pd w path df ∧
    first_match pd df hotel_name i ∧
    now w' !! path = Some (Csv utf_8_sig t') ∧
    columns t' = columns df ∧
    length (rows t') = length (rows df) ∧
    ∀ j r', rows t' !! j = Some r' →
      ∃ n, r' !! "rooms_available" = Some (Str (Py.str_of_int n)) ∧
           (j = i → n = v) ∧
           (j ≠ i → rooms_available df j = Some n).
Proof.
  intros Hcall.
  assert (∃ df i,
            loads pd w path df ∧ first_match pd df hotel_name i ∧
            now w' = <[path := Csv utf_8_sig (Pd.as_text (mutate df i v))]> (now w))
    as (df & i & Hload & Hmatch & Hnow).
  { destruct Hcall as [H|H].
    - apply decrement_inv in H as (_ & df & i & c & Hl & Hm & _ & _ & _ & Hnow). eauto.
    - apply increment_inv in H as (_ & df & i & c & Hl & Hm & _ & _ & _ & Hnow). eauto. }
  pose proof Hload as (enc & t & _ & Hwl%normalize_well_loaded).
  pose proof (first_match_lt _ _ _ _ Hmatch) as Hlt.
  exists df, i, (Pd.as_text (mutate df i v)).
  split; [done|]. split; [done|].
  split; [rewrite Hnow; apply lookup_insert_eq|].
  split; [by apply mutate_columns|].
  split; [unfold Pd.as_text; cbn [rows]; by rewrite length_fmap, mutate_length|].
  intros j r' Hr'. unfold Pd.as_text in Hr'; cbn [rows] in Hr'.
  rewrite list_lookup_fmap in Hr'.
  destruct (rows (mutate df i v) !! j) as [r|] eqn:Hr; [|done].
  injection Hr' as <-.
  destruct (well_loaded_rooms (mutate df i v) j (mutate_well_loaded df i v Hwl)) as [n Hn].
  { by apply lookup_lt_Some in Hr. }
  exists n. split; [|split].
  - unfold rooms_available in Hn. rewrite Hr in Hn. rewrite lookup_fmap.
    destruct (r !! "rooms_available") as [[| |m]|]; try done.
    by injection Hn as ->.
  - intros ->. rewrite mutate_rooms_available in Hn by done. congruence.
  - intros Hj. unfold rooms_available in *. by rewrite mutate_lookup_ne in Hn.
Qed.

(** A decrement of [Sea View] in the table [inventory]: the field
    [1,200.0] of the other row is written back as [1200]. *)
Lemma inventory_rewritten :
  ∃ w' t' r',
    decrement_room_availability plain_pandas "k3x9" "data/hotels.csv" "Sea View" 1
      (one_file "data/hotels.csv" inventory) = (Ok 3, w') ∧
    now w' !! "data/hotels.csv" = Some (Csv utf_8_sig t') ∧
    rows t' !! 0%nat = Some r' ∧
    r' !! "rooms_available" = Some (Str "1200").
Proof.
  set (w := one_file "data/hotels.csv" inventory).
  set (run := decrement_room_availability plain_pandas "k3x9" "data/hotels.csv" "Sea View" 1 w).
  assert (run = (Ok 3, run.2)) as Hrun by (vm_compute; reflexivity).
  destruct (written_counts_are_digits plain_pandas "k3x9" "data/hotels.csv" "Sea View" 1 w 3
              run.2 (or_introl Hrun))
    as (df & i & t' & Hload & Hm & Hfile & _ & Hlen & Hrows).
  assert (df = loaded plain_pandas inventory) as ->.
  { apply (loads_unique plain_pandas w "data/hotels.csv"); [exact Hload|].
    exists utf_8, inventory. split; reflexivity. }
  assert (i = 1%nat) as ->.
  { destruct Hm as (matches & Hm & Hi).
    assert (Ok matches = Ok [false; true]) as [= ->] by (rewrite <- Hm; reflexivity).
    assert (Ok i = Ok 1%nat) as [= ->] by (rewrite <- Hi; reflexivity).
    reflexivity. }
  destruct (rows t' !! 0%nat) as [r'|] eqn:Hr'.
  - destruct (Hrows 0%nat r' Hr') as (n & Hn & _ & Hother).
    assert (Some 1200 = Some n) as [= <-] by (rewrite <- Hother by lia; reflexivity).
    exists run.2, t', r'. split; [exact Hrun|]. split; [exact Hfile|].
    split; [exact Hr'|exact Hn].
  - apply lookup_ge_None in Hr'. rewrite Hlen in Hr'. vm_compute in Hr'. lia.
Defined.
